(** * Copy-trading pipeline of the Solana trading bot

    A shallow embedding of [app/core/solana_client.py] (notification
    handling and transaction classification) and [app/core/bot_manager.py]
    (copy policy, history ring, statistics, history paging), together with
    the properties of the design document that concern them.

    Python values are modelled as the interpreter has them: [int] as [Z],
    [float] as IEEE-754 binary64 ([spec_float]), [Optional[T]] as [option],
    decoded JSON as a tree, exceptions as an error result. *)

From Stdlib Require Import ZArith List String Ascii Bool Lia.
From Stdlib Require Import Floats.SpecFloat.
Import ListNotations.

Set Warnings "-register-all".

Local Open Scope string_scope.
Local Open Scope list_scope.
Local Open Scope Z_scope.

(** ** Python floats *)

(** A Python [float] is a binary64 number; comparisons are those of
    IEEE-754 (every comparison with a NaN is false). *)
Definition float := spec_float.

Definition float_prec : Z := 53.
Definition float_emax : Z := 1024.

(** [a < b] *)
Definition float_lt (a b : float) : bool := SFltb a b.
(** [a > b] *)
Definition float_gt (a b : float) : bool := SFltb b a.
(** [a >= b] *)
Definition float_ge (a b : float) : bool := SFleb b a.
(** [a + b] *)
Definition float_add (a b : float) : float := SFadd float_prec float_emax a b.

(** [bool(x)] of a float: false exactly for [0.0] and [-0.0]; NaN is true. *)
Definition float_bool (x : float) : bool :=
  match x with
  | S754_zero _ => false
  | _ => true
  end.

(** The literals that occur in the configuration defaults and in the
    scenarios of the design document, as binary64 values. *)
Definition f_zero : float := S754_zero false.
Definition f_0_0005 : float := S754_finite false 4611686018427388 (-63).
Definition f_0_001 : float := S754_finite false 4611686018427388 (-62).
Definition f_0_1 : float := S754_finite false 7205759403792794 (-56).
Definition f_0_3 : float := S754_finite false 5404319552844595 (-54).
Definition f_0_5 : float := S754_finite false 4503599627370496 (-53).
Definition f_0_8 : float := S754_finite false 7205759403792794 (-53).
Definition f_1_0 : float := S754_finite false 4503599627370496 (-52).

(** ** Decoded JSON *)

(** What [response.json()] and [json.loads] produce.  An object is kept as
    its key/value pairs in order; [dict_get] reads the first binding of a
    key. *)
Inductive json : Type :=
| JNull
| JBool (b : bool)
| JInt (z : Z)
| JFloat (f : float)
| JStr (s : string)
| JList (l : list json)
| JDict (kv : list (string * json)).

Fixpoint dict_get (kv : list (string * json)) (key : string) : option json :=
  match kv with
  | [] => None
  | (k, v) :: rest => if String.eqb k key then Some v else dict_get rest key
  end.

(** [bool(v)], as used by [if v:] and [if not v:]. *)
Definition truthy (v : json) : bool :=
  match v with
  | JNull => false
  | JBool b => b
  | JInt z => negb (z =? 0)
  | JFloat f => float_bool f
  | JStr s => negb (String.eqb s "")
  | JList l => match l with [] => false | _ => true end
  | JDict kv => match kv with [] => false | _ => true end
  end.

(** [v == 0]: true for the integer zero, for [False] and for a float zero. *)
Definition py_eq_zero (v : json) : bool :=
  match v with
  | JInt z => z =? 0
  | JBool b => negb b
  | JFloat f => negb (float_bool f)
  | _ => false
  end.

(** ** Exceptions *)

Inductive exn : Type :=
| AttributeError
| TypeError
| IndexError
| KeyError
| ValueError
| ValidationError.

Inductive result (A : Type) : Type :=
| Ok (a : A)
| Raise (e : exn).

Arguments Ok {A} a.
Arguments Raise {A} e.

Definition bind {A B : Type} (m : result A) (k : A -> result B) : result B :=
  match m with
  | Ok a => k a
  | Raise e => Raise e
  end.

Notation "x <- m ;; k" := (bind m (fun x => k))
  (at level 61, m at next level, right associativity).

(** [try: body  except Exception as e: handler] *)
Definition try_except {A : Type} (body : result A) (handler : exn -> result A)
  : result A :=
  match body with
  | Ok a => Ok a
  | Raise e => handler e
  end.

(** [obj.get(key, default)]: only a dict has [get]. *)
Definition py_get (obj : json) (key : string) (default : json) : result json :=
  match obj with
  | JDict kv =>
      match dict_get kv key with
      | Some v => Ok v
      | None => Ok default
      end
  | _ => Raise AttributeError
  end.

Fixpoint string_chars (s : string) : list json :=
  match s with
  | EmptyString => []
  | String c rest => JStr (String c EmptyString) :: string_chars rest
  end.

(** The elements a [for] loop visits: the items of a list, the keys of a
    dict, the characters of a string; anything else is not iterable. *)
Definition py_iter (obj : json) : result (list json) :=
  match obj with
  | JList l => Ok l
  | JDict kv => Ok (map (fun p => JStr (fst p)) kv)
  | JStr s => Ok (string_chars s)
  | _ => Raise TypeError
  end.

(** [obj[0]] *)
Definition py_getitem0 (obj : json) : result json :=
  match obj with
  | JList (x :: _) => Ok x
  | JList [] => Raise IndexError
  | JStr (String c _) => Ok (JStr (String c EmptyString))
  | JStr EmptyString => Raise IndexError
  | JDict _ => Raise KeyError
  | _ => Raise TypeError
  end.

(** ** Data model ([app/models/schemas.py]) *)

Inductive TransactionType : Type :=
| SOL_TRANSFER
| SPL_TRANSFER
| RAYDIUM_SWAP
| PROGRAM_INTERACTION
| UNKNOWN.

Definition TransactionType_eqb (a b : TransactionType) : bool :=
  match a, b with
  | SOL_TRANSFER, SOL_TRANSFER
  | SPL_TRANSFER, SPL_TRANSFER
  | RAYDIUM_SWAP, RAYDIUM_SWAP
  | PROGRAM_INTERACTION, PROGRAM_INTERACTION
  | UNKNOWN, UNKNOWN => true
  | _, _ => false
  end.

(** A [datetime] is a point in time; microseconds since the epoch. *)
Definition datetime := Z.

Record WalletConfig : Type := {
  address : string;
  enabled : bool;
  copy_sol : bool;
  copy_spl : bool;
  copy_swaps : bool;
  max_amount : option float
}.

Record TransactionInfo : Type := {
  signature : string;
  block_time : option datetime;
  transaction_type : TransactionType;
  source_wallet : string;
  amount : option float;
  token_mint : option string;
  success : bool;
  error_message : option string;
  raw_data : json
}.

Record CopyTradingStats : Type := {
  total_transactions_copied : Z;
  successful_copies : Z;
  failed_copies : Z;
  total_volume_copied : float;
  sol_transfers_copied : Z;
  spl_transfers_copied : Z;
  swaps_copied : Z;
  last_activity : option datetime
}.

(** [CopyTradingStats()] with the field defaults. *)
Definition CopyTradingStats_default : CopyTradingStats := {|
  total_transactions_copied := 0;
  successful_copies := 0;
  failed_copies := 0;
  total_volume_copied := f_zero;
  sol_transfers_copied := 0;
  spl_transfers_copied := 0;
  swaps_copied := 0;
  last_activity := None
|}.

(** The part of [settings] the pipeline reads. *)
Record Settings : Type := {
  min_transaction_amount : float
}.

Definition default_settings : Settings := {|
  min_transaction_amount := f_0_001
|}.

(** [TransactionInfo(signature=..., ..., raw_data=...)]: the model
    validates its fields; [signature] must be a string and [raw_data] a
    dict, otherwise the constructor raises. *)
Definition new_TransactionInfo (sig : json) (bt : option datetime)
    (ty : TransactionType) (src : string) (amt : option float)
    (mint : option string) (raw : json) : result TransactionInfo :=
  match sig, raw with
  | JStr s, JDict _ =>
      Ok {| signature := s; block_time := bt; transaction_type := ty;
            source_wallet := src; amount := amt; token_mint := mint;
            success := true; error_message := None; raw_data := raw |}
  | _, _ => Raise ValidationError
  end.

(** ** Transaction classification ([app/core/solana_client.py]) *)

Section Classifier.

(** [datetime.fromtimestamp]: the standard library's conversion; it raises
    on values that are not numbers and on numbers outside the platform's
    range.  Nothing is assumed about it. *)
Variable fromtimestamp : json -> result datetime.

(** The loop of [_is_sol_transfer]: the first instruction whose
    [programIdIndex] equals 0 ends it with [True]. *)
Fixpoint sol_transfer_loop (items : list json) : result bool :=
  match items with
  | [] => Ok false
  | instruction :: rest =>
      idx <- py_get instruction "programIdIndex" JNull ;;
      if py_eq_zero idx then Ok true else sol_transfer_loop rest
  end.

Definition _is_sol_transfer (instructions : json) : result bool :=
  items <- py_iter instructions ;;
  sol_transfer_loop items.

Definition _is_spl_transfer (instructions : json) : bool := false.

Definition _is_raydium_swap (instructions : json) : bool := false.

Definition _extract_sol_amount (instructions : json) (source_wallet : string)
  : option float := None.

Definition _extract_spl_amount (instructions : json) (source_wallet : string)
  : option float * option string := (None, None).

Definition _extract_swap_amount (instructions : json) (source_wallet : string)
  : option float := None.

(** The [if]/[elif] cascade: kind, amount and token mint. *)
Definition classify_instructions (instructions : json) (source_wallet : string)
  : result (TransactionType * option float * option string) :=
  is_sol <- _is_sol_transfer instructions ;;
  if is_sol then
    Ok (SOL_TRANSFER, _extract_sol_amount instructions source_wallet, None)
  else if _is_spl_transfer instructions then
    let '(a, m) := _extract_spl_amount instructions source_wallet in
    Ok (SPL_TRANSFER, a, m)
  else if _is_raydium_swap instructions then
    Ok (RAYDIUM_SWAP, _extract_swap_amount instructions source_wallet, None)
  else
    Ok (UNKNOWN, None, None).

(** The argument [block_time=...] of the constructor call:
    [datetime.fromtimestamp(tx_data.get("blockTime", 0))
       if tx_data.get("blockTime") else None]. *)
Definition block_time_of (tx_data : json) : result (option datetime) :=
  has_time <- py_get tx_data "blockTime" JNull ;;
  if truthy has_time then
    ts <- py_get tx_data "blockTime" (JInt 0) ;;
    t <- fromtimestamp ts ;;
    Ok (Some t)
  else Ok None.

(** The body of the [try] block of [_parse_transaction]. *)
Definition parse_transaction_body (tx_data : json) (source_wallet : string)
  : result (option TransactionInfo) :=
  meta <- py_get tx_data "meta" (JDict []) ;;
  err <- py_get meta "err" JNull ;;
  if truthy err then Ok None
  else
    transaction <- py_get tx_data "transaction" (JDict []) ;;
    message <- py_get transaction "message" (JDict []) ;;
    instructions <- py_get message "instructions" (JList []) ;;
    cls <- classify_instructions instructions source_wallet ;;
    let '(transaction_type, amount, token_mint) := cls in
    transaction' <- py_get tx_data "transaction" (JDict []) ;;
    signatures <- py_get transaction' "signatures" (JList [JStr ""]) ;;
    sig <- py_getitem0 signatures ;;
    block_time <- block_time_of tx_data ;;
    info <- new_TransactionInfo sig block_time transaction_type source_wallet
              amount token_mint tx_data ;;
    Ok (Some info).

(** [_parse_transaction]: any exception is logged and answered with
    [None]. *)
Definition _parse_transaction (tx_data : json) (source_wallet : string)
  : result (option TransactionInfo) :=
  try_except (parse_transaction_body tx_data source_wallet)
             (fun _ => Ok None).

End Classifier.

(** ** The bot manager ([app/core/bot_manager.py]) *)

Record BotManager : Type := {
  transaction_history : list TransactionInfo;
  max_history_size : Z;
  stats : CopyTradingStats
}.

(** The fields [__init__] sets that the pipeline uses. *)
Definition BotManager_init : BotManager := {|
  transaction_history := [];
  max_history_size := 1000;
  stats := CopyTradingStats_default
|}.

(** A manager together with an observation of it: [copy_calls] lists the
    arguments of the calls of [_copy_transaction], oldest first.  It is
    not a field of the class. *)
Record World : Type := {
  bot : BotManager;
  copy_calls : list TransactionInfo
}.

Definition World_init : World := {|
  bot := BotManager_init;
  copy_calls := []
|}.

Definition _should_copy_transaction (settings : Settings)
    (transaction_info : TransactionInfo) (config : WalletConfig) : bool :=
  if TransactionType_eqb (transaction_type transaction_info) SOL_TRANSFER
     && negb (copy_sol config) then false
  else if TransactionType_eqb (transaction_type transaction_info) SPL_TRANSFER
     && negb (copy_spl config) then false
  else if TransactionType_eqb (transaction_type transaction_info) RAYDIUM_SWAP
     && negb (copy_swaps config) then false
  else
    match amount transaction_info with
    | Some a =>
        if float_bool a then
          if match max_amount config with
             | Some m => float_bool m && float_gt a m
             | None => false
             end
          then false
          else if float_lt a (min_transaction_amount settings) then false
          else true
        else true
    | None => true
    end.

Definition _copy_sol_transfer (transaction_info : TransactionInfo) : bool := true.
Definition _copy_spl_transfer (transaction_info : TransactionInfo) : bool := true.
Definition _copy_raydium_swap (transaction_info : TransactionInfo) : bool := true.

Definition _copy_transaction (transaction_info : TransactionInfo) : bool :=
  match transaction_type transaction_info with
  | SOL_TRANSFER => _copy_sol_transfer transaction_info
  | SPL_TRANSFER => _copy_spl_transfer transaction_info
  | RAYDIUM_SWAP => _copy_raydium_swap transaction_info
  | _ => false
  end.

(** [history.append(t)] followed by the eviction [pop(0)] when the list
    has grown past [max_history_size]. *)
Definition history_append (max_size : Z) (history : list TransactionInfo)
    (t : TransactionInfo) : list TransactionInfo :=
  let h := history ++ [t] in
  if Z.of_nat (List.length h) >? max_size then tl h else h.

(** The statistics update of [_process_transaction] after a copy attempt
    that returned [success], at time [now]. *)
Definition update_stats (s : CopyTradingStats) (t : TransactionInfo)
    (success : bool) (now : datetime) : CopyTradingStats :=
  let total := total_transactions_copied s + 1 in
  if success then
    {| total_transactions_copied := total;
       successful_copies := successful_copies s + 1;
       failed_copies := failed_copies s;
       total_volume_copied :=
         match amount t with
         | Some a => if float_bool a then float_add (total_volume_copied s) a
                     else total_volume_copied s
         | None => total_volume_copied s
         end;
       sol_transfers_copied :=
         match transaction_type t with
         | SOL_TRANSFER => sol_transfers_copied s + 1
         | _ => sol_transfers_copied s
         end;
       spl_transfers_copied :=
         match transaction_type t with
         | SPL_TRANSFER => spl_transfers_copied s + 1
         | _ => spl_transfers_copied s
         end;
       swaps_copied :=
         match transaction_type t with
         | RAYDIUM_SWAP => swaps_copied s + 1
         | _ => swaps_copied s
         end;
       last_activity := Some now |}
  else
    {| total_transactions_copied := total;
       successful_copies := successful_copies s;
       failed_copies := failed_copies s + 1;
       total_volume_copied := total_volume_copied s;
       sol_transfers_copied := sol_transfers_copied s;
       spl_transfers_copied := spl_transfers_copied s;
       swaps_copied := swaps_copied s;
       last_activity := Some now |}.

(** [_process_transaction]; [now] is what [datetime.utcnow()] returns if
    it is reached.  The coroutine never yields to the event loop (the
    copy routines it awaits only log), so two calls do not interleave and
    a call is one step on the world. *)
Definition _process_transaction (settings : Settings)
    (transaction_info : TransactionInfo) (config : WalletConfig)
    (now : datetime) (w : World) : World :=
  let b := bot w in
  let history :=
    history_append (max_history_size b) (transaction_history b)
                   transaction_info in
  if negb (_should_copy_transaction settings transaction_info config) then
    {| bot := {| transaction_history := history;
                 max_history_size := max_history_size b;
                 stats := stats b |};
       copy_calls := copy_calls w |}
  else
    let success := _copy_transaction transaction_info in
    {| bot := {| transaction_history := history;
                 max_history_size := max_history_size b;
                 stats := update_stats (stats b) transaction_info success now |};
       copy_calls := copy_calls w ++ [transaction_info] |}.

(** Python's [l[a:b]]: a negative bound counts from the end, and both are
    clamped to the list. *)
Definition py_slice {A : Type} (l : list A) (a b : Z) : list A :=
  let len := Z.of_nat (List.length l) in
  let clamp i := if i <? 0 then Z.max 0 (i + len) else Z.min i len in
  let lo := clamp a in
  let hi := clamp b in
  firstn (Z.to_nat (hi - lo)) (skipn (Z.to_nat lo) l).

Definition get_transaction_history (b : BotManager) (limit offset : Z)
  : list TransactionInfo :=
  let len := Z.of_nat (List.length (transaction_history b)) in
  let start := len - offset - limit in
  let end_ := len - offset in
  py_slice (transaction_history b) (Z.max 0 start) (Z.max 0 end_).

(** ** Notification handling *)

(** One notification delivered to a wallet's monitor, with what the
    surroundings answer while it is handled: the monitored wallet and
    its policy object as it is at that time, the payload [log_data], the
    answer of [get_transaction] ([JNull] for [None]) and the clock. *)
Record Delivery : Type := {
  wallet_address : string;
  wallet_config : WalletConfig;
  log_data : json;
  fetched : json;
  clock : datetime
}.

Section Pipeline.

Variable fromtimestamp : json -> result datetime.
Variable settings : Settings.

(** [_process_log_notification] with the callback that [_monitor_wallet]
    passes, [_process_transaction(tx_info, config)]. *)
Definition _process_log_notification (d : Delivery) (w : World) : World :=
  match
    try_except
      (sig <- py_get (log_data d) "signature" JNull ;;
       if negb (truthy sig) then Ok w
       else
         let tx_data := fetched d in
         if negb (truthy tx_data) then Ok w
         else
           transaction_info <-
             _parse_transaction fromtimestamp tx_data (wallet_address d) ;;
           match transaction_info with
           | Some t =>
               Ok (_process_transaction settings t (wallet_config d)
                                        (clock d) w)
           | None => Ok w
           end)
      (fun _ => Ok w)
  with
  | Ok w' => w'
  | Raise _ => w
  end.

(** The notifications of a run, handled one after the other. *)
Definition run (ds : list Delivery) (w : World) : World :=
  fold_left (fun acc d => _process_log_notification d acc) ds w.

End Pipeline.

(** The transactions of a list processed in order by
    [_process_transaction], each with its policy and clock value. *)
Definition process_all (settings : Settings)
    (txs : list (TransactionInfo * WalletConfig * datetime)) (w : World)
  : World :=
  fold_left
    (fun acc x => let '(t, c, now) := x in
                  _process_transaction settings t c now acc)
    txs w.

(** ** The two rule groups of the policy, named

    [_should_copy_transaction] first checks that the kind is enabled and
    then the amount limits; the two groups are named here so that
    statements can refer to them ([should_copy_split] relates them to the
    function). *)

(** "Check if transaction type is enabled": none of the three early
    returns is taken. *)
Definition kind_gate (t : TransactionInfo) (config : WalletConfig) : bool :=
  match transaction_type t with
  | SOL_TRANSFER => copy_sol config
  | SPL_TRANSFER => copy_spl config
  | RAYDIUM_SWAP => copy_swaps config
  | PROGRAM_INTERACTION | UNKNOWN => true
  end.

(** "Check amount limits", for an amount [a] that is present. *)
Definition amount_limits (settings : Settings) (config : WalletConfig)
    (a : float) : bool :=
  if float_bool a then
    negb match max_amount config with
         | Some m => float_bool m && float_gt a m
         | None => false
         end
    && negb (float_lt a (min_transaction_amount settings))
  else true.

(** The policy [config] after [update_wallet] has set its [max_amount]
    field ([setattr(config, "max_amount", value)]). *)
Definition set_max_amount (config : WalletConfig) (value : option float)
  : WalletConfig :=
  {| address := address config; enabled := enabled config;
     copy_sol := copy_sol config; copy_spl := copy_spl config;
     copy_swaps := copy_swaps config; max_amount := value |}.

(** ** Sample inputs *)

(** A conversion for the samples: whole seconds to microseconds. *)
Definition sample_fromtimestamp (v : json) : result datetime :=
  match v with
  | JInt z => Ok (z * 1000000)
  | JBool b => Ok (if b then 1000000 else 0)
  | JFloat _ => Raise ValueError
  | _ => Raise TypeError
  end.

Definition sample_policy (sol spl swaps : bool) (ceiling : option float)
  : WalletConfig :=
  {| address := "Wallet1111"; enabled := true; copy_sol := sol;
     copy_spl := spl; copy_swaps := swaps; max_amount := ceiling |}.

Definition sample_tx (sig : string) (kind : TransactionType)
    (amt : option float) : TransactionInfo :=
  {| signature := sig; block_time := None; transaction_type := kind;
     source_wallet := "Wallet1111"; amount := amt; token_mint := None;
     success := true; error_message := None; raw_data := JDict [] |}.

(** A record as [getTransaction] answers it, with the given [err] and
    instruction list. *)
Definition sample_record (sig : string) (err : json) (instructions : list json)
  : json :=
  JDict [("blockTime", JInt 1700000000);
         ("meta", JDict [("err", err); ("fee", JInt 5000)]);
         ("transaction",
          JDict [("message", JDict [("instructions", JList instructions)]);
                 ("signatures", JList [JStr sig])])].

Definition sample_instruction (program_id_index : Z) : json :=
  JDict [("accounts", JList [JInt 0; JInt 1]);
         ("data", JStr "3Bxs4h24hBtQy9rw");
         ("programIdIndex", JInt program_id_index)].

Definition sample_delivery (sig : string) (record : json) (now : datetime)
  : Delivery :=
  {| wallet_address := "Wallet1111";
     wallet_config := sample_policy true true true None;
     log_data := JDict [("signature", JStr sig)];
     fetched := record;
     clock := now |}.

(** A transaction that carries its arrival number in [block_time]. *)
Definition numbered_tx (n : nat) : TransactionInfo :=
  {| signature := "sigK"; block_time := Some (Z.of_nat n);
     transaction_type := UNKNOWN; source_wallet := "Wallet1111";
     amount := None; token_mint := None; success := true;
     error_message := None; raw_data := JDict [] |}.

Definition numbered_arrivals (n : nat)
  : list (TransactionInfo * WalletConfig * datetime) :=
  map (fun k => (numbered_tx k, sample_policy true true true None, Z.of_nat k))
      (seq 0 n).

(** ** Reachable states *)

(** The worlds the pipeline can be in: the initial one, and any reached
    by one more call of [_process_transaction]. *)
Inductive reachable (settings : Settings) : World -> Prop :=
| reachable_init : reachable settings World_init
| reachable_step (w : World) (t : TransactionInfo) (c : WalletConfig)
    (now : datetime) :
    reachable settings w ->
    reachable settings (_process_transaction settings t c now w).

(** The counters of attempts agree: every attempt succeeded or failed. *)
Definition stats_consistent (st : CopyTradingStats) : Prop :=
  total_transactions_copied st = successful_copies st + failed_copies st.

(** The transactions in arrival order. *)
Definition arrivals (txs : list (TransactionInfo * WalletConfig * datetime))
  : list TransactionInfo :=
  map (fun x => fst (fst x)) txs.

(** ** Shapes of raw records *)

(** An instruction payload that is an object. *)
Definition is_object (v : json) : bool :=
  match v with
  | JDict _ => true
  | _ => false
  end.

(** An instruction object whose [programIdIndex] compares equal to 0. *)
Definition names_system_program (v : json) : bool :=
  match v with
  | JDict kv =>
      match dict_get kv "programIdIndex" with
      | Some idx => py_eq_zero idx
      | None => false
      end
  | _ => false
  end.

(** A well-formed instruction that no check of the classifier
    recognises. *)
Definition unrecognised (v : json) : bool :=
  is_object v && negb (names_system_program v).

(** The record [tx] is not marked failed and its instruction list is
    [instructions]. *)
Definition record_instructions (tx instructions : json) : Prop :=
  exists meta err transaction message,
    py_get tx "meta" (JDict []) = Ok meta
    /\ py_get meta "err" JNull = Ok err
    /\ truthy err = false
    /\ py_get tx "transaction" (JDict []) = Ok transaction
    /\ py_get transaction "message" (JDict []) = Ok message
    /\ py_get message "instructions" (JList []) = Ok instructions.

(** The first signature of the record [tx] is the string [sg]. *)
Definition record_signature (tx : json) (sg : string) : Prop :=
  exists transaction signatures,
    py_get tx "transaction" (JDict []) = Ok transaction
    /\ py_get transaction "signatures" (JList [JStr ""]) = Ok signatures
    /\ py_getitem0 signatures = Ok (JStr sg).

(** ** RPC calls ([app/core/solana_client.py]) *)

(** What the HTTP round trip of [_make_rpc_call] gives: the decoded body
    of the response, or a failure of the request or of the decoding. *)
Inductive HttpOutcome : Type :=
| HttpFailed
| HttpJson (body : json).

(** The exceptions that can leave [_make_rpc_call]. *)
Inductive rpc_exn : Type :=
| RuntimeError
| RpcError (detail : json)
| TransportError
| PyError (e : exn).

Inductive RpcOutcome : Type :=
| RpcReturn (v : json)
| RpcRaise (e : rpc_exn).

(** [needle in hay] for two strings: [needle] occurs in [hay]. *)
Fixpoint str_contains (needle hay : string) : bool :=
  if String.prefix needle hay then true
  else match hay with
       | EmptyString => false
       | String _ rest => str_contains needle rest
       end.

(** [key in container] for a string [key]: a key of a dict, an element
    of a list, a substring of a string; other values are not
    containers. *)
Definition py_contains_str (key : string) (container : json) : result bool :=
  match container with
  | JDict kv =>
      Ok match dict_get kv key with
         | Some _ => true
         | None => false
         end
  | JList l =>
      Ok (existsb (fun x => match x with
                            | JStr s => String.eqb s key
                            | _ => false
                            end) l)
  | JStr s => Ok (str_contains key s)
  | _ => Raise TypeError
  end.

(** [_make_rpc_call]; [session] tells whether [self.session] is set. *)
Definition _make_rpc_call (session : bool) (http : HttpOutcome) : RpcOutcome :=
  if negb session then RpcRaise RuntimeError
  else
    match http with
    | HttpFailed => RpcRaise TransportError
    | HttpJson result =>
        match py_contains_str "error" result with
        | Raise e => RpcRaise (PyError e)
        | Ok true =>
            match result with
            | JDict kv =>
                match dict_get kv "error" with
                | Some detail => RpcRaise (RpcError detail)
                | None => RpcRaise (PyError KeyError)
                end
            | _ => RpcRaise (PyError TypeError)
            end
        | Ok false =>
            match py_get result "result" JNull with
            | Ok v => RpcReturn v
            | Raise e => RpcRaise (PyError e)
            end
        end
    end.

(** [get_transaction]: the result of the call, [None] on any exception. *)
Definition get_transaction (session : bool) (http : HttpOutcome) : json :=
  match _make_rpc_call session http with
  | RpcReturn v => v
  | RpcRaise _ => JNull
  end.

(** The delivery of a notification whose [getTransaction] call had the
    HTTP outcome [http]. *)
Definition delivery_of (wallet : string) (config : WalletConfig)
    (payload : json) (session : bool) (http : HttpOutcome) (now : datetime)
  : Delivery :=
  {| wallet_address := wallet; wallet_config := config; log_data := payload;
     fetched := get_transaction session http; clock := now |}.

(** ** Python dicts with string keys *)

(** A dict keeps its entries in insertion order and has each key once.
    Assigning to a key that is present replaces the value in place;
    assigning to a new key appends the entry. *)
Definition pydict (V : Type) : Type := list (string * V).

Fixpoint pd_get {V : Type} (d : pydict V) (key : string) : option V :=
  match d with
  | [] => None
  | (k, v) :: rest => if String.eqb k key then Some v else pd_get rest key
  end.

Fixpoint pd_set {V : Type} (d : pydict V) (key : string) (value : V)
  : pydict V :=
  match d with
  | [] => [(key, value)]
  | (k, v) :: rest =>
      if String.eqb k key then (k, value) :: rest
      else (k, v) :: pd_set rest key value
  end.

Fixpoint pd_del {V : Type} (d : pydict V) (key : string) : pydict V :=
  match d with
  | [] => []
  | (k, v) :: rest =>
      if String.eqb k key then rest else (k, v) :: pd_del rest key
  end.

(** [key in d] *)
Definition pd_mem {V : Type} (d : pydict V) (key : string) : bool :=
  match pd_get d key with
  | Some _ => true
  | None => false
  end.

Definition pd_keys {V : Type} (d : pydict V) : list string := map fst d.

(** ** Wallets, monitor tasks and the status *)

Inductive BotStatus : Type :=
| STOPPED
| STARTING
| RUNNING
| STOPPING
| ERROR.

Definition BotStatus_eqb (a b : BotStatus) : bool :=
  match a, b with
  | STOPPED, STOPPED
  | STARTING, STARTING
  | RUNNING, RUNNING
  | STOPPING, STOPPING
  | ERROR, ERROR => true
  | _, _ => false
  end.

(** A task created by [asyncio.create_task(self._monitor_wallet(
    wallet_address, config))]: the wallet it monitors, the [WalletConfig]
    object its callback evaluates (a reference) and whether [cancel()]
    has been called on it. *)
Record Task : Type := {
  task_wallet : string;
  task_config : nat;
  task_cancelled : bool
}.

(** The fields of [BotManager] that hold the wallets and the lifecycle.
    [WalletConfig] objects and tasks are objects that several places
    refer to, so they live in two stores ([config_objects], [tasks]) and
    the dicts hold references (positions in the stores). *)
Record Registry : Type := {
  status : BotStatus;
  config_objects : list WalletConfig;
  tasks : list Task;
  monitored_wallets : pydict nat;
  monitoring_tasks : pydict nat;
  start_time : option datetime;
  last_error : option string
}.

(** Replace the element at position [i]; out of range nothing changes. *)
Fixpoint list_set {A : Type} (l : list A) (i : nat) (x : A) : list A :=
  match l, i with
  | [], _ => []
  | _ :: rest, O => x :: rest
  | y :: rest, S j => y :: list_set rest j x
  end.

(** The policy stored for a wallet, read through its reference. *)
Definition wallet_policy (r : Registry) (wallet : string)
  : option WalletConfig :=
  match pd_get (monitored_wallets r) wallet with
  | Some ref => nth_error (config_objects r) ref
  | None => None
  end.

(** The task registered for a wallet. *)
Definition wallet_task (r : Registry) (wallet : string) : option Task :=
  match pd_get (monitoring_tasks r) wallet with
  | Some ref => nth_error (tasks r) ref
  | None => None
  end.

(** [task.cancel()] *)
Definition cancel_task (ts : list Task) (ref : nat) : list Task :=
  match nth_error ts ref with
  | Some t =>
      list_set ts ref {| task_wallet := task_wallet t;
                         task_config := task_config t;
                         task_cancelled := true |}
  | None => ts
  end.

(** [_start_wallet_monitoring]: a new task for the wallet and the config
    object [config], registered under the wallet's address. *)
Definition _start_wallet_monitoring (wallet : string) (config : nat)
    (r : Registry) : Registry :=
  let task := List.length (tasks r) in
  {| status := status r;
     config_objects := config_objects r;
     tasks := tasks r ++ [{| task_wallet := wallet; task_config := config;
                             task_cancelled := false |}];
     monitored_wallets := monitored_wallets r;
     monitoring_tasks := pd_set (monitoring_tasks r) wallet task;
     start_time := start_time r;
     last_error := last_error r |}.

Definition set_status (st : BotStatus) (r : Registry) : Registry :=
  {| status := st;
     config_objects := config_objects r;
     tasks := tasks r;
     monitored_wallets := monitored_wallets r;
     monitoring_tasks := monitoring_tasks r;
     start_time := start_time r;
     last_error := last_error r |}.

(** The loop of [start_monitoring] over [monitored_wallets.items()]. *)
Fixpoint start_loop (items : list (string * nat)) (r : Registry) : Registry :=
  match items with
  | [] => r
  | (wallet, config) :: rest =>
      match nth_error (config_objects r) config with
      | Some c =>
          if enabled c
          then start_loop rest (_start_wallet_monitoring wallet config r)
          else start_loop rest r
      | None => start_loop rest r
      end
  end.

(** [start_monitoring]; [now] is what [datetime.utcnow()] returns. *)
Definition start_monitoring (now : datetime) (r : Registry) : Registry :=
  if BotStatus_eqb (status r) RUNNING then r
  else
    let r1 := {| status := STARTING;
                 config_objects := config_objects r;
                 tasks := tasks r;
                 monitored_wallets := monitored_wallets r;
                 monitoring_tasks := monitoring_tasks r;
                 start_time := Some now;
                 last_error := last_error r |} in
    set_status RUNNING (start_loop (monitored_wallets r1) r1).

(** [stop_monitoring], run without another call in between: every
    registered task is cancelled and awaited, then the dict is
    cleared. *)
Definition stop_monitoring (r : Registry) : Registry :=
  if BotStatus_eqb (status r) STOPPED then r
  else
    {| status := STOPPED;
       config_objects := config_objects r;
       tasks := fold_left (fun ts entry => cancel_task ts (snd entry))
                          (monitoring_tasks r) (tasks r);
       monitored_wallets := monitored_wallets r;
       monitoring_tasks := [];
       start_time := start_time r;
       last_error := last_error r |}.

(** [add_wallet]; the argument is a [WalletConfig] object the caller has
    just built, so it gets a new reference. *)
Definition add_wallet (wallet_config : WalletConfig) (r : Registry)
  : Registry :=
  let ref := List.length (config_objects r) in
  let r1 := {| status := status r;
               config_objects := config_objects r ++ [wallet_config];
               tasks := tasks r;
               monitored_wallets :=
                 pd_set (monitored_wallets r) (address wallet_config) ref;
               monitoring_tasks := monitoring_tasks r;
               start_time := start_time r;
               last_error := last_error r |} in
  if BotStatus_eqb (status r) RUNNING && enabled wallet_config
  then _start_wallet_monitoring (address wallet_config) ref r1
  else r1.

Definition remove_wallet (wallet : string) (r : Registry) : Registry :=
  let r1 :=
    match pd_get (monitoring_tasks r) wallet with
    | Some task =>
        {| status := status r;
           config_objects := config_objects r;
           tasks := cancel_task (tasks r) task;
           monitored_wallets := monitored_wallets r;
           monitoring_tasks := pd_del (monitoring_tasks r) wallet;
           start_time := start_time r;
           last_error := last_error r |}
    | None => r
    end in
  if pd_mem (monitored_wallets r1) wallet
  then {| status := status r1;
          config_objects := config_objects r1;
          tasks := tasks r1;
          monitored_wallets := pd_del (monitored_wallets r1) wallet;
          monitoring_tasks := monitoring_tasks r1;
          start_time := start_time r1;
          last_error := last_error r1 |}
  else r1.

(** The body of [PUT /wallets/{address}] ([UpdateWalletRequest]): every
    field is optional. *)
Record UpdateWalletRequest : Type := {
  upd_enabled : option bool;
  upd_copy_sol : option bool;
  upd_copy_spl : option bool;
  upd_copy_swaps : option bool;
  upd_max_amount : option float
}.

(** One entry of the [updates] dict, for the keys a request can carry. *)
Inductive FieldUpdate : Type :=
| SetEnabled (v : bool)
| SetCopySol (v : bool)
| SetCopySpl (v : bool)
| SetCopySwaps (v : bool)
| SetMaxAmount (v : float).

Definition opt_entry {A : Type} (mk : A -> FieldUpdate) (v : option A)
  : list FieldUpdate :=
  match v with
  | Some x => [mk x]
  | None => []
  end.

(** [{k: v for k, v in updates.dict().items() if v is not None}] *)
Definition update_dict (u : UpdateWalletRequest) : list FieldUpdate :=
  opt_entry SetEnabled (upd_enabled u)
  ++ opt_entry SetCopySol (upd_copy_sol u)
  ++ opt_entry SetCopySpl (upd_copy_spl u)
  ++ opt_entry SetCopySwaps (upd_copy_swaps u)
  ++ opt_entry SetMaxAmount (upd_max_amount u).

(** [setattr(config, key, value)] *)
Definition setattr (c : WalletConfig) (f : FieldUpdate) : WalletConfig :=
  match f with
  | SetEnabled v =>
      {| address := address c; enabled := v; copy_sol := copy_sol c;
         copy_spl := copy_spl c; copy_swaps := copy_swaps c;
         max_amount := max_amount c |}
  | SetCopySol v =>
      {| address := address c; enabled := enabled c; copy_sol := v;
         copy_spl := copy_spl c; copy_swaps := copy_swaps c;
         max_amount := max_amount c |}
  | SetCopySpl v =>
      {| address := address c; enabled := enabled c; copy_sol := copy_sol c;
         copy_spl := v; copy_swaps := copy_swaps c;
         max_amount := max_amount c |}
  | SetCopySwaps v =>
      {| address := address c; enabled := enabled c; copy_sol := copy_sol c;
         copy_spl := copy_spl c; copy_swaps := v;
         max_amount := max_amount c |}
  | SetMaxAmount v =>
      {| address := address c; enabled := enabled c; copy_sol := copy_sol c;
         copy_spl := copy_spl c; copy_swaps := copy_swaps c;
         max_amount := Some v |}
  end.

(** [update_wallet]: the config object of the wallet is changed in
    place, one [setattr] per entry. *)
Definition update_wallet (wallet : string) (updates : list FieldUpdate)
    (r : Registry) : Registry :=
  match pd_get (monitored_wallets r) wallet with
  | Some ref =>
      match nth_error (config_objects r) ref with
      | Some config =>
          {| status := status r;
             config_objects :=
               list_set (config_objects r) ref
                        (fold_left setattr updates config);
             tasks := tasks r;
             monitored_wallets := monitored_wallets r;
             monitoring_tasks := monitoring_tasks r;
             start_time := start_time r;
             last_error := last_error r |}
      | None => r
      end
  | None => r
  end.

(** The endpoint [update_wallet] of [app/api/endpoints.py]. *)
Definition endpoint_update_wallet (wallet : string) (u : UpdateWalletRequest)
    (r : Registry) : Registry :=
  update_wallet wallet (update_dict u) r.

(** ** Loading the configured wallets *)

(** A string is taken as a Python [str] whose characters are the code
    points below 256.  [str.isspace] holds for these of them. *)
Definition is_space (c : ascii) : bool :=
  let n := nat_of_ascii c in
  ((9 <=? n) && (n <=? 13) || (28 <=? n) && (n <=? 32)
   || (n =? 133) || (n =? 160))%nat.

(** [s.split(',')] *)
Fixpoint split_comma (s : string) : list string :=
  match s with
  | EmptyString => [EmptyString]
  | String c rest =>
      if Ascii.eqb c ","%char then EmptyString :: split_comma rest
      else match split_comma rest with
           | piece :: pieces => String c piece :: pieces
           | [] => [String c EmptyString]
           end
  end.

Fixpoint lstrip (s : string) : string :=
  match s with
  | EmptyString => EmptyString
  | String c rest => if is_space c then lstrip rest else s
  end.

Fixpoint rstrip (s : string) : string :=
  match s with
  | EmptyString => EmptyString
  | String c rest =>
      match rstrip rest with
      | EmptyString => if is_space c then EmptyString
                       else String c EmptyString
      | kept => String c kept
      end
  end.

(** [s.strip()] *)
Definition strip (s : string) : string := rstrip (lstrip s).

(** The fields of [settings] that [_load_configuration] reads. *)
Record WalletSettings : Type := {
  target_wallets : string;
  copy_sol_transfers : bool;
  copy_spl_transfers : bool;
  copy_raydium_swaps : bool;
  max_transaction_amount : float
}.

(** [[addr.strip() for addr in target_wallets.split(',') if addr.strip()]] *)
Definition wallet_addresses (target : string) : list string :=
  map strip
      (filter (fun addr => negb (String.eqb (strip addr) ""))
              (split_comma target)).

Definition configured_wallet (ws : WalletSettings) (wallet : string)
  : WalletConfig :=
  {| address := wallet; enabled := true;
     copy_sol := copy_sol_transfers ws;
     copy_spl := copy_spl_transfers ws;
     copy_swaps := copy_raydium_swaps ws;
     max_amount := Some (max_transaction_amount ws) |}.

(** [_load_configuration] *)
Definition _load_configuration (ws : WalletSettings) (r : Registry)
  : Registry :=
  if negb (String.eqb (target_wallets ws) "") then
    fold_left
      (fun acc wallet =>
         {| status := status acc;
            config_objects := config_objects acc ++ [configured_wallet ws wallet];
            tasks := tasks acc;
            monitored_wallets :=
              pd_set (monitored_wallets acc) wallet
                     (List.length (config_objects acc));
            monitoring_tasks := monitoring_tasks acc;
            start_time := start_time acc;
            last_error := last_error acc |})
      (wallet_addresses (target_wallets ws)) r
  else r.

(** The registry as [BotManager.__init__] leaves it. *)
Definition Registry_init (ws : WalletSettings) : Registry :=
  _load_configuration ws
    {| status := STOPPED; config_objects := []; tasks := [];
       monitored_wallets := []; monitoring_tasks := [];
       start_time := None; last_error := None |}.

(** The calls that change the registry. *)
Inductive RegistryCall : Type :=
| CallStart (now : datetime)
| CallStop
| CallAdd (wallet_config : WalletConfig)
| CallRemove (wallet : string)
| CallUpdate (wallet : string) (u : UpdateWalletRequest).

Definition registry_call (call : RegistryCall) (r : Registry) : Registry :=
  match call with
  | CallStart now => start_monitoring now r
  | CallStop => stop_monitoring r
  | CallAdd c => add_wallet c r
  | CallRemove a => remove_wallet a r
  | CallUpdate a u => endpoint_update_wallet a u r
  end.

(** The registries reachable from the initial one by such calls. *)
Inductive registry_reachable (ws : WalletSettings) : Registry -> Prop :=
| registry_reachable_init : registry_reachable ws (Registry_init ws)
| registry_reachable_call (call : RegistryCall) (r : Registry) :
    registry_reachable ws r ->
    registry_reachable ws (registry_call call r).

(** The policy object a task's callback evaluates. *)
Definition task_policy (r : Registry) (t : Task) : option WalletConfig :=
  nth_error (config_objects r) (task_config t).

(** The references in the dicts are sound: keys occur once, the object
    stored for a wallet carries that wallet's address, and the task
    registered for a wallet monitors that wallet, has not been
    cancelled, evaluates a policy object made for that wallet, and the
    wallet is among the monitored ones. *)
Definition stores_ok (r : Registry) : Prop :=
  NoDup (pd_keys (monitored_wallets r))
  /\ NoDup (pd_keys (monitoring_tasks r))
  /\ (forall a ref,
         pd_get (monitored_wallets r) a = Some ref ->
         exists c, nth_error (config_objects r) ref = Some c /\ address c = a)
  /\ (forall a tref,
         pd_get (monitoring_tasks r) a = Some tref ->
         exists t, nth_error (tasks r) tref = Some t
                   /\ task_wallet t = a
                   /\ task_cancelled t = false
                   /\ (exists c, task_policy r t = Some c /\ address c = a)
                   /\ pd_mem (monitored_wallets r) a = true).

(** Between two calls the status is [STOPPED] or [RUNNING], and a
    stopped manager has no registered task. *)
Definition registry_ok (r : Registry) : Prop :=
  stores_ok r
  /\ (status r = STOPPED \/ status r = RUNNING)
  /\ (status r = STOPPED -> monitoring_tasks r = []).

Definition sample_wallet_settings : WalletSettings :=
  {| target_wallets := " Wallet1111 ,Wallet2222,, Wallet1111";
     copy_sol_transfers := true; copy_spl_transfers := false;
     copy_raydium_swaps := true; max_transaction_amount := f_1_0 |}.

(** A policy with the fields that a request gives replaced and the
    others kept. *)
Definition patched (u : UpdateWalletRequest) (c : WalletConfig)
  : WalletConfig :=
  {| address := address c;
     enabled := match upd_enabled u with Some v => v | None => enabled c end;
     copy_sol := match upd_copy_sol u with Some v => v | None => copy_sol c end;
     copy_spl := match upd_copy_spl u with Some v => v | None => copy_spl c end;
     copy_swaps :=
       match upd_copy_swaps u with Some v => v | None => copy_swaps c end;
     max_amount :=
       match upd_max_amount u with Some v => Some v | None => max_amount c end
  |}.

(** A policy for the sample wallet with the given [enabled] flag. *)
Definition set_enabled_sample (flag : bool) : WalletConfig :=
  {| address := "Wallet1111"; enabled := flag; copy_sol := false;
     copy_spl := false; copy_swaps := false; max_amount := None |}.

(** ** The monitor of one wallet ([monitor_wallet]) *)

(** [f == z] for a float and an integer: the comparison is exact. *)
Definition float_eq_int (f : float) (z : Z) : bool :=
  match f with
  | S754_zero _ => z =? 0
  | S754_finite sign m e =>
      let v := if sign then Z.neg m else Z.pos m in
      if 0 <=? e then z =? v * 2 ^ e else z * 2 ^ (- e) =? v
  | _ => false
  end.

Definition bool_to_Z (b : bool) : Z := if b then 1 else 0.

(** [a == b] on decoded JSON: numbers compare by value across [bool],
    [int] and [float], a NaN equals nothing, lists compare element by
    element, dicts as sets of entries, and values of different kinds are
    unequal. *)
Fixpoint py_eq (a b : json) : bool :=
  match a, b with
  | JNull, JNull => true
  | JBool x, JBool y => Bool.eqb x y
  | JBool x, JInt z | JInt z, JBool x => bool_to_Z x =? z
  | JBool x, JFloat f | JFloat f, JBool x => float_eq_int f (bool_to_Z x)
  | JInt x, JInt y => x =? y
  | JInt z, JFloat f | JFloat f, JInt z => float_eq_int f z
  | JFloat f, JFloat g => SFeqb f g
  | JStr s, JStr t => String.eqb s t
  | JList l, JList l' =>
      (fix elements (l l' : list json) : bool :=
         match l, l' with
         | [], [] => true
         | x :: rest, y :: rest' => py_eq x y && elements rest rest'
         | _, _ => false
         end) l l'
  | JDict kv, JDict kv' =>
      Nat.eqb (List.length kv) (List.length kv')
      && (fix entries (kv : list (string * json)) : bool :=
            match kv with
            | [] => true
            | (k, v) :: rest =>
                match dict_get kv' k with
                | Some v' => py_eq v v'
                | None => false
                end && entries rest
            end) kv
  | _, _ => false
  end.

(** [obj[key]] for a string [key] *)
Definition py_getitem_str (obj : json) (key : string) : result json :=
  match obj with
  | JDict kv =>
      match dict_get kv key with
      | Some v => Ok v
      | None => Raise KeyError
      end
  | _ => Raise TypeError
  end.

(** The condition of the receive loop and the argument it passes on:
    [Some log_data] when the message is a notification of the
    subscription, [None] when the message is skipped.
    [if "params" in data and
        data["params"].get("subscription") == subscription_id:
       ... data["params"]["result"]] *)
Definition notification_of (subscription_id data : json)
  : result (option json) :=
  has_params <- py_contains_str "params" data ;;
  if has_params then
    params <- py_getitem_str data "params" ;;
    sub <- py_get params "subscription" JNull ;;
    if py_eq sub subscription_id then
      params' <- py_getitem_str data "params" ;;
      log <- py_getitem_str params' "result" ;;
      Ok (Some log)
    else Ok None
  else Ok None.

(** What [await ws.recv()] followed by [json.loads] gives in one round
    of the loop: a decoded message, together with what the surroundings
    answer if it is handled (the HTTP outcome of [getTransaction] and
    the clock); a message that does not decode; or the end of the
    connection ([ConnectionClosed], or another [WebSocketException]). *)
Inductive WsEvent : Type :=
| WsMessage (data : json) (session : bool) (http : HttpOutcome)
    (now : datetime)
| WsGarbage
| WsClosed
| WsFault.

Section Monitor.

Variable fromtimestamp : json -> result datetime.
Variable settings : Settings.
Variable wallet : string.
Variable config : WalletConfig.

(** One round of the loop on a decoded message: an exception raised
    while looking at the message is logged and the loop continues. *)
Definition on_message (subscription_id data : json) (session : bool)
    (http : HttpOutcome) (now : datetime) (w : World) : World :=
  match notification_of subscription_id data with
  | Ok (Some log) =>
      _process_log_notification fromtimestamp settings
        (delivery_of wallet config log session http now) w
  | Ok None => w
  | Raise _ => w
  end.

(** The receive loop over what arrives while [self.running] holds. *)
Fixpoint monitor_loop (subscription_id : json) (events : list WsEvent)
    (w : World) : World :=
  match events with
  | [] => w
  | WsMessage data session http now :: rest =>
      monitor_loop subscription_id rest
                   (on_message subscription_id data session http now w)
  | WsGarbage :: rest => monitor_loop subscription_id rest w
  | WsClosed :: _ => w
  | WsFault :: _ => w
  end.

End Monitor.

(** The connections and subscriptions the client keeps. *)
Record SolanaClient : Type := {
  ws_connections : pydict nat;
  subscription_ids : pydict json;
  running : bool
}.

(** The start of a monitor: the socket [websockets.connect] returns
    ([None] when it raises), whether [ws.send] succeeds, and the decoded
    answer to the subscription ([None] when receiving or decoding
    raises). *)
Record Handshake : Type := {
  connected : option nat;
  sent : bool;
  answer : option json
}.

(** The [finally] block. *)
Definition monitor_cleanup (wallet : string) (c : SolanaClient)
  : SolanaClient :=
  {| ws_connections := pd_del (ws_connections c) wallet;
     subscription_ids := pd_del (subscription_ids c) wallet;
     running := running c |}.

(** [monitor_wallet] run on its own, with the callback that
    [_monitor_wallet] passes. *)
Definition monitor_wallet (fromtimestamp : json -> result datetime)
    (settings : Settings) (wallet : string) (config : WalletConfig)
    (h : Handshake) (events : list WsEvent) (c : SolanaClient) (w : World)
  : SolanaClient * World :=
  if pd_mem (ws_connections c) wallet then (c, w)
  else
    match connected h with
    | None => (monitor_cleanup wallet c, w)
    | Some ws =>
        let c1 := {| ws_connections := pd_set (ws_connections c) wallet ws;
                     subscription_ids := subscription_ids c;
                     running := running c |} in
        if negb (sent h) then (monitor_cleanup wallet c1, w)
        else
          match answer h with
          | None => (monitor_cleanup wallet c1, w)
          | Some response_data =>
              match py_contains_str "result" response_data with
              | Ok true =>
                  match py_getitem_str response_data "result" with
                  | Ok subscription_id =>
                      let c2 :=
                        {| ws_connections := ws_connections c1;
                           subscription_ids :=
                             pd_set (subscription_ids c1) wallet
                                    subscription_id;
                           running := running c1 |} in
                      (monitor_cleanup wallet c2,
                       if running c2
                       then monitor_loop fromtimestamp settings wallet config
                                         subscription_id events w
                       else w)
                  | Raise _ => (monitor_cleanup wallet c1, w)
                  end
              | Ok false => (monitor_cleanup wallet c1, w)
              | Raise _ => (monitor_cleanup wallet c1, w)
              end
          end
    end.

(** An event that the loop passes over: a message that does not decode
    or is not a notification of the subscription. *)
Definition passed_over (subscription_id : json) (e : WsEvent) : bool :=
  match e with
  | WsMessage data _ _ _ =>
      match notification_of subscription_id data with
      | Ok (Some _) => false
      | _ => true
      end
  | WsGarbage => true
  | WsClosed | WsFault => false
  end.

Definition sample_notification (subscription : Z) (sig : string) : json :=
  JDict [("jsonrpc", JStr "2.0"); ("method", JStr "logsNotification");
         ("params", JDict [("result", JDict [("signature", JStr sig)]);
                           ("subscription", JInt subscription)])].

(** * Properties *)

(** ** Float comparison *)

Ltac float_cases :=
  repeat match goal with
         | H : context [Pos.compare_cont Eq ?x ?y] |- _ =>
             change (Pos.compare_cont Eq x y) with (Pos.compare x y) in H
         | |- context [Pos.compare_cont Eq ?x ?y] =>
             change (Pos.compare_cont Eq x y) with (Pos.compare x y)
         | H : context [Z.compare ?x ?y] |- _ =>
             destruct (Z.compare_spec x y); simpl in H
         | |- context [Z.compare ?x ?y] =>
             destruct (Z.compare_spec x y); simpl
         | H : context [Pos.compare ?x ?y] |- _ =>
             destruct (Pos.compare_spec x y); simpl in H
         | |- context [Pos.compare ?x ?y] =>
             destruct (Pos.compare_spec x y); simpl
         end.

(** [a > c1] and [c1 >= c2] give [a > c2], NaNs and infinities included. *)
Lemma float_gt_ge_trans (a c1 c2 : float) :
  float_gt a c1 = true -> float_ge c1 c2 = true -> float_gt a c2 = true.
Proof.
  unfold float_gt, float_ge, SFltb, SFleb, SFcompare.
  destruct a as [sa | sa | | sa ma ea], c1 as [s1 | s1 | | s1 m1 e1],
    c2 as [s2 | s2 | | s2 m2 e2];
    try destruct sa; try destruct s1; try destruct s2;
    simpl; try congruence;
    intros H1 H2; float_cases; subst; try congruence; try lia.
Qed.

(** ** The copy policy *)

Lemma should_copy_split (s : Settings) (t : TransactionInfo) (c : WalletConfig) :
  _should_copy_transaction s t c =
  kind_gate t c &&
  match amount t with
  | Some a => amount_limits s c a
  | None => true
  end.
Proof.
  unfold _should_copy_transaction, kind_gate, amount_limits.
  destruct (transaction_type t), (copy_sol c), (copy_spl c), (copy_swaps c);
    simpl; try reflexivity;
    destruct (amount t) as [a |]; try reflexivity;
    destruct (float_bool a); try reflexivity;
    destruct (max_amount c) as [m |]; simpl;
    try destruct (float_bool m && float_gt a m); simpl;
    destruct (float_lt a (min_transaction_amount s)); reflexivity.
Qed.




(** With a nonzero amount the limits are enforced: an amount above a
    nonzero ceiling, or below the floor, is rejected. *)
Lemma limits_enforced_nonzero
    (s : Settings) (t : TransactionInfo) (c : WalletConfig) (a : float) :
  amount t = Some a -> float_bool a = true ->
  (forall m, max_amount c = Some m -> float_bool m = true ->
             float_gt a m = true -> _should_copy_transaction s t c = false)
  /\ (float_lt a (min_transaction_amount s) = true ->
      _should_copy_transaction s t c = false).
Proof.
  intros Ha Hnz. rewrite should_copy_split, Ha. unfold amount_limits.
  rewrite Hnz. split.
  - intros m -> -> ->. simpl. apply andb_false_r.
  - intros ->. rewrite andb_false_r. apply andb_false_r.
Qed.

(** The scenarios of the design document. *)
Example scenario_ceiling :
  let c := sample_policy true false true (Some f_0_5) in
  _should_copy_transaction default_settings
    (sample_tx "s1" SOL_TRANSFER (Some f_0_3)) c = true
  /\ _should_copy_transaction default_settings
       (sample_tx "s2" SOL_TRANSFER (Some f_0_8)) c = false
  /\ _should_copy_transaction default_settings
       (sample_tx "s3" SPL_TRANSFER (Some f_0_1)) c = false.
Proof. repeat split; reflexivity. Qed.

Example scenario_floor :
  _should_copy_transaction default_settings
    (sample_tx "s4" SOL_TRANSFER (Some f_0_0005))
    (sample_policy true true true None) = false.
Proof. reflexivity. Qed.

(** C3 at its failing inputs: an amount of [0.0] is present and below
    the floor [0.001], and an amount of [0.5] exceeds a ceiling set to
    [0.0]; with the gate open the code accepts both, because [if amount:]
    and [config.max_amount and ...] test truth values, and zero is
    false. *)
Theorem C3_zero_is_not_checked :
  let open_gate := sample_policy true true true in
  let below := sample_tx "sigZ" SOL_TRANSFER (Some f_zero) in
  let above := sample_tx "sigA" SOL_TRANSFER (Some f_0_5) in
  (kind_gate below (open_gate None) = true
   /\ float_lt f_zero (min_transaction_amount default_settings) = true
   /\ _should_copy_transaction default_settings below (open_gate None) = true)
  /\ (kind_gate above (open_gate (Some f_zero)) = true
      /\ float_gt f_0_5 f_zero = true
      /\ _should_copy_transaction default_settings above
           (open_gate (Some f_zero)) = true).
Proof. repeat split; reflexivity. Qed.

(** Lowering a ceiling to a nonzero value never lets in a transaction
    that the higher ceiling rejects. *)
Lemma ceiling_monotone_nonzero
    (s : Settings) (t : TransactionInfo) (c : WalletConfig) (c1 c2 : float) :
  float_ge c1 c2 = true -> float_bool c2 = true ->
  _should_copy_transaction s t (set_max_amount c (Some c2)) = true ->
  _should_copy_transaction s t (set_max_amount c (Some c1)) = true.
Proof.
  intros Hge Hnz. rewrite !should_copy_split.
  change (kind_gate t (set_max_amount c (Some c2))) with (kind_gate t c).
  change (kind_gate t (set_max_amount c (Some c1))) with (kind_gate t c).
  destruct (kind_gate t c); simpl; [| congruence].
  destruct (amount t) as [a |]; [| reflexivity].
  unfold amount_limits. simpl.
  destruct (float_bool a); [| reflexivity].
  rewrite Hnz. simpl.
  destruct (float_lt a (min_transaction_amount s));
    rewrite ?andb_false_r, ?andb_true_r; [congruence |].
  destruct (float_gt a c1) eqn:Hgt.
  - rewrite (float_gt_ge_trans a c1 c2 Hgt Hge). simpl. congruence.
  - rewrite andb_false_r. reflexivity.
Qed.

(** C4 at its failing input: amount [0.8], ceilings [0.5 >= 0.0].  Under
    the ceiling [0.0] the transaction is eligible, under the higher
    ceiling [0.5] it is not: a ceiling of zero is not applied at all. *)
Theorem C4_zero_ceiling_accepts_more :
  let t := sample_tx "sigM" SOL_TRANSFER (Some f_0_8) in
  let c := sample_policy true true true None in
  float_ge f_0_5 f_zero = true
  /\ kind_gate t c = true
  /\ _should_copy_transaction default_settings t
       (set_max_amount c (Some f_zero)) = true
  /\ _should_copy_transaction default_settings t
       (set_max_amount c (Some f_0_5)) = false.
Proof. repeat split; reflexivity. Qed.

(** C5: a transaction without an amount that passes the kind gate is
    eligible, whatever ceiling and floor are configured. *)
Theorem C5_absent_amount_is_eligible
    (s : Settings) (t : TransactionInfo) (c : WalletConfig) :
  amount t = None -> kind_gate t c = true ->
  _should_copy_transaction s t c = true.
Proof.
  intros Ha Hg. rewrite should_copy_split, Ha, Hg. reflexivity.
Qed.

Lemma C5_absent_amount_is_eligible_witness :
  let t := sample_tx "sigN" SOL_TRANSFER None in
  let c := sample_policy true false false (Some f_0_0005) in
  amount t = None /\ kind_gate t c = true
  /\ _should_copy_transaction {| min_transaction_amount := f_1_0 |} t c = true.
Proof.
  split; [reflexivity | split; [reflexivity |]].
  apply (C5_absent_amount_is_eligible {| min_transaction_amount := f_1_0 |}
           (sample_tx "sigN" SOL_TRANSFER None)
           (sample_policy true false false (Some f_0_0005)));
    reflexivity.
Defined.

(** ** The history ring *)

Lemma tl_skipn {A : Type} (k : nat) (l : list A) :
  tl (skipn k l) = skipn (S k) l.
Proof.
  revert l. induction k as [| k IH]; intros [| x l]; try reflexivity.
  simpl skipn at 1. rewrite IH. destruct l; reflexivity.
Qed.

(** Appending to the last [n] arrivals gives the last [n] arrivals. *)
Lemma history_append_latest (n : nat) (arrived : list TransactionInfo)
    (t : TransactionInfo) :
  history_append (Z.of_nat n)
    (skipn (List.length arrived - n) arrived) t
  = skipn (List.length (arrived ++ [t]) - n) (arrived ++ [t]).
Proof.
  unfold history_append.
  set (k := (List.length arrived - n)%nat).
  assert (Hk : (k <= List.length arrived)%nat) by (unfold k; lia).
  assert (Happ : skipn k arrived ++ [t] = skipn k (arrived ++ [t])).
  { rewrite skipn_app. replace (k - List.length arrived)%nat with 0%nat by lia.
    reflexivity. }
  rewrite Happ, length_skipn, !length_app. simpl List.length.
  destruct (Z.gtb_spec (Z.of_nat (List.length arrived + 1 - k)) (Z.of_nat n))
    as [Hgt | Hle].
  - rewrite tl_skipn. f_equal. unfold k in *. lia.
  - f_equal. unfold k in *. lia.
Qed.

Lemma process_transaction_history (s : Settings) (t : TransactionInfo)
    (c : WalletConfig) (now : datetime) (w : World) :
  transaction_history (bot (_process_transaction s t c now w))
  = history_append (max_history_size (bot w)) (transaction_history (bot w)) t
  /\ max_history_size (bot (_process_transaction s t c now w))
     = max_history_size (bot w).
Proof.
  unfold _process_transaction.
  destruct (_should_copy_transaction s t c); simpl; split; reflexivity.
Qed.

Lemma process_all_history (s : Settings)
    (txs : list (TransactionInfo * WalletConfig * datetime)) :
  forall (w : World) (arrived : list TransactionInfo),
    max_history_size (bot w) = 1000 ->
    transaction_history (bot w)
    = skipn (List.length arrived - 1000) arrived ->
    transaction_history (bot (process_all s txs w))
    = skipn (List.length (arrived ++ arrivals txs) - 1000)
            (arrived ++ arrivals txs).
Proof.
  unfold process_all.
  induction txs as [| [[t c] now] txs IH]; intros w arrived Hmax Hh; simpl.
  - rewrite app_nil_r. exact Hh.
  - destruct (process_transaction_history s t c now w) as [Hh' Hmax'].
    specialize (IH (_process_transaction s t c now w) (arrived ++ [t])).
    rewrite <- app_assoc in IH. apply IH.
    + congruence.
    + rewrite Hh', Hmax, Hh.
      exact (history_append_latest 1000 arrived t).
Qed.

Lemma history_append_length (n : nat) (h : list TransactionInfo)
    (t : TransactionInfo) :
  (List.length h <= n)%nat ->
  (List.length (history_append (Z.of_nat n) h t) <= n)%nat.
Proof.
  intros Hh. unfold history_append.
  destruct (Z.gtb_spec (Z.of_nat (List.length (h ++ [t]))) (Z.of_nat n))
    as [Hgt | Hle].
  - rewrite length_app in Hgt. simpl in Hgt.
    destruct h as [| x h]; simpl in *; [lia |].
    rewrite length_app. simpl. lia.
  - lia.
Qed.

(** The bound as an invariant of the reachable states. *)
Lemma reachable_history_bounded (s : Settings) (w : World) :
  reachable s w ->
  max_history_size (bot w) = 1000
  /\ (List.length (transaction_history (bot w)) <= 1000)%nat.
Proof.
  induction 1 as [| w t c now Hw [IHmax IHlen]].
  - split; [reflexivity | simpl; lia].
  - destruct (process_transaction_history s t c now w) as [Hh Hmax].
    split; [congruence |].
    rewrite Hh, IHmax. exact (history_append_length 1000 _ t IHlen).
Qed.

(** C8: after any sequence of processed transactions the history holds
    at most 1000 entries; once more than 1000 have been processed it
    holds exactly 1000, namely the most recent ones in arrival order. *)
Theorem C8_history_keeps_latest (s : Settings)
    (txs : list (TransactionInfo * WalletConfig * datetime)) :
  let history := transaction_history (bot (process_all s txs World_init)) in
  (List.length history <= 1000)%nat
  /\ ((1000 < List.length txs)%nat ->
      List.length history = 1000%nat
      /\ history = skipn (List.length txs - 1000) (arrivals txs)).
Proof.
  pose proof (process_all_history s txs World_init [] eq_refl eq_refl) as H.
  simpl app in H. cbv zeta.
  assert (Hlen : List.length (arrivals txs) = List.length txs)
    by (unfold arrivals; apply length_map).
  rewrite H, Hlen. split.
  - rewrite length_skipn, Hlen. lia.
  - intros Hn. split; [| reflexivity].
    rewrite length_skipn, Hlen. lia.
Qed.

Lemma C8_history_keeps_latest_witness :
  let history :=
    transaction_history
      (bot (process_all default_settings (numbered_arrivals 1001) World_init)) in
  List.length history = 1000%nat
  /\ history = skipn 1 (arrivals (numbered_arrivals 1001)).
Proof.
  apply (C8_history_keeps_latest default_settings (numbered_arrivals 1001)).
  unfold numbered_arrivals. rewrite length_map, length_seq. lia.
Defined.



(** ** Statistics *)

Lemma update_stats_counts (st : CopyTradingStats) (t : TransactionInfo)
    (ok : bool) (now : datetime) :
  let st' := update_stats st t ok now in
  total_transactions_copied st' = total_transactions_copied st + 1
  /\ successful_copies st' = successful_copies st + (if ok then 1 else 0)
  /\ failed_copies st' = failed_copies st + (if ok then 0 else 1).
Proof.
  unfold update_stats. destruct ok; simpl; lia.
Qed.

Lemma process_transaction_stats (s : Settings) (t : TransactionInfo)
    (c : WalletConfig) (now : datetime) (w : World) :
  stats (bot (_process_transaction s t c now w))
  = if _should_copy_transaction s t c
    then update_stats (stats (bot w)) t (_copy_transaction t) now
    else stats (bot w).
Proof.
  unfold _process_transaction.
  destruct (_should_copy_transaction s t c); reflexivity.
Qed.

Lemma reachable_stats_consistent (s : Settings) (w : World) :
  reachable s w -> stats_consistent (stats (bot w)).
Proof.
  induction 1 as [| w t c now Hw IH].
  - reflexivity.
  - rewrite process_transaction_stats.
    destruct (_should_copy_transaction s t c); [| exact IH].
    unfold stats_consistent in *.
    destruct (update_stats_counts (stats (bot w)) t (_copy_transaction t) now)
      as (Ht & Hs & Hf).
    rewrite Ht, Hs, Hf, IH. destruct (_copy_transaction t); lia.
Qed.

(** C10: processing an eligible transaction adds one to the total and
    one to exactly one of the success and failure counters; hence in
    every state reachable from the zero counters the total is the sum of
    the two. *)
Theorem C10_copy_counters (s : Settings) :
  (forall (t : TransactionInfo) (c : WalletConfig) (now : datetime) (w : World),
      _should_copy_transaction s t c = true ->
      let st := stats (bot w) in
      let st' := stats (bot (_process_transaction s t c now w)) in
      total_transactions_copied st' = total_transactions_copied st + 1
      /\ ((successful_copies st' = successful_copies st + 1
           /\ failed_copies st' = failed_copies st)
          \/ (successful_copies st' = successful_copies st
              /\ failed_copies st' = failed_copies st + 1)))
  /\ (forall w : World, reachable s w -> stats_consistent (stats (bot w))).
Proof.
  split.
  - intros t c now w He. cbv zeta.
    rewrite process_transaction_stats, He.
    destruct (update_stats_counts (stats (bot w)) t (_copy_transaction t) now)
      as (Ht & Hs & Hf).
    split; [exact Ht |].
    rewrite Hs, Hf. destruct (_copy_transaction t); [left | right]; lia.
  - apply reachable_stats_consistent.
Qed.

Lemma C10_copy_counters_witness :
  let t := sample_tx "sigC" SOL_TRANSFER (Some f_0_3) in
  let c := sample_policy true true true (Some f_0_5) in
  let w := _process_transaction default_settings t c 7 World_init in
  _should_copy_transaction default_settings t c = true
  /\ total_transactions_copied (stats (bot w)) = 1
  /\ stats_consistent (stats (bot w)).
Proof.
  split; [reflexivity |].
  destruct (C10_copy_counters default_settings) as [Hstep Hinv].
  split.
  - apply (Hstep (sample_tx "sigC" SOL_TRANSFER (Some f_0_3))
                 (sample_policy true true true (Some f_0_5)) 7 World_init).
    reflexivity.
  - apply Hinv. apply reachable_step. apply reachable_init.
Defined.

(** ** Classification *)

Lemma bind_ok {A B : Type} (m : result A) (k : A -> result B) (b : B) :
  bind m k = Ok b -> exists a, m = Ok a /\ k a = Ok b.
Proof.
  destruct m as [a | e]; simpl; [| discriminate].
  intros H. exists a. split; [reflexivity | exact H].
Qed.

Lemma bind_Ok {A B : Type} (a : A) (k : A -> result B) :
  bind (Ok a) k = k a.
Proof. reflexivity. Qed.

Lemma try_except_total {A : Type} (body : result A) (a : A) :
  exists r, try_except body (fun _ => Ok a) = Ok r.
Proof.
  destruct body as [x | e]; simpl; eauto.
Qed.

Lemma unrecognised_get (v : json) :
  unrecognised v = true ->
  exists idx, py_get v "programIdIndex" JNull = Ok idx
              /\ py_eq_zero idx = false.
Proof.
  unfold unrecognised, is_object, names_system_program, py_get.
  destruct v as [| | | | | | kv]; simpl; try discriminate.
  destruct (dict_get kv "programIdIndex") as [idx |].
  - intros H. exists idx. split; [reflexivity |].
    destruct (py_eq_zero idx); [discriminate | reflexivity].
  - intros _. exists JNull. split; reflexivity.
Qed.

Lemma not_object_get (v : json) (key : string) (default : json) :
  is_object v = false -> py_get v key default = Raise AttributeError.
Proof.
  destruct v; simpl; intros H; try reflexivity; discriminate.
Qed.

Lemma sol_transfer_loop_unrecognised (items : list json) :
  forallb unrecognised items = true -> sol_transfer_loop items = Ok false.
Proof.
  induction items as [| i items IH]; simpl; [reflexivity |].
  intros H. apply andb_true_iff in H. destruct H as [Hi Hrest].
  destruct (unrecognised_get i Hi) as (idx & -> & Hz). simpl.
  rewrite Hz. exact (IH Hrest).
Qed.

Lemma sol_transfer_loop_malformed (before after : list json) (bad : json) :
  forallb unrecognised before = true -> is_object bad = false ->
  sol_transfer_loop (before ++ bad :: after) = Raise AttributeError.
Proof.
  induction before as [| i before IH]; simpl; intros H Hbad.
  - rewrite (not_object_get bad "programIdIndex" JNull Hbad). reflexivity.
  - apply andb_true_iff in H. destruct H as [Hi Hrest].
    destruct (unrecognised_get i Hi) as (idx & -> & Hz). simpl.
    rewrite Hz. exact (IH Hrest Hbad).
Qed.

(** What the cascade can answer: no amount, no mint, and one of two
    kinds. *)
Lemma classify_instructions_ok (instructions : json) (src : string)
    (ty : TransactionType) (a : option float) (m : option string) :
  classify_instructions instructions src = Ok (ty, a, m) ->
  a = None /\ m = None /\ (ty = UNKNOWN \/ ty = SOL_TRANSFER).
Proof.
  unfold classify_instructions. intros H.
  apply bind_ok in H. destruct H as (is_sol & _ & H).
  destruct is_sol; simpl in H; inversion H; auto.
Qed.

Lemma parse_transaction_amount (ft : json -> result datetime) (tx : json)
    (src : string) (t : TransactionInfo) :
  _parse_transaction ft tx src = Ok (Some t) ->
  amount t = None /\ token_mint t = None
  /\ (transaction_type t = UNKNOWN \/ transaction_type t = SOL_TRANSFER).
Proof.
  unfold _parse_transaction, try_except.
  destruct (parse_transaction_body ft tx src) as [r | e] eqn:Hbody;
    [| discriminate].
  intros Hr. inversion Hr; subst r. clear Hr.
  unfold parse_transaction_body in Hbody.
  apply bind_ok in Hbody. destruct Hbody as (meta & _ & Hbody).
  apply bind_ok in Hbody. destruct Hbody as (err & _ & Hbody).
  destruct (truthy err); [discriminate |].
  apply bind_ok in Hbody. destruct Hbody as (tr & _ & Hbody).
  apply bind_ok in Hbody. destruct Hbody as (msg & _ & Hbody).
  apply bind_ok in Hbody. destruct Hbody as (ins & _ & Hbody).
  apply bind_ok in Hbody. destruct Hbody as ([[ty a] m] & Hcls & Hbody).
  apply classify_instructions_ok in Hcls. destruct Hcls as (-> & -> & Hty).
  apply bind_ok in Hbody. destruct Hbody as (tr' & _ & Hbody).
  apply bind_ok in Hbody. destruct Hbody as (sigs & _ & Hbody).
  apply bind_ok in Hbody. destruct Hbody as (sg & _ & Hbody).
  apply bind_ok in Hbody. destruct Hbody as (bt & _ & Hbody).
  apply bind_ok in Hbody. destruct Hbody as (info & Hnew & Hbody).
  inversion Hbody; subst info. clear Hbody.
  unfold new_TransactionInfo in Hnew.
  destruct sg; try discriminate. destruct tx; try discriminate.
  inversion Hnew; subst t. simpl. auto.
Qed.

(** A record with a malformed instruction payload is dropped. *)
Lemma C6_malformed_payload_is_dropped :
  is_object (JInt 7) = false
  /\ _parse_transaction sample_fromtimestamp
       (sample_record "sigX" JNull [sample_instruction 3; JInt 7])
       "Wallet1111" = Ok None.
Proof. split; reflexivity. Qed.

(** C6, as the code has it: classification never raises.  A record it
    classifies has no amount.  A record that is not failed, whose
    instructions are objects none of which is recognised, and whose
    signature and block time can be read, is classified as unknown with
    no amount.  A record whose instruction list reaches a payload that
    is not an object is dropped: the answer is [None]. *)
Theorem C6_classification_total_and_degrading
    (ft : json -> result datetime) (tx : json) (src : string) :
  (exists r, _parse_transaction ft tx src = Ok r)
  /\ (forall t, _parse_transaction ft tx src = Ok (Some t) -> amount t = None)
  /\ (forall items sg bt,
        record_instructions tx (JList items) ->
        forallb unrecognised items = true ->
        record_signature tx sg ->
        block_time_of ft tx = Ok bt ->
        exists t, _parse_transaction ft tx src = Ok (Some t)
                  /\ transaction_type t = UNKNOWN
                  /\ amount t = None
                  /\ signature t = sg)
  /\ (forall before bad after,
        record_instructions tx (JList (before ++ bad :: after)) ->
        forallb unrecognised before = true ->
        is_object bad = false ->
        _parse_transaction ft tx src = Ok None).
Proof.
  split; [apply try_except_total |].
  split; [intros t Ht; apply (parse_transaction_amount ft tx src t Ht) |].
  split.
  - intros items sg bt (meta & err & tr & msg & Hm & He & Hf & Ht & Hg & Hi)
           Hun (tr' & sigs & Ht' & Hs & H0) Hbt.
    rewrite Ht in Ht'. inversion Ht'; subst tr'. clear Ht'.
    assert (Hdict : exists kv, tx = JDict kv).
    { destruct tx; simpl in Hm; try discriminate. eauto. }
    assert (Hcls : classify_instructions (JList items) src
                   = Ok (UNKNOWN, None, None)).
    { unfold classify_instructions, _is_sol_transfer, py_iter.
      rewrite bind_Ok, (sol_transfer_loop_unrecognised items Hun).
      reflexivity. }
    unfold _parse_transaction, parse_transaction_body.
    rewrite Hm, bind_Ok, He, bind_Ok, Hf, Ht, bind_Ok, Hg, bind_Ok, Hi,
      bind_Ok, Hcls, bind_Ok.
    cbv beta iota.
    rewrite bind_Ok, Hs, bind_Ok, H0, bind_Ok, Hbt, bind_Ok.
    destruct Hdict as [kv ->]. simpl.
    eexists. repeat split.
  - intros before bad after
           (meta & err & tr & msg & Hm & He & Hf & Ht & Hg & Hi) Hun Hbad.
    unfold _parse_transaction, parse_transaction_body.
    rewrite Hm, bind_Ok, He, bind_Ok, Hf, Ht, bind_Ok, Hg, bind_Ok, Hi,
      bind_Ok.
    unfold classify_instructions, _is_sol_transfer, py_iter.
    rewrite bind_Ok, (sol_transfer_loop_malformed before after bad Hun Hbad).
    reflexivity.
Qed.

Lemma sample_record_instructions (sg : string) (items : list json) :
  record_instructions (sample_record sg JNull items) (JList items).
Proof.
  exists (JDict [("err", JNull); ("fee", JInt 5000)]), JNull,
    (JDict [("message", JDict [("instructions", JList items)]);
            ("signatures", JList [JStr sg])]),
    (JDict [("instructions", JList items)]).
  repeat split.
Defined.

Lemma sample_record_signature (sg : string) (err : json) (items : list json) :
  record_signature (sample_record sg err items) sg.
Proof.
  exists (JDict [("message", JDict [("instructions", JList items)]);
                 ("signatures", JList [JStr sg])]),
    (JList [JStr sg]).
  repeat split.
Defined.

Lemma C6_classification_total_and_degrading_witness :
  (exists t,
      _parse_transaction sample_fromtimestamp
        (sample_record "sigW" JNull [sample_instruction 3]) "Wallet1111"
      = Ok (Some t)
      /\ transaction_type t = UNKNOWN /\ amount t = None
      /\ signature t = "sigW")
  /\ _parse_transaction sample_fromtimestamp
       (sample_record "sigW" JNull [sample_instruction 3; JStr "junk"])
       "Wallet1111" = Ok None.
Proof.
  split.
  - destruct (C6_classification_total_and_degrading sample_fromtimestamp
                (sample_record "sigW" JNull [sample_instruction 3])
                "Wallet1111") as (_ & _ & Hgood & _).
    apply (Hgood [sample_instruction 3] "sigW" (Some 1700000000000000)).
    + apply sample_record_instructions.
    + reflexivity.
    + apply sample_record_signature.
    + reflexivity.
  - destruct (C6_classification_total_and_degrading sample_fromtimestamp
                (sample_record "sigW" JNull
                   [sample_instruction 3; JStr "junk"])
                "Wallet1111") as (_ & _ & _ & Hbad).
    apply (Hbad [sample_instruction 3] (JStr "junk") []).
    + apply sample_record_instructions.
    + reflexivity.
    + reflexivity.
Defined.

(** ** Notifications *)

Section Notifications.

Variable ft : json -> result datetime.
Variable s : Settings.

(** A notification either leaves the world as it is or is exactly one
    call of [_process_transaction] on the transaction it resolved to. *)
Lemma log_notification_cases (d : Delivery) (w : World) :
  _process_log_notification ft s d w = w
  \/ exists t,
      _parse_transaction ft (fetched d) (wallet_address d) = Ok (Some t)
      /\ _process_log_notification ft s d w
         = _process_transaction s t (wallet_config d) (clock d) w.
Proof.
  unfold _process_log_notification.
  destruct (py_get (log_data d) "signature" JNull) as [sig | e];
    [| left; reflexivity].
  rewrite bind_Ok.
  destruct (truthy sig); simpl negb; cbv iota; [| left; reflexivity].
  destruct (truthy (fetched d)); simpl negb; cbv iota; [| left; reflexivity].
  destruct (_parse_transaction ft (fetched d) (wallet_address d))
    as [[t |] | e]; simpl; [right | left | left]; eauto.
Qed.

Lemma log_notification_dropped (d : Delivery) (w : World) :
  _parse_transaction ft (fetched d) (wallet_address d) = Ok None ->
  _process_log_notification ft s d w = w.
Proof.
  intros Hp. destruct (log_notification_cases d w) as [H | (t & Ht & _)];
    [exact H | congruence].
Qed.

Lemma log_notification_resolved (d : Delivery) (w : World) (sig : json)
    (t : TransactionInfo) :
  py_get (log_data d) "signature" JNull = Ok sig ->
  truthy sig = true ->
  truthy (fetched d) = true ->
  _parse_transaction ft (fetched d) (wallet_address d) = Ok (Some t) ->
  _process_log_notification ft s d w
  = _process_transaction s t (wallet_config d) (clock d) w.
Proof.
  intros Hsig Hts Htf Hp. unfold _process_log_notification.
  rewrite Hsig, bind_Ok, Hts, Htf. simpl negb. cbv iota.
  rewrite Hp. reflexivity.
Qed.

Lemma process_all_copy_calls
    (txs : list (TransactionInfo * WalletConfig * datetime)) :
  forall w : World,
    (List.length (copy_calls (process_all s txs w))
     <= List.length (copy_calls w) + List.length txs)%nat.
Proof.
  unfold process_all.
  induction txs as [| [[t c] now] txs IH]; intros w; simpl; [lia |].
  specialize (IH (_process_transaction s t c now w)).
  assert (Hstep : (List.length (copy_calls (_process_transaction s t c now w))
                   <= List.length (copy_calls w) + 1)%nat).
  { unfold _process_transaction.
    destruct (_should_copy_transaction s t c); simpl;
      rewrite ?length_app; simpl; lia. }
  lia.
Qed.

(** A run over notifications is a run of [_process_transaction] over
    the transactions they resolved to, at most one per notification. *)
Lemma run_as_process_all (ds : list Delivery) :
  forall w : World,
  exists txs,
    (List.length txs <= List.length ds)%nat
    /\ run ft s ds w = process_all s txs w.
Proof.
  unfold run, process_all.
  induction ds as [| d ds IH]; intros w; simpl.
  - exists []. split; [simpl; lia | reflexivity].
  - destruct (log_notification_cases d w) as [-> | (t & _ & ->)].
    + destruct (IH w) as (txs & Hlen & Heq).
      exists txs. split; [lia | exact Heq].
    + destruct (IH (_process_transaction s t (wallet_config d) (clock d) w))
        as (txs & Hlen & Heq).
      exists ((t, wallet_config d, clock d) :: txs).
      split; [simpl; lia | exact Heq].
Qed.

(** Handling notifications stays within the reachable states, so their
    invariants hold after every notification. *)
Lemma run_reachable (ds : list Delivery) :
  forall w : World, reachable s w -> reachable s (run ft s ds w).
Proof.
  unfold run. induction ds as [| d ds IH]; intros w Hw; simpl; [exact Hw |].
  apply IH. destruct (log_notification_cases d w) as [-> | (t & _ & ->)];
    [exact Hw | apply reachable_step; exact Hw].
Qed.

End Notifications.

(** Two notifications with the signature ["sigD"] that resolve to the
    same eligible record: two history entries and two calls of
    [_copy_transaction]. *)
Lemma C2_duplicate_is_copied_twice :
  let d := sample_delivery "sigD"
             (sample_record "sigD" JNull [sample_instruction 0]) 5 in
  let w := run sample_fromtimestamp default_settings [d; d] World_init in
  map signature (transaction_history (bot w)) = ["sigD"; "sigD"]
  /\ map signature (copy_calls w) = ["sigD"; "sigD"].
Proof. split; reflexivity. Qed.

(** C2, as the code has it: the pipeline keeps no record of the
    signatures it has handled.  Each notification (not each signature)
    leads to at most one call of [_process_transaction], hence to at
    most one history append and at most one call of [_copy_transaction];
    two notifications that resolve to the same eligible transaction
    yield two history entries and two execution attempts. *)
Theorem C2_one_attempt_per_notification
    (ft : json -> result datetime) (s : Settings) :
  (forall (ds : list Delivery) (w : World),
      exists txs,
        (List.length txs <= List.length ds)%nat
        /\ run ft s ds w = process_all s txs w
        /\ (List.length (copy_calls (run ft s ds w))
            <= List.length (copy_calls w) + List.length ds)%nat)
  /\ (forall (d : Delivery) (sig : json) (t : TransactionInfo),
        py_get (log_data d) "signature" JNull = Ok sig ->
        truthy sig = true ->
        truthy (fetched d) = true ->
        _parse_transaction ft (fetched d) (wallet_address d) = Ok (Some t) ->
        _should_copy_transaction s t (wallet_config d) = true ->
        let w := run ft s [d; d] World_init in
        transaction_history (bot w) = [t; t] /\ copy_calls w = [t; t]).
Proof.
  split.
  - intros ds w. destruct (run_as_process_all ft s ds w) as (txs & Hlen & Heq).
    exists txs. split; [exact Hlen |]. split; [exact Heq |].
    rewrite Heq. pose proof (process_all_copy_calls s txs w). lia.
  - intros d sig t Hsig Hts Htf Hp He. cbv zeta. unfold run. simpl fold_left.
    rewrite !(log_notification_resolved ft s d _ sig t Hsig Hts Htf Hp).
    unfold _process_transaction. rewrite He. simpl. split; reflexivity.
Qed.

Lemma C2_one_attempt_per_notification_witness :
  let d := sample_delivery "sigD"
             (sample_record "sigD" JNull [sample_instruction 0]) 5 in
  let w := run sample_fromtimestamp default_settings [d; d] World_init in
  List.length (transaction_history (bot w)) = 2%nat
  /\ List.length (copy_calls w) = 2%nat.
Proof.
  destruct (C2_one_attempt_per_notification sample_fromtimestamp
              default_settings) as [_ Hdup].
  destruct (Hdup (sample_delivery "sigD"
                    (sample_record "sigD" JNull [sample_instruction 0]) 5)
                 (JStr "sigD")
                 {| signature := "sigD";
                    block_time := Some 1700000000000000;
                    transaction_type := SOL_TRANSFER;
                    source_wallet := "Wallet1111";
                    amount := None; token_mint := None; success := true;
                    error_message := None;
                    raw_data := sample_record "sigD" JNull
                                  [sample_instruction 0] |})
    as [Hh Hc]; try reflexivity.
  cbv zeta. rewrite Hh, Hc. split; reflexivity.
Defined.

(** C7: a notification whose record is marked failed ([meta.err] is
    set, that is, true as a condition) yields no classified transaction
    and changes nothing: history, statistics and the list of copy
    attempts are as before. *)
Theorem C7_failed_record_is_discarded
    (ft : json -> result datetime) (s : Settings) (d : Delivery) (w : World)
    (meta err : json) :
  py_get (fetched d) "meta" (JDict []) = Ok meta ->
  py_get meta "err" JNull = Ok err ->
  truthy err = true ->
  _parse_transaction ft (fetched d) (wallet_address d) = Ok None
  /\ _process_log_notification ft s d w = w.
Proof.
  intros Hm He Ht.
  assert (Hp : _parse_transaction ft (fetched d) (wallet_address d) = Ok None).
  { unfold _parse_transaction, parse_transaction_body.
    rewrite Hm, bind_Ok, He, bind_Ok, Ht. reflexivity. }
  split; [exact Hp |].
  apply log_notification_dropped. exact Hp.
Qed.

Lemma C7_failed_record_is_discarded_witness :
  let failure := JDict [("InstructionError",
                         JList [JInt 0; JDict [("Custom", JInt 1)]])] in
  let d := sample_delivery "sigF"
             (sample_record "sigF" failure [sample_instruction 0]) 9 in
  truthy failure = true
  /\ _process_log_notification sample_fromtimestamp default_settings d
       World_init = World_init.
Proof.
  split; [reflexivity |].
  apply (C7_failed_record_is_discarded sample_fromtimestamp default_settings
           (sample_delivery "sigF"
              (sample_record "sigF"
                 (JDict [("InstructionError",
                          JList [JInt 0; JDict [("Custom", JInt 1)]])])
                 [sample_instruction 0]) 9)
           World_init
           (JDict [("err", JDict [("InstructionError",
                                   JList [JInt 0; JDict [("Custom", JInt 1)]])]);
                   ("fee", JInt 5000)])
           (JDict [("InstructionError",
                    JList [JInt 0; JDict [("Custom", JInt 1)]])]));
    reflexivity.
Defined.

(** * Further properties of the code *)

(** ** The scan of [_is_sol_transfer] *)

(** An instruction payload is not an object, or names the system
    program, or is an object that does not. *)
Lemma instruction_cases (i : json) :
  (is_object i = false
   /\ py_get i "programIdIndex" JNull = Raise AttributeError)
  \/ (names_system_program i = true
      /\ exists idx, py_get i "programIdIndex" JNull = Ok idx
                     /\ py_eq_zero idx = true)
  \/ unrecognised i = true.
Proof.
  destruct i as [| b | z | f | str | l | kv];
    try (left; split; reflexivity).
  unfold unrecognised, names_system_program, is_object, py_get.
  destruct (dict_get kv "programIdIndex") as [idx |].
  - destruct (py_eq_zero idx) eqn:Hz.
    + right; left. split; [reflexivity | eauto].
    + right; right. reflexivity.
  - right; right. reflexivity.
Qed.

Lemma unrecognised_not_system (i : json) :
  unrecognised i = true -> names_system_program i = false.
Proof.
  unfold unrecognised. intros H. apply andb_true_iff in H.
  destruct H as [_ H]. destruct (names_system_program i);
    [discriminate | reflexivity].
Qed.

Lemma unrecognised_is_object (i : json) :
  unrecognised i = true -> is_object i = true.
Proof.
  unfold unrecognised. intros H. apply andb_true_iff in H. tauto.
Qed.

Lemma sol_transfer_loop_found (before after : list json) (i : json) :
  forallb unrecognised before = true -> names_system_program i = true ->
  sol_transfer_loop (before ++ i :: after) = Ok true.
Proof.
  intros Hb Hi. induction before as [| x before IH]; simpl.
  - destruct (instruction_cases i) as [[Hno _] | [[_ (idx & -> & Hz)] | Hun]].
    + destruct i; simpl in *; discriminate.
    + rewrite bind_Ok, Hz. reflexivity.
    + rewrite (unrecognised_not_system i Hun) in Hi. discriminate.
  - simpl in Hb. apply andb_true_iff in Hb. destruct Hb as [Hx Hb].
    destruct (unrecognised_get x Hx) as (idx & -> & Hz).
    rewrite bind_Ok, Hz. exact (IH Hb).
Qed.

Lemma sol_transfer_loop_true_inv (items : list json) :
  sol_transfer_loop items = Ok true ->
  exists before i after,
    items = before ++ i :: after
    /\ forallb unrecognised before = true
    /\ names_system_program i = true.
Proof.
  induction items as [| x items IH]; simpl; [discriminate |].
  destruct (instruction_cases x) as [[_ ->] | [[Hs (idx & -> & Hz)] | Hun]].
  - discriminate.
  - intros _. exists [], x, items. repeat split. exact Hs.
  - destruct (unrecognised_get x Hun) as (idx & -> & Hz).
    rewrite bind_Ok, Hz. intros H.
    destruct (IH H) as (before & i & after & -> & Hb & Hi).
    exists (x :: before), i, after. repeat split; [| exact Hi].
    simpl. rewrite Hun. exact Hb.
Qed.

Lemma sol_transfer_loop_false_inv (items : list json) :
  sol_transfer_loop items = Ok false -> forallb unrecognised items = true.
Proof.
  induction items as [| x items IH]; simpl; [reflexivity |].
  destruct (instruction_cases x) as [[_ ->] | [[Hs (idx & -> & Hz)] | Hun]].
  - discriminate.
  - rewrite bind_Ok, Hz. discriminate.
  - destruct (unrecognised_get x Hun) as (idx & -> & Hz).
    rewrite bind_Ok, Hz, Hun. exact IH.
Qed.

(** X1: over a list of instructions [_is_sol_transfer] answers [True]
    exactly when some instruction names the system program and every
    instruction before it is a well-formed object (what follows it is
    never looked at), and [False] exactly when every instruction is a
    well-formed object that does not name the system program. *)
Theorem is_sol_transfer_first_match (items : list json) :
  (_is_sol_transfer (JList items) = Ok true <->
   exists before i after,
     items = before ++ i :: after
     /\ forallb unrecognised before = true
     /\ names_system_program i = true)
  /\ (_is_sol_transfer (JList items) = Ok false <->
      forallb unrecognised items = true).
Proof.
  unfold _is_sol_transfer, py_iter. rewrite bind_Ok. split; split.
  - apply sol_transfer_loop_true_inv.
  - intros (before & i & after & -> & Hb & Hi).
    apply sol_transfer_loop_found; assumption.
  - apply sol_transfer_loop_false_inv.
  - apply sol_transfer_loop_unrecognised.
Qed.

Lemma is_sol_transfer_first_match_witness :
  _is_sol_transfer
    (JList [sample_instruction 2; sample_instruction 0; JInt 7]) = Ok true
  /\ _is_sol_transfer (JList [sample_instruction 2]) = Ok false.
Proof.
  split.
  - apply (proj1 (is_sol_transfer_first_match
                    [sample_instruction 2; sample_instruction 0; JInt 7])).
    exists [sample_instruction 2], (sample_instruction 0), [JInt 7].
    repeat split.
  - apply (proj2 (is_sol_transfer_first_match [sample_instruction 2])).
    reflexivity.
Defined.

(** ** What [_parse_transaction] puts in its answer *)

Lemma new_TransactionInfo_ok (sig : json) (bt : option datetime)
    (ty : TransactionType) (src : string) (amt : option float)
    (mint : option string) (raw : json) (t : TransactionInfo) :
  new_TransactionInfo sig bt ty src amt mint raw = Ok t ->
  sig = JStr (signature t) /\ is_object raw = true
  /\ block_time t = bt /\ transaction_type t = ty /\ source_wallet t = src
  /\ amount t = amt /\ token_mint t = mint /\ success t = true
  /\ error_message t = None /\ raw_data t = raw.
Proof.
  unfold new_TransactionInfo.
  destruct sig; try discriminate. destruct raw; try discriminate.
  intros H. inversion H; subst t. simpl. repeat split.
Qed.

Lemma parse_transaction_ok_inv (ft : json -> result datetime) (tx : json)
    (src : string) (t : TransactionInfo) :
  _parse_transaction ft tx src = Ok (Some t) ->
  exists instructions,
    record_instructions tx instructions
    /\ record_signature tx (signature t)
    /\ block_time_of ft tx = Ok (block_time t)
    /\ classify_instructions instructions src
       = Ok (transaction_type t, amount t, token_mint t)
    /\ source_wallet t = src /\ raw_data t = tx
    /\ success t = true /\ error_message t = None.
Proof.
  unfold _parse_transaction, try_except.
  destruct (parse_transaction_body ft tx src) as [r | e] eqn:Hbody;
    [| discriminate].
  intros Hr. inversion Hr; subst r. clear Hr.
  unfold parse_transaction_body in Hbody.
  apply bind_ok in Hbody. destruct Hbody as (meta & Hm & Hbody).
  apply bind_ok in Hbody. destruct Hbody as (err & He & Hbody).
  destruct (truthy err) eqn:Hf; [discriminate |].
  apply bind_ok in Hbody. destruct Hbody as (tr & Ht & Hbody).
  apply bind_ok in Hbody. destruct Hbody as (msg & Hg & Hbody).
  apply bind_ok in Hbody. destruct Hbody as (ins & Hi & Hbody).
  apply bind_ok in Hbody. destruct Hbody as ([[ty a] m] & Hcls & Hbody).
  apply bind_ok in Hbody. destruct Hbody as (tr' & Ht' & Hbody).
  apply bind_ok in Hbody. destruct Hbody as (sigs & Hs & Hbody).
  apply bind_ok in Hbody. destruct Hbody as (sg & H0 & Hbody).
  apply bind_ok in Hbody. destruct Hbody as (bt & Hbt & Hbody).
  apply bind_ok in Hbody. destruct Hbody as (info & Hnew & Hbody).
  inversion Hbody; subst info. clear Hbody.
  apply new_TransactionInfo_ok in Hnew.
  destruct Hnew as (-> & _ & <- & <- & <- & <- & <- & Hsucc & Herr & Hraw).
  exists ins. split.
  { exists meta, err, tr, msg. repeat split; assumption. }
  split.
  { exists tr', sigs. repeat split; assumption. }
  repeat split; assumption.
Qed.

(** X2: when [_parse_transaction] answers with a transaction, that
    transaction carries the first signature of the record (not the one
    of the notification), the monitored wallet as source, the record
    itself as raw data, the success flag set and no error message; its
    record is an object that is not marked failed. *)
Theorem parse_transaction_fields (ft : json -> result datetime) (tx : json)
    (src : string) (t : TransactionInfo) :
  _parse_transaction ft tx src = Ok (Some t) ->
  record_signature tx (signature t)
  /\ block_time_of ft tx = Ok (block_time t)
  /\ source_wallet t = src
  /\ raw_data t = tx
  /\ success t = true
  /\ error_message t = None
  /\ is_object tx = true
  /\ (exists instructions, record_instructions tx instructions).
Proof.
  intros H. destruct (parse_transaction_ok_inv ft tx src t H)
    as (ins & Hins & Hsig & Hbt & _ & Hsrc & Hraw & Hsucc & Herr).
  repeat split; try assumption.
  - destruct Hins as (meta & _ & _ & _ & Hm & _).
    destruct tx; simpl in Hm; try discriminate. reflexivity.
  - exists ins. exact Hins.
Qed.

Lemma parse_transaction_fields_witness :
  let tx := sample_record "sigR" JNull [sample_instruction 0] in
  exists t,
    _parse_transaction sample_fromtimestamp tx "Wallet1111" = Ok (Some t)
    /\ source_wallet t = "Wallet1111" /\ raw_data t = tx.
Proof.
  cbv zeta.
  eexists. split; [reflexivity |].
  pose proof (parse_transaction_fields sample_fromtimestamp
                (sample_record "sigR" JNull [sample_instruction 0])
                "Wallet1111" _ eq_refl) as H.
  split; [exact (proj1 (proj2 (proj2 H)))
         | exact (proj1 (proj2 (proj2 (proj2 H))))].
Defined.

(** X3: a record that is an object without the keys ["meta"],
    ["transaction"] and ["blockTime"] is not dropped: the defaults of
    [get] make it a transaction of unknown kind whose signature is the
    empty string and which has no block time and no amount. *)
Theorem parse_transaction_missing_keys (ft : json -> result datetime)
    (kv : list (string * json)) (src : string) :
  dict_get kv "meta" = None ->
  dict_get kv "transaction" = None ->
  dict_get kv "blockTime" = None ->
  _parse_transaction ft (JDict kv) src
  = Ok (Some {| signature := ""; block_time := None;
                transaction_type := UNKNOWN; source_wallet := src;
                amount := None; token_mint := None; success := true;
                error_message := None; raw_data := JDict kv |}).
Proof.
  intros Hm Ht Hb.
  unfold _parse_transaction, parse_transaction_body, block_time_of, py_get.
  rewrite Hm, Ht, Hb. reflexivity.
Qed.

Lemma parse_transaction_missing_keys_witness :
  exists t,
    _parse_transaction sample_fromtimestamp (JDict [("slot", JInt 7)])
      "Wallet1111" = Ok (Some t)
    /\ signature t = "" /\ transaction_type t = UNKNOWN.
Proof.
  eexists. split.
  - apply (parse_transaction_missing_keys sample_fromtimestamp
             [("slot", JInt 7)] "Wallet1111"); reflexivity.
  - split; reflexivity.
Defined.

(** X4: a record whose ["meta"] is present but is not an object (for
    instance [null]) is dropped, although a record without the key is
    accepted; so is a record that is not an object itself. *)
Theorem parse_transaction_bad_meta (ft : json -> result datetime)
    (tx : json) (src : string) :
  (is_object tx = false
   \/ exists kv meta, tx = JDict kv /\ dict_get kv "meta" = Some meta
                      /\ is_object meta = false) ->
  _parse_transaction ft tx src = Ok None.
Proof.
  intros [Hno | (kv & meta & -> & Hm & Hno)];
    unfold _parse_transaction, parse_transaction_body.
  - rewrite (not_object_get tx "meta" (JDict []) Hno). reflexivity.
  - unfold py_get at 1. rewrite Hm, bind_Ok.
    rewrite (not_object_get meta "err" JNull Hno). reflexivity.
Qed.

Lemma parse_transaction_bad_meta_witness :
  _parse_transaction sample_fromtimestamp
    (JDict [("meta", JNull);
            ("transaction", JDict [("signatures", JList [JStr "sigQ"])])])
    "Wallet1111" = Ok None.
Proof.
  apply parse_transaction_bad_meta. right.
  exists [("meta", JNull);
          ("transaction", JDict [("signatures", JList [JStr "sigQ"])])],
    JNull.
  repeat split.
Defined.

(** ** Classifier and policy together *)

(** X5: for a transaction that [_parse_transaction] produced, the
    ceiling and the floor never decide: it is eligible exactly when it
    is of unknown kind, or a native transfer and the policy copies
    native transfers. *)
Theorem parsed_transaction_eligibility (ft : json -> result datetime)
    (s : Settings) (tx : json) (src : string) (t : TransactionInfo)
    (c : WalletConfig) :
  _parse_transaction ft tx src = Ok (Some t) ->
  _should_copy_transaction s t c
  = match transaction_type t with
    | SOL_TRANSFER => copy_sol c
    | _ => true
    end.
Proof.
  intros H. destruct (parse_transaction_amount ft tx src t H)
    as (Ha & _ & [Hk | Hk]);
    rewrite should_copy_split, Ha; unfold kind_gate; rewrite Hk;
    apply andb_true_r.
Qed.

Lemma parsed_transaction_eligibility_witness :
  let tx := sample_record "sigE" JNull [sample_instruction 4] in
  let t := {| signature := "sigE"; block_time := Some 1700000000000000;
              transaction_type := UNKNOWN; source_wallet := "Wallet1111";
              amount := None; token_mint := None; success := true;
              error_message := None; raw_data := tx |} in
  _parse_transaction sample_fromtimestamp tx "Wallet1111" = Ok (Some t)
  /\ _should_copy_transaction {| min_transaction_amount := f_1_0 |} t
       (sample_policy false false false (Some f_0_0005)) = true.
Proof.
  cbv zeta. split; [reflexivity |].
  exact (parsed_transaction_eligibility sample_fromtimestamp
           {| min_transaction_amount := f_1_0 |}
           (sample_record "sigE" JNull [sample_instruction 4])
           "Wallet1111"
           {| signature := "sigE"; block_time := Some 1700000000000000;
              transaction_type := UNKNOWN; source_wallet := "Wallet1111";
              amount := None; token_mint := None; success := true;
              error_message := None;
              raw_data := sample_record "sigE" JNull [sample_instruction 4] |}
           (sample_policy false false false (Some f_0_0005)) eq_refl).
Defined.

(** ** Notifications that are ignored, and what a handled one does *)

(** X6: a notification changes nothing when its payload is not an
    object, when it has no signature or a signature that is false as a
    condition (for instance the empty string), or when [get_transaction]
    answered [None]. *)
Theorem log_notification_ignored (ft : json -> result datetime)
    (s : Settings) (d : Delivery) (w : World) :
  (is_object (log_data d) = false
   \/ (exists sig, py_get (log_data d) "signature" JNull = Ok sig
                   /\ truthy sig = false)
   \/ truthy (fetched d) = false) ->
  _process_log_notification ft s d w = w.
Proof.
  unfold _process_log_notification.
  intros [Hno | [(sig & Hsig & Hf) | Hf]].
  - rewrite (not_object_get (log_data d) "signature" JNull Hno). reflexivity.
  - rewrite Hsig, bind_Ok, Hf. reflexivity.
  - destruct (py_get (log_data d) "signature" JNull) as [sig | e];
      [| reflexivity].
    rewrite bind_Ok. destruct (truthy sig); [| reflexivity].
    rewrite Hf. reflexivity.
Qed.

Lemma log_notification_ignored_witness :
  let d := {| wallet_address := "Wallet1111";
              wallet_config := sample_policy true true true None;
              log_data := JDict [("signature", JStr "")];
              fetched := sample_record "sigI" JNull [sample_instruction 0];
              clock := 3 |} in
  _process_log_notification sample_fromtimestamp default_settings d World_init
  = World_init.
Proof.
  apply log_notification_ignored. right; left.
  exists (JStr ""). split; reflexivity.
Defined.

(** X7: a notification that is not ignored appends the classified
    transaction to the history whether or not the policy lets it be
    copied; only an eligible one is handed to [_copy_transaction] and
    counted, a rejected one leaves statistics and copy attempts as they
    were. *)
Theorem log_notification_effect (ft : json -> result datetime)
    (s : Settings) (d : Delivery) (w : World) (sig : json)
    (t : TransactionInfo) :
  py_get (log_data d) "signature" JNull = Ok sig ->
  truthy sig = true ->
  truthy (fetched d) = true ->
  _parse_transaction ft (fetched d) (wallet_address d) = Ok (Some t) ->
  let w' := _process_log_notification ft s d w in
  transaction_history (bot w')
  = history_append (max_history_size (bot w)) (transaction_history (bot w)) t
  /\ (_should_copy_transaction s t (wallet_config d) = true ->
      copy_calls w' = copy_calls w ++ [t]
      /\ total_transactions_copied (stats (bot w'))
         = total_transactions_copied (stats (bot w)) + 1
      /\ last_activity (stats (bot w')) = Some (clock d))
  /\ (_should_copy_transaction s t (wallet_config d) = false ->
      copy_calls w' = copy_calls w /\ stats (bot w') = stats (bot w)).
Proof.
  intros Hsig Hts Htf Hp. cbv zeta.
  rewrite (log_notification_resolved ft s d w sig t Hsig Hts Htf Hp).
  unfold _process_transaction.
  destruct (_should_copy_transaction s t (wallet_config d)); simpl.
  - split; [reflexivity |]. split; [| discriminate].
    intros _. unfold update_stats.
    destruct (_copy_transaction t); simpl; repeat split.
  - split; [reflexivity |]. split; [discriminate |].
    intros _. split; reflexivity.
Qed.

Lemma log_notification_effect_witness :
  let d := {| wallet_address := "Wallet1111";
              wallet_config := sample_policy false true true None;
              log_data := JDict [("signature", JStr "sigH")];
              fetched := sample_record "sigH" JNull [sample_instruction 0];
              clock := 3 |} in
  let w' := _process_log_notification sample_fromtimestamp default_settings
              d World_init in
  List.length (transaction_history (bot w')) = 1%nat
  /\ copy_calls w' = []
  /\ stats (bot w') = CopyTradingStats_default.
Proof.
  cbv zeta.
  destruct (log_notification_effect sample_fromtimestamp default_settings
              {| wallet_address := "Wallet1111";
                 wallet_config := sample_policy false true true None;
                 log_data := JDict [("signature", JStr "sigH")];
                 fetched := sample_record "sigH" JNull [sample_instruction 0];
                 clock := 3 |}
              World_init (JStr "sigH") _ eq_refl eq_refl eq_refl eq_refl)
    as (Hh & _ & Hrej).
  destruct (Hrej eq_refl) as [Hc Hs].
  rewrite Hh, Hc, Hs. repeat split.
Defined.

(** ** Statistics of the reachable states *)

Lemma copy_transaction_kinds (t : TransactionInfo) :
  _copy_transaction t = true <->
  (transaction_type t = SOL_TRANSFER \/ transaction_type t = SPL_TRANSFER
   \/ transaction_type t = RAYDIUM_SWAP).
Proof.
  unfold _copy_transaction.
  destruct (transaction_type t); simpl; split; intros H; auto;
    try discriminate; destruct H as [H | [H | H]]; discriminate.
Qed.

(** X8: in every reachable state each successful copy is counted under
    exactly one kind (the three kind counters add up to
    [successful_copies]), the total equals the number of calls of
    [_copy_transaction], and [failed_copies] is the number of those
    calls made for a transaction of a kind the executor does not
    support. *)
Theorem reachable_stats_by_kind (s : Settings) (w : World) :
  reachable s w ->
  let st := stats (bot w) in
  successful_copies st
  = sol_transfers_copied st + spl_transfers_copied st + swaps_copied st
  /\ total_transactions_copied st = Z.of_nat (List.length (copy_calls w))
  /\ failed_copies st
     = Z.of_nat (List.length
                   (filter (fun t => negb (_copy_transaction t))
                           (copy_calls w))).
Proof.
  cbv zeta. induction 1 as [| w t c now Hw (IHk & IHt & IHf)].
  - repeat split.
  - unfold _process_transaction.
    destruct (_should_copy_transaction s t c); simpl;
      [| repeat split; assumption].
    rewrite filter_app, !length_app. cbn [filter List.length].
    destruct (_copy_transaction t) eqn:Hc; cbn [negb List.length];
      unfold update_stats; unfold _copy_transaction in Hc;
      destruct (transaction_type t); simpl in *; try discriminate;
      repeat split; lia.
Qed.

Lemma reachable_stats_by_kind_witness :
  let w := process_all default_settings
             [(sample_tx "a" SOL_TRANSFER None,
               sample_policy true true true None, 1);
              (sample_tx "b" UNKNOWN None,
               sample_policy true true true None, 2)] World_init in
  successful_copies (stats (bot w))
  = sol_transfers_copied (stats (bot w))
    + spl_transfers_copied (stats (bot w)) + swaps_copied (stats (bot w))
  /\ failed_copies (stats (bot w)) = 1.
Proof.
  cbv zeta.
  destruct (reachable_stats_by_kind default_settings
              (process_all default_settings
                 [(sample_tx "a" SOL_TRANSFER None,
                   sample_policy true true true None, 1);
                  (sample_tx "b" UNKNOWN None,
                   sample_policy true true true None, 2)] World_init))
    as (Hk & _ & Hf).
  - apply reachable_step. apply reachable_step. apply reachable_init.
  - split; [exact Hk | exact Hf].
Defined.

(** X9: whatever notifications arrive, starting from the initial state
    the pipeline never records a token transfer, a swap or any volume:
    the classifier yields no amount and only the kinds unknown and
    native transfer, so these three statistics stay at zero and every
    success is a native transfer. *)
Theorem run_never_counts_volume (ft : json -> result datetime)
    (s : Settings) (ds : list Delivery) :
  let st := stats (bot (run ft s ds World_init)) in
  spl_transfers_copied st = 0
  /\ swaps_copied st = 0
  /\ total_volume_copied st = f_zero
  /\ successful_copies st = sol_transfers_copied st.
Proof.
  cbv zeta.
  assert (Hgen : forall w,
             (spl_transfers_copied (stats (bot w)) = 0
              /\ swaps_copied (stats (bot w)) = 0
              /\ total_volume_copied (stats (bot w)) = f_zero
              /\ successful_copies (stats (bot w))
                 = sol_transfers_copied (stats (bot w))) ->
             let st := stats (bot (run ft s ds w)) in
             spl_transfers_copied st = 0
             /\ swaps_copied st = 0
             /\ total_volume_copied st = f_zero
             /\ successful_copies st = sol_transfers_copied st).
  { unfold run. induction ds as [| d ds IH]; intros w Hw; simpl; [exact Hw |].
    apply IH.
    destruct (log_notification_cases ft s d w) as [-> | (t & Hp & ->)];
      [exact Hw |].
    destruct (parse_transaction_amount ft _ _ t Hp) as (Ha & _ & Hk).
    destruct Hw as (H1 & H2 & H3 & H4).
    unfold _process_transaction.
    destruct (_should_copy_transaction s t (wallet_config d)); simpl;
      [| repeat split; assumption].
    unfold update_stats, _copy_transaction. rewrite Ha.
    destruct Hk as [-> | ->]; simpl; repeat split; try assumption; lia. }
  apply Hgen. repeat split.
Qed.

(** ** Paging through the history *)

Lemma firstn_add_skipn {A : Type} (n m : nat) (l : list A) :
  firstn (n + m) l = firstn n l ++ firstn m (skipn n l).
Proof.
  revert l. induction n as [| n IH]; intros [| x l]; simpl;
    try reflexivity.
  - rewrite firstn_nil. reflexivity.
  - rewrite IH. reflexivity.
Qed.

Lemma skipn_add {A : Type} (n m : nat) (l : list A) :
  skipn m (skipn n l) = skipn (n + m) l.
Proof.
  revert l. induction n as [| n IH]; intros [| x l]; simpl;
    try reflexivity.
  - apply skipn_nil.
  - apply IH.
Qed.

(** Adjacent pieces of a list join. *)
Lemma slices_join {A : Type} (a b c : nat) (l : list A) :
  (a <= b)%nat -> (b <= c)%nat ->
  firstn (b - a) (skipn a l) ++ firstn (c - b) (skipn b l)
  = firstn (c - a) (skipn a l).
Proof.
  intros Hab Hbc.
  replace (c - a)%nat with ((b - a) + (c - b))%nat by lia.
  rewrite firstn_add_skipn, skipn_add.
  replace (a + (b - a))%nat with b by lia. reflexivity.
Qed.

Lemma get_transaction_history_nat (b : BotManager) (limit offset : Z) :
  let h := transaction_history b in
  let len := Z.of_nat (List.length h) in
  let lo := Z.to_nat (Z.min (Z.max 0 (len - offset - limit)) len) in
  let hi := Z.to_nat (Z.min (Z.max 0 (len - offset)) len) in
  get_transaction_history b limit offset = firstn (hi - lo) (skipn lo h).
Proof.
  cbv zeta. unfold get_transaction_history, py_slice.
  set (len := Z.of_nat (List.length (transaction_history b))).
  set (a := Z.max 0 (len - offset - limit)).
  set (e := Z.max 0 (len - offset)).
  assert (Ha : (a <? 0) = false) by (apply Z.ltb_ge; unfold a; lia).
  assert (He : (e <? 0) = false) by (apply Z.ltb_ge; unfold e; lia).
  rewrite Ha, He. f_equal. lia.
Qed.

(** X10: pages tile the history.  For limits and an offset that are
    not negative, the page that follows a page (same direction, the
    offset advanced by the first page's limit) placed before it gives
    the page one would get by asking for both at once. *)
Theorem history_pages_tile (b : BotManager) (limit1 limit2 offset : Z) :
  0 <= limit1 -> 0 <= limit2 -> 0 <= offset ->
  get_transaction_history b limit2 (offset + limit1)
  ++ get_transaction_history b limit1 offset
  = get_transaction_history b (limit1 + limit2) offset.
Proof.
  intros H1 H2 Ho. rewrite !get_transaction_history_nat. cbv zeta.
  set (len := Z.of_nat (List.length (transaction_history b))).
  replace (len - (offset + limit1) - limit2)
    with (len - offset - (limit1 + limit2)) by lia.
  replace (len - (offset + limit1)) with (len - offset - limit1) by lia.
  apply slices_join; lia.
Qed.

Lemma history_pages_tile_witness :
  let b := {| transaction_history := arrivals (numbered_arrivals 10);
              max_history_size := 1000;
              stats := CopyTradingStats_default |} in
  get_transaction_history b 4 5 ++ get_transaction_history b 3 2
  = get_transaction_history b 7 2.
Proof.
  apply (history_pages_tile
           {| transaction_history := arrivals (numbered_arrivals 10);
              max_history_size := 1000;
              stats := CopyTradingStats_default |} 3 4 2); lia.
Defined.

(** X11: [get_transaction_history] accepts any integers.  The page is
    always a contiguous part of the history; a limit that is zero or
    negative gives the empty page; an offset that is zero or negative
    gives the newest entries, and a negative offset shortens that page
    by its amount instead of being rejected. *)
Theorem history_page_any_integers (b : BotManager) (limit offset : Z) :
  let h := transaction_history b in
  let page := get_transaction_history b limit offset in
  (exists older newer, h = older ++ page ++ newer)
  /\ (limit <= 0 -> page = [])
  /\ (offset <= 0 ->
      (exists older, h = older ++ page)
      /\ Z.of_nat (List.length page)
         = Z.min (Z.of_nat (List.length h)) (Z.max 0 (limit + offset))).
Proof.
  cbv zeta. rewrite get_transaction_history_nat. cbv zeta.
  set (h := transaction_history b).
  set (len := Z.of_nat (List.length h)).
  set (lo := Z.to_nat (Z.min (Z.max 0 (len - offset - limit)) len)).
  set (hi := Z.to_nat (Z.min (Z.max 0 (len - offset)) len)).
  split; [| split].
  - exists (firstn lo h), (skipn (hi - lo) (skipn lo h)).
    rewrite (firstn_skipn (hi - lo) (skipn lo h)).
    symmetry. apply firstn_skipn.
  - intros Hl. replace (hi - lo)%nat with 0%nat
      by (unfold hi, lo, len in *; lia).
    reflexivity.
  - intros Ho. split.
    + exists (firstn lo h).
      assert (Hall : firstn (hi - lo) (skipn lo h) = skipn lo h).
      { apply firstn_all2. rewrite length_skipn.
        unfold hi, lo, len in *. lia. }
      rewrite Hall. symmetry. apply firstn_skipn.
    + rewrite length_firstn, length_skipn. unfold hi, lo, len in *. lia.
Qed.

Lemma history_page_any_integers_witness :
  let b := {| transaction_history := arrivals (numbered_arrivals 10);
              max_history_size := 1000;
              stats := CopyTradingStats_default |} in
  get_transaction_history b (-1) 2 = []
  /\ Z.of_nat (List.length (get_transaction_history b 5 (-3))) = 2.
Proof.
  pose (b := {| transaction_history := arrivals (numbered_arrivals 10);
                max_history_size := 1000;
                stats := CopyTradingStats_default |}).
  destruct (history_page_any_integers b (-1) 2) as (_ & Hneg & _).
  destruct (history_page_any_integers b 5 (-3)) as (_ & _ & Hoff).
  split.
  - apply Hneg. lia.
  - destruct Hoff as [_ Hlen]; [lia |]. exact Hlen.
Defined.

(** ** Fetching the record of a notification *)

(** X12: [get_transaction] never raises.  It answers with a value [v]
    other than [None] exactly when the client is initialised and the
    response is an object without the key ["error"] whose ["result"] is
    [v].  When the request fails or the response carries an ["error"]
    key, it answers [None], and the notification that asked for the
    record changes nothing. *)
Theorem get_transaction_answers (session : bool) (http : HttpOutcome) :
  (forall v, v <> JNull ->
     (get_transaction session http = v <->
      session = true
      /\ exists kv, http = HttpJson (JDict kv)
                    /\ dict_get kv "error" = None
                    /\ dict_get kv "result" = Some v))
  /\ ((session = false \/ http = HttpFailed
       \/ exists kv detail, http = HttpJson (JDict kv)
                            /\ dict_get kv "error" = Some detail) ->
      get_transaction session http = JNull
      /\ forall ft s wallet config payload now w,
           _process_log_notification ft s
             (delivery_of wallet config payload session http now) w = w).
Proof.
  split.
  - intros v Hv. unfold get_transaction, _make_rpc_call. split.
    + destruct session; simpl; [| congruence].
      destruct http as [| body]; [congruence |].
      destruct body as [| b | z | f | str | l | kv]; simpl;
        try congruence.
      * destruct (str_contains "error" str); congruence.
      * destruct (existsb _ l); congruence.
      * destruct (dict_get kv "error") as [detail |] eqn:He; [congruence |].
        destruct (dict_get kv "result") as [v' |] eqn:Hr; [| congruence].
        intros ->. split; [reflexivity |]. exists kv.
        split; [reflexivity | split; [exact He | exact Hr]].
    + intros (-> & kv & -> & He & Hr). simpl. rewrite He, Hr. reflexivity.
  - intros H.
    assert (Hnull : get_transaction session http = JNull).
    { unfold get_transaction, _make_rpc_call.
      destruct H as [-> | [-> | (kv & detail & -> & He)]].
      - reflexivity.
      - destruct session; reflexivity.
      - destruct session; simpl; [| reflexivity]. rewrite He. reflexivity. }
    split; [exact Hnull |].
    intros ft s wallet config payload now w.
    unfold _process_log_notification, delivery_of. simpl.
    rewrite Hnull.
    destruct (py_get payload "signature" JNull) as [sig | e];
      [| reflexivity].
    rewrite bind_Ok. destruct (truthy sig); reflexivity.
Qed.

Lemma get_transaction_answers_witness :
  get_transaction true
    (HttpJson (JDict [("jsonrpc", JStr "2.0"); ("result", JInt 3)])) = JInt 3
  /\ get_transaction true
       (HttpJson (JDict [("error", JDict [("code", JInt (-32602))]);
                         ("result", JInt 3)])) = JNull.
Proof.
  split.
  - apply (proj1 (get_transaction_answers true
                    (HttpJson (JDict [("jsonrpc", JStr "2.0");
                                      ("result", JInt 3)])))
                 (JInt 3)).
    + discriminate.
    + split; [reflexivity |].
      exists [("jsonrpc", JStr "2.0"); ("result", JInt 3)]. repeat split.
  - apply (proj2 (get_transaction_answers true
                    (HttpJson (JDict [("error",
                                       JDict [("code", JInt (-32602))]);
                                      ("result", JInt 3)])))).
    right; right.
    exists [("error", JDict [("code", JInt (-32602))]); ("result", JInt 3)],
      (JDict [("code", JInt (-32602))]).
    split; reflexivity.
Defined.

(** ** Dicts and object stores *)

Section PyDictFacts.

Context {V : Type}.

Lemma pd_get_set_same (d : pydict V) (k : string) (v : V) :
  pd_get (pd_set d k v) k = Some v.
Proof.
  induction d as [| [k0 v0] d IH]; simpl.
  - rewrite String.eqb_refl. reflexivity.
  - destruct (String.eqb k0 k) eqn:E; simpl; rewrite E; auto.
Qed.

Lemma pd_get_set_other (d : pydict V) (k k' : string) (v : V) :
  k' <> k -> pd_get (pd_set d k v) k' = pd_get d k'.
Proof.
  intros Hne. induction d as [| [k0 v0] d IH]; simpl.
  - destruct (String.eqb_spec k k'); [congruence | reflexivity].
  - destruct (String.eqb_spec k0 k) as [-> | Hk]; simpl.
    + destruct (String.eqb_spec k k'); [congruence | reflexivity].
    + destruct (String.eqb k0 k'); [reflexivity | exact IH].
Qed.

Lemma pd_get_del_other (d : pydict V) (k k' : string) :
  k' <> k -> pd_get (pd_del d k) k' = pd_get d k'.
Proof.
  intros Hne. induction d as [| [k0 v0] d IH]; simpl; [reflexivity |].
  destruct (String.eqb_spec k0 k) as [-> | Hk]; simpl.
  - destruct (String.eqb_spec k k'); [congruence | reflexivity].
  - destruct (String.eqb k0 k'); [reflexivity | exact IH].
Qed.

Lemma pd_get_none_keys (d : pydict V) (k : string) :
  pd_get d k = None <-> ~ In k (pd_keys d).
Proof.
  induction d as [| [k0 v0] d IH]; simpl; [tauto |].
  destruct (String.eqb_spec k0 k) as [-> | Hk].
  - split; [discriminate | intros H; exfalso; apply H; left; reflexivity].
  - rewrite IH. tauto.
Qed.

Lemma pd_get_some_keys (d : pydict V) (k : string) (v : V) :
  pd_get d k = Some v -> In k (pd_keys d).
Proof.
  intros H. destruct (in_dec string_dec k (pd_keys d)) as [Hin | Hout];
    [exact Hin |].
  apply pd_get_none_keys in Hout. congruence.
Qed.

Lemma pd_get_in (d : pydict V) (k : string) (v : V) :
  pd_get d k = Some v -> In (k, v) d.
Proof.
  induction d as [| [k0 v0] d IH]; simpl; [discriminate |].
  destruct (String.eqb_spec k0 k) as [-> | Hk].
  - intros H. inversion H. left. reflexivity.
  - intros H. right. exact (IH H).
Qed.

Lemma pd_in_get (d : pydict V) (k : string) (v : V) :
  NoDup (pd_keys d) -> In (k, v) d -> pd_get d k = Some v.
Proof.
  induction d as [| [k0 v0] d IH]; simpl; [tauto |].
  intros Hnd [Heq | Hin].
  - inversion Heq; subst. rewrite String.eqb_refl. reflexivity.
  - inversion Hnd as [| x l Hnotin Hnd']; subst.
    destruct (String.eqb_spec k0 k) as [-> | Hk].
    + exfalso. apply Hnotin. apply (in_map fst) in Hin. exact Hin.
    + exact (IH Hnd' Hin).
Qed.

Lemma pd_keys_del_incl (d : pydict V) (k k' : string) :
  In k' (pd_keys (pd_del d k)) -> In k' (pd_keys d).
Proof.
  induction d as [| [k0 v0] d IH]; simpl; [tauto |].
  destruct (String.eqb k0 k); simpl; [tauto |].
  intros [H | H]; [left; exact H | right; exact (IH H)].
Qed.

Lemma pd_del_nodup (d : pydict V) (k : string) :
  NoDup (pd_keys d) -> NoDup (pd_keys (pd_del d k)).
Proof.
  induction d as [| [k0 v0] d IH]; simpl; [tauto |].
  intros Hnd. inversion Hnd as [| x l Hnotin Hnd']; subst.
  destruct (String.eqb k0 k); simpl; [exact Hnd' |].
  constructor; [| exact (IH Hnd')].
  intros Hin. apply Hnotin. exact (pd_keys_del_incl d k k0 Hin).
Qed.

Lemma pd_get_del_same (d : pydict V) (k : string) :
  NoDup (pd_keys d) -> pd_get (pd_del d k) k = None.
Proof.
  induction d as [| [k0 v0] d IH]; simpl; [reflexivity |].
  intros Hnd. inversion Hnd as [| x l Hnotin Hnd']; subst.
  destruct (String.eqb_spec k0 k) as [-> | Hk]; simpl.
  - apply pd_get_none_keys. exact Hnotin.
  - destruct (String.eqb_spec k0 k); [congruence | exact (IH Hnd')].
Qed.

Lemma pd_keys_set (d : pydict V) (k : string) (v : V) :
  pd_keys (pd_set d k v)
  = if pd_mem d k then pd_keys d else pd_keys d ++ [k].
Proof.
  unfold pd_mem. induction d as [| [k0 v0] d IH]; simpl; [reflexivity |].
  destruct (String.eqb k0 k); simpl; [reflexivity |].
  rewrite IH. destruct (pd_get d k); reflexivity.
Qed.

Lemma pd_set_nodup (d : pydict V) (k : string) (v : V) :
  NoDup (pd_keys d) -> NoDup (pd_keys (pd_set d k v)).
Proof.
  intros Hnd. rewrite pd_keys_set. unfold pd_mem.
  destruct (pd_get d k) eqn:E; [exact Hnd |].
  apply pd_get_none_keys in E.
  apply NoDup_app; [exact Hnd | constructor; [simpl; tauto | constructor] |].
  intros x Hx [<- | []]. exact (E Hx).
Qed.

End PyDictFacts.

Lemma list_set_length {A : Type} (l : list A) (i : nat) (x : A) :
  List.length (list_set l i x) = List.length l.
Proof.
  revert i. induction l as [| y l IH]; intros [| i]; simpl; auto.
Qed.

Lemma nth_error_list_set_same {A : Type} (l : list A) (i : nat) (x : A) :
  (i < List.length l)%nat -> nth_error (list_set l i x) i = Some x.
Proof.
  revert i. induction l as [| y l IH]; intros [| i]; simpl; intros H;
    try lia; [reflexivity |].
  apply IH. lia.
Qed.

Lemma nth_error_list_set_other {A : Type} (l : list A) (i j : nat) (x : A) :
  i <> j -> nth_error (list_set l i x) j = nth_error l j.
Proof.
  revert i j. induction l as [| y l IH]; intros [| i] [| j] H; simpl;
    try reflexivity; try congruence.
  apply IH. congruence.
Qed.

Lemma cancel_task_other (ts : list Task) (i j : nat) :
  i <> j -> nth_error (cancel_task ts i) j = nth_error ts j.
Proof.
  intros H. unfold cancel_task. destruct (nth_error ts i); [| reflexivity].
  apply nth_error_list_set_other. exact H.
Qed.

Lemma cancel_task_same (ts : list Task) (i : nat) (t : Task) :
  nth_error ts i = Some t ->
  nth_error (cancel_task ts i) i
  = Some {| task_wallet := task_wallet t; task_config := task_config t;
            task_cancelled := true |}.
Proof.
  intros H. unfold cancel_task. rewrite H.
  apply nth_error_list_set_same. apply nth_error_Some. congruence.
Qed.

(** Cancelling keeps every task where it is and who it is; only the
    flag can change, and only towards cancelled. *)
Lemma cancel_task_keeps (ts : list Task) (i j : nat) (t : Task) :
  nth_error ts j = Some t ->
  exists t', nth_error (cancel_task ts i) j = Some t'
             /\ task_wallet t' = task_wallet t
             /\ task_config t' = task_config t
             /\ (task_cancelled t = true -> task_cancelled t' = true).
Proof.
  intros H. destruct (Nat.eq_dec i j) as [-> | Hne].
  - rewrite (cancel_task_same ts j t H). eexists. repeat split.
  - rewrite (cancel_task_other ts i j Hne), H. exists t. repeat split. auto.
Qed.

Lemma nth_error_snoc_old {A : Type} (l : list A) (x y : A) (i : nat) :
  nth_error l i = Some y -> nth_error (l ++ [x]) i = Some y.
Proof.
  intros H. rewrite nth_error_app1; [exact H |].
  apply nth_error_Some. congruence.
Qed.

Lemma nth_error_snoc_new {A : Type} (l : list A) (x : A) :
  nth_error (l ++ [x]) (List.length l) = Some x.
Proof.
  rewrite nth_error_app2 by lia. rewrite Nat.sub_diag. reflexivity.
Qed.

Lemma pd_mem_set {V : Type} (d : pydict V) (k a : string) (v : V) :
  pd_mem d a = true \/ a = k -> pd_mem (pd_set d k v) a = true.
Proof.
  unfold pd_mem. intros H. destruct (string_dec a k) as [-> | Hne].
  - rewrite pd_get_set_same. reflexivity.
  - rewrite (pd_get_set_other d k a v Hne). destruct H; [assumption | tauto].
Qed.

Lemma setattr_fold_address (updates : list FieldUpdate) (c : WalletConfig) :
  address (fold_left setattr updates c) = address c.
Proof.
  revert c. induction updates as [| f updates IH]; intros c; simpl;
    [reflexivity |].
  rewrite IH. destruct f; reflexivity.
Qed.

(** ** The invariant of the registry *)

Lemma stores_ok_task_started (r : Registry) (wallet : string) (config : nat)
    (c : WalletConfig) :
  stores_ok r ->
  nth_error (config_objects r) config = Some c -> address c = wallet ->
  pd_mem (monitored_wallets r) wallet = true ->
  stores_ok (_start_wallet_monitoring wallet config r).
Proof.
  intros (Hw & Ht & Hobj & Htask) Hc Ha Hm.
  unfold stores_ok, _start_wallet_monitoring, task_policy. simpl.
  split; [exact Hw |]. split; [apply pd_set_nodup; exact Ht |].
  split; [exact Hobj |].
  intros a tref Hget. destruct (string_dec a wallet) as [-> | Hne].
  - rewrite pd_get_set_same in Hget. inversion Hget; subst tref.
    eexists. split; [apply nth_error_snoc_new |]. simpl.
    repeat split; eauto.
  - rewrite (pd_get_set_other _ wallet a _ Hne) in Hget.
    destruct (Htask a tref Hget) as (t & Hn & H1 & H2 & H3 & H4).
    exists t. split; [apply nth_error_snoc_old; exact Hn |].
    repeat split; assumption.
Qed.

Lemma stores_ok_wallet_stored (r : Registry) (c : WalletConfig) :
  stores_ok r ->
  stores_ok {| status := status r;
               config_objects := config_objects r ++ [c];
               tasks := tasks r;
               monitored_wallets :=
                 pd_set (monitored_wallets r) (address c)
                        (List.length (config_objects r));
               monitoring_tasks := monitoring_tasks r;
               start_time := start_time r;
               last_error := last_error r |}.
Proof.
  intros (Hw & Ht & Hobj & Htask).
  unfold stores_ok, task_policy. simpl.
  split; [apply pd_set_nodup; exact Hw |]. split; [exact Ht |].
  split.
  - intros a ref Hget. destruct (string_dec a (address c)) as [-> | Hne].
    + rewrite pd_get_set_same in Hget. inversion Hget; subst ref.
      exists c. split; [apply nth_error_snoc_new | reflexivity].
    + rewrite (pd_get_set_other _ (address c) a _ Hne) in Hget.
      destruct (Hobj a ref Hget) as (c' & Hn & Ha).
      exists c'. split; [apply nth_error_snoc_old; exact Hn | exact Ha].
  - intros a tref Hget.
    destruct (Htask a tref Hget) as (t & Hn & H1 & H2 & (c' & Hp & Ha) & H4).
    exists t. repeat split; try assumption.
    + exists c'. split; [apply nth_error_snoc_old; exact Hp | exact Ha].
    + apply pd_mem_set. left. exact H4.
Qed.

Lemma start_loop_frame (items : list (string * nat)) (r : Registry) :
  status (start_loop items r) = status r
  /\ config_objects (start_loop items r) = config_objects r
  /\ monitored_wallets (start_loop items r) = monitored_wallets r
  /\ start_time (start_loop items r) = start_time r
  /\ last_error (start_loop items r) = last_error r.
Proof.
  revert r. induction items as [| [wallet config] items IH]; intros r; simpl;
    [repeat split |].
  destruct (nth_error (config_objects r) config) as [c |]; [| apply IH].
  destruct (enabled c); [| apply IH].
  destruct (IH (_start_wallet_monitoring wallet config r))
    as (H1 & H2 & H3 & H4 & H5).
  repeat split; assumption.
Qed.

Lemma start_loop_stores_ok (items : list (string * nat)) (r : Registry) :
  stores_ok r ->
  (forall wallet config,
      In (wallet, config) items ->
      pd_get (monitored_wallets r) wallet = Some config) ->
  stores_ok (start_loop items r).
Proof.
  revert r. induction items as [| [wallet config] items IH]; intros r Hok Hin;
    simpl; [exact Hok |].
  assert (Hrest : forall w c, In (w, c) items ->
                              pd_get (monitored_wallets r) w = Some c)
    by (intros w c H; apply Hin; right; exact H).
  destruct (nth_error (config_objects r) config) as [c |] eqn:Hc;
    [| apply IH; assumption].
  destruct (enabled c); [| apply IH; assumption].
  apply IH; [| exact Hrest].
  pose proof (Hin wallet config (or_introl eq_refl)) as Hget.
  destruct Hok as (Hw & Ht & Hobj & Htask).
  destruct (Hobj wallet config Hget) as (c' & Hc' & Ha).
  rewrite Hc in Hc'. inversion Hc'; subst c'.
  apply (stores_ok_task_started r wallet config c);
    [repeat split; assumption | exact Hc | exact Ha |].
  unfold pd_mem. rewrite Hget. reflexivity.
Qed.

(** Which wallets have a task after the loop of [start_monitoring]. *)
Lemma start_loop_registered (items : list (string * nat)) (r : Registry)
    (a : string) :
  pd_mem (monitoring_tasks (start_loop items r)) a = true <->
  (pd_mem (monitoring_tasks r) a = true
   \/ exists ref c, In (a, ref) items
                    /\ nth_error (config_objects r) ref = Some c
                    /\ enabled c = true).
Proof.
  revert r. induction items as [| [wallet config] items IH]; intros r; simpl.
  - split; [auto | intros [H | (ref & c & [] & _)]; exact H].
  - destruct (nth_error (config_objects r) config) as [c |] eqn:Hc.
    + destruct (enabled c) eqn:He.
      * rewrite IH. simpl. split.
        -- intros [H | (ref & c' & Hin & Hn & Hen)].
           ++ destruct (string_dec a wallet) as [-> | Hne].
              ** right. exists config, c. auto.
              ** left. unfold pd_mem in *.
                 rewrite (pd_get_set_other _ wallet a _ Hne) in H. exact H.
           ++ right. exists ref, c'. auto.
        -- intros [H | (ref & c' & [Heq | Hin] & Hn & Hen)].
           ++ left. apply pd_mem_set. left. exact H.
           ++ inversion Heq; subst. left. apply pd_mem_set. right.
              reflexivity.
           ++ right. exists ref, c'. auto.
      * rewrite IH. split.
        -- intros [H | (ref & c' & Hin & Hn & Hen)]; [left; exact H |].
           right. exists ref, c'. auto.
        -- intros [H | (ref & c' & [Heq | Hin] & Hn & Hen)];
             [left; exact H | | right; exists ref, c'; auto].
           inversion Heq; subst. congruence.
    + rewrite IH. split.
      * intros [H | (ref & c' & Hin & Hn & Hen)]; [left; exact H |].
        right. exists ref, c'. auto.
      * intros [H | (ref & c' & [Heq | Hin] & Hn & Hen)];
          [left; exact H | | right; exists ref, c'; auto].
        inversion Heq; subst. congruence.
Qed.

Lemma registry_ok_start (now : datetime) (r : Registry) :
  registry_ok r -> registry_ok (start_monitoring now r).
Proof.
  intros (Hok & Hst & Hempty). unfold start_monitoring.
  destruct (BotStatus_eqb (status r) RUNNING); [exact (conj Hok (conj Hst Hempty)) |].
  set (r1 := {| status := STARTING;
                config_objects := config_objects r;
                tasks := tasks r;
                monitored_wallets := monitored_wallets r;
                monitoring_tasks := monitoring_tasks r;
                start_time := Some now;
                last_error := last_error r |}).
  assert (Hok1 : stores_ok r1) by exact Hok.
  assert (Hloop : stores_ok (start_loop (monitored_wallets r1) r1)).
  { apply start_loop_stores_ok; [exact Hok1 |].
    intros wallet config Hin. apply pd_in_get; [apply Hok1 | exact Hin]. }
  split; [exact Hloop |]. split; [right; reflexivity | discriminate].
Qed.

Lemma registry_ok_stop (r : Registry) :
  registry_ok r -> registry_ok (stop_monitoring r).
Proof.
  intros (Hok & Hst & Hempty). unfold stop_monitoring.
  destruct (BotStatus_eqb (status r) STOPPED); [exact (conj Hok (conj Hst Hempty)) |].
  destruct Hok as (Hw & Ht & Hobj & Htask).
  split; [| split; [left; reflexivity | reflexivity]].
  unfold stores_ok. simpl. split; [exact Hw |]. split; [constructor |].
  split; [exact Hobj | intros a tref H; discriminate].
Qed.

Lemma registry_ok_add (c : WalletConfig) (r : Registry) :
  registry_ok r -> registry_ok (add_wallet c r).
Proof.
  intros (Hok & Hst & Hempty). unfold add_wallet.
  pose proof (stores_ok_wallet_stored r c Hok) as Hok1.
  destruct (BotStatus_eqb (status r) RUNNING && enabled c) eqn:Hrun.
  - split; [| split].
    + apply (stores_ok_task_started _ (address c) _ c Hok1); simpl.
      * apply nth_error_snoc_new.
      * reflexivity.
      * apply pd_mem_set. right. reflexivity.
    + exact Hst.
    + simpl. intros Hs. rewrite Hs in Hrun. discriminate.
  - split; [exact Hok1 | split; [exact Hst | exact Hempty]].
Qed.

Lemma registry_ok_remove (wallet : string) (r : Registry) :
  registry_ok r -> registry_ok (remove_wallet wallet r).
Proof.
  intros (Hok & Hst & Hempty). unfold remove_wallet.
  set (r1 := match pd_get (monitoring_tasks r) wallet with
             | Some task => _
             | None => r
             end).
  assert (H1 : (stores_ok r1
                /\ forall a, pd_mem (monitoring_tasks r1) a = true ->
                             a <> wallet)
               /\ status r1 = status r
               /\ (monitoring_tasks r = [] -> monitoring_tasks r1 = [])).
  { subst r1. destruct (pd_get (monitoring_tasks r) wallet) as [task |] eqn:Hg.
    - destruct Hok as (Hw & Ht & Hobj & Htask).
      destruct (Htask wallet task Hg) as (t0 & Hn0 & Hw0 & _).
      split; [| split; [reflexivity | intros E; rewrite E in Hg; discriminate]].
      split.
      + unfold stores_ok, task_policy. simpl.
        split; [exact Hw |]. split; [apply pd_del_nodup; exact Ht |].
        split; [exact Hobj |].
        intros a tref Hget.
        destruct (string_dec a wallet) as [-> | Hne].
        { rewrite (pd_get_del_same _ wallet Ht) in Hget. discriminate. }
        rewrite (pd_get_del_other _ wallet a Hne) in Hget.
        destruct (Htask a tref Hget) as (t & Hn & Ha & Hc & Hp & Hm).
        assert (Hdiff : task <> tref).
        { intros ->. rewrite Hn0 in Hn. inversion Hn; subst t0. congruence. }
        exists t. rewrite (cancel_task_other _ task tref Hdiff).
        repeat split; assumption.
      + simpl. intros a Hm ->. unfold pd_mem in Hm.
        rewrite (pd_get_del_same _ wallet Ht) in Hm. discriminate.
    - split; [| split; [reflexivity | auto]].
      split; [exact Hok |].
      intros a Hm ->. unfold pd_mem in Hm. rewrite Hg in Hm. discriminate. }
  destruct H1 as ((Hok1 & Hfree) & Hs1 & He1).
  destruct (pd_mem (monitored_wallets r1) wallet).
  - split; [| split; simpl; [rewrite Hs1; exact Hst |
                             rewrite Hs1; intros Hs; auto]].
    destruct Hok1 as (Hw & Ht & Hobj & Htask).
    unfold stores_ok, task_policy. simpl.
    split; [apply pd_del_nodup; exact Hw |]. split; [exact Ht |].
    split.
    + intros a ref Hget. destruct (string_dec a wallet) as [-> | Hne].
      * rewrite (pd_get_del_same _ wallet Hw) in Hget. discriminate.
      * rewrite (pd_get_del_other _ wallet a Hne) in Hget.
        exact (Hobj a ref Hget).
    + intros a tref Hget.
      destruct (Htask a tref Hget) as (t & Hn & Ha & Hc & Hp & Hm).
      exists t. repeat split; try assumption.
      assert (Hne : a <> wallet).
      { apply Hfree. unfold pd_mem. rewrite Hget. reflexivity. }
      unfold pd_mem in *. rewrite (pd_get_del_other _ wallet a Hne).
      exact Hm.
  - split; [exact Hok1 |]. rewrite Hs1. split; [exact Hst | auto].
Qed.

Lemma registry_ok_update (wallet : string) (updates : list FieldUpdate)
    (r : Registry) :
  registry_ok r -> registry_ok (update_wallet wallet updates r).
Proof.
  intros (Hok & Hst & Hempty). unfold update_wallet.
  destruct (pd_get (monitored_wallets r) wallet) as [ref |] eqn:Hg;
    [| exact (conj Hok (conj Hst Hempty))].
  destruct (nth_error (config_objects r) ref) as [config |] eqn:Hn;
    [| exact (conj Hok (conj Hst Hempty))].
  split; [| split; [exact Hst | exact Hempty]].
  destruct Hok as (Hw & Ht & Hobj & Htask).
  assert (Hconf : address config = wallet).
  { destruct (Hobj wallet ref Hg) as (c' & Hc' & Ha). congruence. }
  assert (Hkeep : forall i c, nth_error (config_objects r) i = Some c ->
            exists c', nth_error (list_set (config_objects r) ref
                                    (fold_left setattr updates config)) i
                       = Some c'
                       /\ address c' = address c).
  { intros i c Hi. destruct (Nat.eq_dec ref i) as [<- | Hne].
    - rewrite nth_error_list_set_same
        by (apply nth_error_Some; congruence).
      eexists. split; [reflexivity |].
      rewrite setattr_fold_address. congruence.
    - rewrite (nth_error_list_set_other _ ref i _ Hne). eauto. }
  unfold stores_ok, task_policy. simpl.
  split; [exact Hw |]. split; [exact Ht |]. split.
  - intros a ref' Hget. destruct (Hobj a ref' Hget) as (c & Hc & Ha).
    destruct (Hkeep ref' c Hc) as (c' & Hc' & Ha').
    exists c'. split; [exact Hc' | congruence].
  - intros a tref Hget.
    destruct (Htask a tref Hget) as (t & Hnt & Ha & Hc & (c & Hp & Hac) & Hm).
    exists t. repeat split; try assumption.
    destruct (Hkeep _ c Hp) as (c' & Hc' & Ha').
    exists c'. split; [exact Hc' | congruence].
Qed.

Lemma registry_ok_init (ws : WalletSettings) : registry_ok (Registry_init ws).
Proof.
  unfold Registry_init, _load_configuration.
  set (r0 := {| status := STOPPED; config_objects := []; tasks := [];
                monitored_wallets := []; monitoring_tasks := [];
                start_time := None; last_error := None |}).
  assert (H0 : registry_ok r0 /\ status r0 = STOPPED).
  { split; [| reflexivity]. split; [| split; [left; reflexivity | reflexivity]].
    unfold stores_ok. simpl. repeat split; try constructor;
      intros a ref H; discriminate. }
  destruct (negb (String.eqb (target_wallets ws) "")); [| apply H0].
  generalize dependent r0. generalize (wallet_addresses (target_wallets ws)).
  intros l. induction l as [| wallet l IH]; intros r0 [Hok Hs]; simpl;
    [exact Hok |].
  apply IH. destruct Hok as (Hok & Hst & Hempty). split; [| exact Hs].
  split; [| split; [exact Hst | exact Hempty]].
  exact (stores_ok_wallet_stored r0 (configured_wallet ws wallet) Hok).
Qed.

Lemma registry_reachable_ok (ws : WalletSettings) (r : Registry) :
  registry_reachable ws r -> registry_ok r.
Proof.
  induction 1 as [| call r Hr IH]; [apply registry_ok_init |].
  destruct call; simpl.
  - apply registry_ok_start; exact IH.
  - apply registry_ok_stop; exact IH.
  - apply registry_ok_add; exact IH.
  - apply registry_ok_remove; exact IH.
  - apply registry_ok_update; exact IH.
Qed.

(** X13: in every registry reached from the initial one by calls of
    start, stop, add, remove and update, the status is [STOPPED] or
    [RUNNING], a stopped manager has no registered task, both dicts have
    each key once, every wallet with a task is among the monitored
    wallets, the stored policy of a wallet carries that wallet's
    address, and the task registered for a wallet monitors that wallet,
    has not been cancelled, and evaluates a policy made for it. *)
Theorem registry_invariant (ws : WalletSettings) (r : Registry) :
  registry_reachable ws r ->
  (status r = STOPPED \/ status r = RUNNING)
  /\ (status r = STOPPED -> monitoring_tasks r = [])
  /\ NoDup (pd_keys (monitored_wallets r))
  /\ NoDup (pd_keys (monitoring_tasks r))
  /\ (forall a, pd_mem (monitoring_tasks r) a = true ->
                pd_mem (monitored_wallets r) a = true)
  /\ (forall a, pd_mem (monitored_wallets r) a = true ->
                exists c, wallet_policy r a = Some c /\ address c = a)
  /\ (forall a t, wallet_task r a = Some t ->
                  task_wallet t = a /\ task_cancelled t = false
                  /\ exists c, task_policy r t = Some c /\ address c = a).
Proof.
  intros Hr. destruct (registry_reachable_ok ws r Hr)
    as ((Hw & Ht & Hobj & Htask) & Hst & Hempty).
  split; [exact Hst |]. split; [exact Hempty |].
  split; [exact Hw |]. split; [exact Ht |]. split; [| split].
  - intros a Hm. unfold pd_mem in Hm.
    destruct (pd_get (monitoring_tasks r) a) as [tref |] eqn:Hg;
      [| discriminate].
    destruct (Htask a tref Hg) as (t & _ & _ & _ & _ & Hmem). exact Hmem.
  - intros a Hm. unfold pd_mem in Hm. unfold wallet_policy.
    destruct (pd_get (monitored_wallets r) a) as [ref |] eqn:Hg;
      [| discriminate].
    exact (Hobj a ref Hg).
  - intros a t Ht'. unfold wallet_task in Ht'.
    destruct (pd_get (monitoring_tasks r) a) as [tref |] eqn:Hg;
      [| discriminate].
    destruct (Htask a tref Hg) as (t' & Hn & Ha & Hc & Hp & _).
    rewrite Hn in Ht'. inversion Ht'; subst t'. auto.
Qed.

Lemma registry_invariant_witness :
  let r := registry_call (CallAdd (sample_policy true true true None))
             (registry_call (CallStart 5)
                (Registry_init sample_wallet_settings)) in
  status r = STOPPED \/ status r = RUNNING.
Proof.
  apply (registry_invariant sample_wallet_settings).
  apply registry_reachable_call. apply registry_reachable_call.
  apply registry_reachable_init.
Defined.

(** ** Starting and stopping *)

Lemma wallet_policy_items (r : Registry) (a : string) :
  NoDup (pd_keys (monitored_wallets r)) ->
  ((exists ref c, In (a, ref) (monitored_wallets r)
                  /\ nth_error (config_objects r) ref = Some c
                  /\ enabled c = true)
   <-> exists c, wallet_policy r a = Some c /\ enabled c = true).
Proof.
  intros Hnd. unfold wallet_policy. split.
  - intros (ref & c & Hin & Hn & He).
    rewrite (pd_in_get _ a ref Hnd Hin). eauto.
  - intros (c & Hp & He).
    destruct (pd_get (monitored_wallets r) a) as [ref |] eqn:Hg;
      [| discriminate].
    exists ref, c. split; [apply pd_get_in; exact Hg | auto].
Qed.

(** X14: [start_monitoring] on a stopped manager ends with the status
    [RUNNING] and the start time set, leaves wallets and policies as
    they are, and registers a task for exactly the wallets whose policy
    is enabled.  On a running manager it changes nothing. *)
Theorem start_monitoring_registers_enabled (ws : WalletSettings)
    (r : Registry) (now : datetime) :
  registry_reachable ws r ->
  (status r = RUNNING -> start_monitoring now r = r)
  /\ (status r = STOPPED ->
      let r' := start_monitoring now r in
      status r' = RUNNING
      /\ start_time r' = Some now
      /\ monitored_wallets r' = monitored_wallets r
      /\ config_objects r' = config_objects r
      /\ forall a, pd_mem (monitoring_tasks r') a = true <->
                   exists c, wallet_policy r a = Some c /\ enabled c = true).
Proof.
  intros Hr. destruct (registry_reachable_ok ws r Hr)
    as ((Hw & _) & _ & Hempty).
  unfold start_monitoring. split.
  - intros ->. reflexivity.
  - intros Hs. rewrite Hs. simpl BotStatus_eqb. cbv iota zeta.
    set (r1 := {| status := STARTING;
                  config_objects := config_objects r;
                  tasks := tasks r;
                  monitored_wallets := monitored_wallets r;
                  monitoring_tasks := monitoring_tasks r;
                  start_time := Some now;
                  last_error := last_error r |}).
    destruct (start_loop_frame (monitored_wallets r) r1)
      as (_ & Hobjs & Hmw & Htime & _).
    split; [reflexivity |]. split; [exact Htime |].
    split; [exact Hmw |]. split; [exact Hobjs |].
    intros a. simpl.
    rewrite (start_loop_registered (monitored_wallets r) r1 a).
    simpl. rewrite (Hempty Hs). unfold pd_mem at 1. simpl.
    rewrite (wallet_policy_items r a Hw).
    split; [intros [H | H]; [discriminate | exact H] | auto].
Qed.

Lemma start_monitoring_registers_enabled_witness :
  let r' := start_monitoring 5 (Registry_init sample_wallet_settings) in
  status r' = RUNNING
  /\ pd_mem (monitoring_tasks r') "Wallet2222" = true.
Proof.
  destruct (start_monitoring_registers_enabled sample_wallet_settings
              (Registry_init sample_wallet_settings) 5
              (registry_reachable_init sample_wallet_settings))
    as [_ Hstart].
  destruct (Hstart eq_refl) as (Hs & _ & _ & _ & Hreg).
  split; [exact Hs |].
  apply Hreg. eexists. split; reflexivity.
Defined.

Lemma cancel_fold_keeps (entries : pydict nat) (ts : list Task) (j : nat)
    (t : Task) :
  nth_error ts j = Some t ->
  exists t',
    nth_error (fold_left (fun acc entry => cancel_task acc (snd entry))
                         entries ts) j = Some t'
    /\ task_wallet t' = task_wallet t
    /\ task_config t' = task_config t
    /\ (task_cancelled t = true -> task_cancelled t' = true).
Proof.
  revert ts t. induction entries as [| [k i] entries IH]; intros ts t H;
    simpl; [exists t; auto |].
  destruct (cancel_task_keeps ts i j t H) as (t1 & H1 & Hw1 & Hc1 & Hx1).
  destruct (IH (cancel_task ts i) t1 H1) as (t2 & H2 & Hw2 & Hc2 & Hx2).
  exists t2. split; [exact H2 |].
  split; [congruence |]. split; [congruence | auto].
Qed.

Lemma cancel_fold_hit (entries : pydict nat) (ts : list Task) (k : string)
    (j : nat) (t : Task) :
  In (k, j) entries -> nth_error ts j = Some t ->
  exists t',
    nth_error (fold_left (fun acc entry => cancel_task acc (snd entry))
                         entries ts) j = Some t'
    /\ task_wallet t' = task_wallet t
    /\ task_config t' = task_config t
    /\ task_cancelled t' = true.
Proof.
  revert ts t. induction entries as [| [k0 i] entries IH]; intros ts t Hin H;
    simpl in *; [tauto |].
  destruct Hin as [Heq | Hin].
  - inversion Heq; subst k0 i.
    pose proof (cancel_task_same ts j t H) as H1.
    destruct (cancel_fold_keeps entries _ j _ H1) as (t2 & H2 & Hw & Hc & Hx).
    exists t2. simpl in *. auto.
  - destruct (cancel_task_keeps ts i j t H) as (t1 & H1 & Hw1 & Hc1 & _).
    destruct (IH (cancel_task ts i) t1 Hin H1) as (t2 & H2 & Hw2 & Hc2 & Hx2).
    exists t2. split; [exact H2 |].
    split; [congruence |]. split; [congruence | exact Hx2].
Qed.

Lemma cancel_fold_miss (entries : pydict nat) (ts : list Task) (j : nat) :
  (forall k i, In (k, i) entries -> i <> j) ->
  nth_error (fold_left (fun acc entry => cancel_task acc (snd entry))
                       entries ts) j
  = nth_error ts j.
Proof.
  revert ts. induction entries as [| [k0 i] entries IH]; intros ts Hmiss;
    simpl; [reflexivity |].
  rewrite IH by (intros k i' Hin; apply (Hmiss k i'); right; exact Hin).
  apply cancel_task_other. apply (Hmiss k0 i). left. reflexivity.
Qed.

(** X15: [stop_monitoring] ends with the status [STOPPED] and no
    registered task; every task that was registered has been cancelled;
    wallets, policies and the start time stay as they were.  On a
    stopped manager it changes nothing. *)
Theorem stop_monitoring_cancels_registered (ws : WalletSettings)
    (r : Registry) :
  registry_reachable ws r ->
  let r' := stop_monitoring r in
  status r' = STOPPED
  /\ monitoring_tasks r' = []
  /\ monitored_wallets r' = monitored_wallets r
  /\ config_objects r' = config_objects r
  /\ start_time r' = start_time r
  /\ (status r = STOPPED -> r' = r)
  /\ (forall a tref,
         pd_get (monitoring_tasks r) a = Some tref ->
         exists t', nth_error (tasks r') tref = Some t'
                    /\ task_wallet t' = a /\ task_cancelled t' = true).
Proof.
  intros Hr. destruct (registry_reachable_ok ws r Hr)
    as ((_ & _ & _ & Htask) & Hst & Hempty).
  cbv zeta. unfold stop_monitoring.
  destruct (status r) eqn:Hs; simpl;
    try (destruct Hst as [Hst | Hst]; discriminate).
  - split; [exact Hs |]. split; [apply Hempty; reflexivity |].
    do 4 (split; [reflexivity |]).
    intros a tref Hg. rewrite (Hempty eq_refl) in Hg. discriminate.
  - do 5 (split; [reflexivity |]). split; [discriminate |].
    intros a tref Hg.
    destruct (Htask a tref Hg) as (t & Hn & Ha & _).
    destruct (cancel_fold_hit (monitoring_tasks r) (tasks r) a tref t
                (pd_get_in _ a tref Hg) Hn) as (t' & Hn' & Hw' & _ & Hc').
    exists t'. split; [exact Hn' |]. split; [congruence | exact Hc'].
Qed.

Lemma stop_monitoring_cancels_registered_witness :
  let r := start_monitoring 5 (Registry_init sample_wallet_settings) in
  let r' := stop_monitoring r in
  status r' = STOPPED /\ monitoring_tasks r' = []
  /\ exists t', nth_error (tasks r') 0 = Some t'
                /\ task_cancelled t' = true.
Proof.
  cbv zeta.
  destruct (stop_monitoring_cancels_registered sample_wallet_settings
              (start_monitoring 5 (Registry_init sample_wallet_settings)))
    as (Hs & He & _ & _ & _ & _ & Hc).
  - apply (registry_reachable_call sample_wallet_settings (CallStart 5)).
    apply registry_reachable_init.
  - split; [exact Hs |]. split; [exact He |].
    destruct (Hc "Wallet1111" 0%nat eq_refl) as (t' & Hn & _ & Hx).
    exists t'. split; assumption.
Defined.

(** ** Adding, removing and updating wallets *)

Lemma pd_del_absent {V : Type} (d : pydict V) (k : string) :
  pd_get d k = None -> pd_del d k = d.
Proof.
  induction d as [| [k0 v0] d IH]; simpl; [reflexivity |].
  destruct (String.eqb k0 k); [discriminate |].
  intros H. rewrite (IH H). reflexivity.
Qed.

(** The fields of the registry after [add_wallet]. *)
Lemma add_wallet_fields (c : WalletConfig) (r : Registry) :
  let r' := add_wallet c r in
  config_objects r' = config_objects r ++ [c]
  /\ monitored_wallets r'
     = pd_set (monitored_wallets r) (address c) (List.length (config_objects r))
  /\ status r' = status r
  /\ (if BotStatus_eqb (status r) RUNNING && enabled c
      then tasks r' = tasks r ++ [{| task_wallet := address c;
                                     task_config := List.length (config_objects r);
                                     task_cancelled := false |}]
           /\ monitoring_tasks r'
              = pd_set (monitoring_tasks r) (address c) (List.length (tasks r))
      else tasks r' = tasks r /\ monitoring_tasks r' = monitoring_tasks r).
Proof.
  cbv zeta. unfold add_wallet.
  destruct (BotStatus_eqb (status r) RUNNING && enabled c); simpl;
    repeat split.
Qed.

Lemma wallet_policy_stored (r : Registry) (c : WalletConfig) (a : string) :
  stores_ok r -> a <> address c ->
  match pd_get (pd_set (monitored_wallets r) (address c)
                       (List.length (config_objects r))) a with
  | Some ref => nth_error (config_objects r ++ [c]) ref
  | None => None
  end = wallet_policy r a.
Proof.
  intros (_ & _ & Hobj & _) Hne. unfold wallet_policy.
  rewrite (pd_get_set_other _ (address c) a _ Hne).
  destruct (pd_get (monitored_wallets r) a) as [ref |] eqn:Hg;
    [| reflexivity].
  destruct (Hobj a ref Hg) as (c' & Hn & _).
  rewrite Hn. apply nth_error_snoc_old. exact Hn.
Qed.

(** X16: after [add_wallet] the policy stored for the new address is
    the one given, and policies and tasks of the other addresses are as
    before.  On a running manager an enabled wallet gets a new task that
    evaluates the given policy; otherwise no task is created. *)
Theorem add_wallet_lookup (ws : WalletSettings) (r : Registry)
    (c : WalletConfig) :
  registry_reachable ws r ->
  let r' := add_wallet c r in
  wallet_policy r' (address c) = Some c
  /\ (forall a, a <> address c ->
        wallet_policy r' a = wallet_policy r a
        /\ wallet_task r' a = wallet_task r a)
  /\ (status r = RUNNING -> enabled c = true ->
      exists t, wallet_task r' (address c) = Some t
                /\ task_policy r' t = Some c
                /\ task_wallet t = address c
                /\ task_cancelled t = false)
  /\ (status r = STOPPED \/ enabled c = false ->
      monitoring_tasks r' = monitoring_tasks r /\ tasks r' = tasks r).
Proof.
  intros Hr. destruct (registry_reachable_ok ws r Hr) as (Hok & Hst & _).
  cbv zeta. destruct (add_wallet_fields c r) as (Hobjs & Hmw & Hs & Hcase).
  split; [| split; [| split]].
  - unfold wallet_policy. rewrite Hmw, Hobjs, pd_get_set_same.
    apply nth_error_snoc_new.
  - intros a Hne. split.
    + unfold wallet_policy at 1. rewrite Hmw, Hobjs.
      exact (wallet_policy_stored r c a Hok Hne).
    + unfold wallet_task.
      destruct (BotStatus_eqb (status r) RUNNING && enabled c).
      * destruct Hcase as [Ht Hmt]. rewrite Ht, Hmt.
        rewrite (pd_get_set_other _ (address c) a _ Hne).
        destruct (pd_get (monitoring_tasks r) a) as [tref |] eqn:Hg;
          [| reflexivity].
        destruct Hok as (_ & _ & _ & Htask).
        destruct (Htask a tref Hg) as (t & Hn & _).
        rewrite Hn. apply nth_error_snoc_old. exact Hn.
      * destruct Hcase as [Ht Hmt]. rewrite Ht, Hmt. reflexivity.
  - intros Hrun Hen. rewrite Hrun, Hen in Hcase. simpl in Hcase.
    destruct Hcase as [Ht Hmt].
    eexists. unfold wallet_task, task_policy.
    rewrite Hmt, Ht, pd_get_set_same, Hobjs.
    split; [apply nth_error_snoc_new |]. simpl.
    split; [apply nth_error_snoc_new | split; reflexivity].
  - intros Hoff.
    assert (Hcond : BotStatus_eqb (status r) RUNNING && enabled c = false).
    { destruct Hoff as [-> | ->]; [reflexivity | apply andb_false_r]. }
    rewrite Hcond in Hcase. destruct Hcase as [Ht Hmt]. auto.
Qed.

Lemma add_wallet_lookup_witness :
  let c := sample_policy true false true (Some f_0_5) in
  let r' := add_wallet c (start_monitoring 5
                            (Registry_init sample_wallet_settings)) in
  wallet_policy r' "Wallet1111" = Some c
  /\ exists t, wallet_task r' "Wallet1111" = Some t
               /\ task_policy r' t = Some c.
Proof.
  cbv zeta.
  destruct (add_wallet_lookup sample_wallet_settings
              (start_monitoring 5 (Registry_init sample_wallet_settings))
              (sample_policy true false true (Some f_0_5)))
    as (Hp & _ & Hrun & _).
  - apply (registry_reachable_call sample_wallet_settings (CallStart 5)).
    apply registry_reachable_init.
  - split; [exact Hp |].
    destruct (Hrun eq_refl eq_refl) as (t & Ht & Hpol & _).
    exists t. split; assumption.
Defined.

(** The fields of the registry after [remove_wallet]. *)
Lemma remove_wallet_fields (wallet : string) (r : Registry) :
  let r' := remove_wallet wallet r in
  status r' = status r
  /\ config_objects r' = config_objects r
  /\ monitored_wallets r' = pd_del (monitored_wallets r) wallet
  /\ monitoring_tasks r' = pd_del (monitoring_tasks r) wallet
  /\ tasks r' = match pd_get (monitoring_tasks r) wallet with
                | Some tref => cancel_task (tasks r) tref
                | None => tasks r
                end.
Proof.
  cbv zeta. unfold remove_wallet.
  destruct (pd_get (monitoring_tasks r) wallet) as [tref |] eqn:Hg; simpl;
    unfold pd_mem;
    destruct (pd_get (monitored_wallets r) wallet) eqn:Hw; simpl;
    rewrite ?(pd_del_absent _ wallet Hw), ?(pd_del_absent _ wallet Hg);
    repeat split.
Qed.

(** X17: after [remove_wallet] the address has neither a policy nor a
    registered task, and the task it had has been cancelled; the other
    addresses keep their policies and tasks.  Removing an address that
    is not monitored changes nothing and raises nothing. *)
Theorem remove_wallet_forgets (ws : WalletSettings) (r : Registry)
    (wallet : string) :
  registry_reachable ws r ->
  let r' := remove_wallet wallet r in
  wallet_policy r' wallet = None
  /\ wallet_task r' wallet = None
  /\ (forall tref, pd_get (monitoring_tasks r) wallet = Some tref ->
        exists t', nth_error (tasks r') tref = Some t'
                   /\ task_wallet t' = wallet /\ task_cancelled t' = true)
  /\ (forall a, a <> wallet ->
        wallet_policy r' a = wallet_policy r a
        /\ wallet_task r' a = wallet_task r a)
  /\ (pd_mem (monitored_wallets r) wallet = false -> r' = r).
Proof.
  intros Hr. destruct (registry_reachable_ok ws r Hr)
    as ((Hw & Ht & Hobj & Htask) & _ & _).
  cbv zeta.
  destruct (remove_wallet_fields wallet r) as (Hs & Hobjs & Hmw & Hmt & Hts).
  split; [| split; [| split; [| split]]].
  - unfold wallet_policy. rewrite Hmw, (pd_get_del_same _ wallet Hw).
    reflexivity.
  - unfold wallet_task. rewrite Hmt, (pd_get_del_same _ wallet Ht).
    reflexivity.
  - intros tref Hg. rewrite Hts, Hg.
    destruct (Htask wallet tref Hg) as (t & Hn & Ha & _).
    rewrite (cancel_task_same _ tref t Hn). eexists.
    split; [reflexivity |]. simpl. split; [exact Ha | reflexivity].
  - intros a Hne. split.
    + unfold wallet_policy.
      rewrite Hmw, Hobjs, (pd_get_del_other _ wallet a Hne). reflexivity.
    + unfold wallet_task. rewrite Hmt, (pd_get_del_other _ wallet a Hne).
      destruct (pd_get (monitoring_tasks r) a) as [tref |] eqn:Hg;
        [| reflexivity].
      rewrite Hts.
      destruct (pd_get (monitoring_tasks r) wallet) as [tref0 |] eqn:Hg0;
        [| reflexivity].
      apply cancel_task_other. intros ->.
      destruct (Htask a tref Hg) as (t & Hn & Ha & _).
      destruct (Htask wallet tref Hg0) as (t0 & Hn0 & Ha0 & _).
      congruence.
  - intros Hm. unfold remove_wallet.
    assert (Hnone : pd_get (monitoring_tasks r) wallet = None).
    { destruct (pd_get (monitoring_tasks r) wallet) as [tref |] eqn:Hg;
        [| reflexivity].
      destruct (Htask wallet tref Hg) as (t & _ & _ & _ & _ & Hmem).
      congruence. }
    rewrite Hnone, Hm. reflexivity.
Qed.

Lemma remove_wallet_forgets_witness :
  let r := start_monitoring 5 (Registry_init sample_wallet_settings) in
  let r' := remove_wallet "Wallet2222" r in
  wallet_policy r' "Wallet2222" = None
  /\ wallet_task r' "Wallet2222" = None
  /\ remove_wallet "Nobody" r = r.
Proof.
  cbv zeta.
  assert (Hr : registry_reachable sample_wallet_settings
                 (start_monitoring 5 (Registry_init sample_wallet_settings))).
  { apply (registry_reachable_call sample_wallet_settings (CallStart 5)).
    apply registry_reachable_init. }
  destruct (remove_wallet_forgets sample_wallet_settings _ "Wallet2222" Hr)
    as (Hp & Ht & _).
  destruct (remove_wallet_forgets sample_wallet_settings _ "Nobody" Hr)
    as (_ & _ & _ & _ & Hno).
  split; [exact Hp |]. split; [exact Ht | apply Hno; reflexivity].
Defined.

Lemma fold_setattr_update_dict (u : UpdateWalletRequest) (c : WalletConfig) :
  fold_left setattr (update_dict u) c = patched u c.
Proof.
  destruct u as [[e |] [s1 |] [s2 |] [s3 |] [m |]], c; reflexivity.
Qed.

(** The policy of a wallet after [update_wallet], and that of the
    others. *)
Lemma update_wallet_policy (wallet : string) (updates : list FieldUpdate)
    (r : Registry) (c : WalletConfig) :
  stores_ok r -> wallet_policy r wallet = Some c ->
  wallet_policy (update_wallet wallet updates r) wallet
  = Some (fold_left setattr updates c)
  /\ forall a, a <> wallet ->
       wallet_policy (update_wallet wallet updates r) a = wallet_policy r a.
Proof.
  intros (_ & _ & Hobj & _) Hp. unfold wallet_policy in Hp.
  unfold update_wallet.
  destruct (pd_get (monitored_wallets r) wallet) as [ref |] eqn:Hg;
    [| discriminate].
  rewrite Hp. unfold wallet_policy. simpl. rewrite Hg. split.
  - apply nth_error_list_set_same. apply nth_error_Some. congruence.
  - intros a Hne.
    destruct (pd_get (monitored_wallets r) a) as [ref' |] eqn:Hg';
      [| reflexivity].
    apply nth_error_list_set_other. intros ->.
    destruct (Hobj wallet ref' Hg) as (c1 & Hn1 & Ha1).
    destruct (Hobj a ref' Hg') as (c2 & Hn2 & Ha2).
    congruence.
Qed.

Lemma update_wallet_frame (wallet : string) (updates : list FieldUpdate)
    (r : Registry) :
  let r' := update_wallet wallet updates r in
  status r' = status r
  /\ monitored_wallets r' = monitored_wallets r
  /\ monitoring_tasks r' = monitoring_tasks r
  /\ tasks r' = tasks r
  /\ (wallet_policy r wallet = None -> r' = r).
Proof.
  cbv zeta. unfold update_wallet, wallet_policy.
  destruct (pd_get (monitored_wallets r) wallet) as [ref |];
    [| repeat split].
  destruct (nth_error (config_objects r) ref); simpl; repeat split.
  discriminate.
Qed.

(** X18: an update through the endpoint is partial and in place.  The
    fields given in the request are replaced and the others kept; a
    ceiling can be replaced but not cleared; the address, the other
    wallets, the status and all tasks stay as they are, so no monitor is
    started or stopped, not even when [enabled] changes.  For an
    address that is not monitored nothing changes. *)
Theorem endpoint_update_partial (ws : WalletSettings) (r : Registry)
    (wallet : string) (u : UpdateWalletRequest) :
  registry_reachable ws r ->
  let r' := endpoint_update_wallet wallet u r in
  (wallet_policy r wallet = None -> r' = r)
  /\ (forall c, wallet_policy r wallet = Some c ->
        wallet_policy r' wallet = Some (patched u c)
        /\ (max_amount (patched u c) = None -> max_amount c = None))
  /\ (forall a, a <> wallet -> wallet_policy r' a = wallet_policy r a)
  /\ status r' = status r
  /\ monitored_wallets r' = monitored_wallets r
  /\ monitoring_tasks r' = monitoring_tasks r
  /\ tasks r' = tasks r.
Proof.
  intros Hr. destruct (registry_reachable_ok ws r Hr) as (Hok & _ & _).
  cbv zeta. unfold endpoint_update_wallet.
  destruct (update_wallet_frame wallet (update_dict u) r)
    as (Hs & Hmw & Hmt & Hts & Hnone).
  split; [exact Hnone |]. split; [| split].
  - intros c Hp.
    destruct (update_wallet_policy wallet (update_dict u) r c Hok Hp)
      as [Hnew _].
    rewrite Hnew, fold_setattr_update_dict. split; [reflexivity |].
    unfold patched. simpl. destruct (upd_max_amount u); [discriminate | auto].
  - intros a Hne.
    destruct (wallet_policy r wallet) as [c |] eqn:Hp.
    + destruct (update_wallet_policy wallet (update_dict u) r c Hok Hp)
        as [_ Hother].
      exact (Hother a Hne).
    + rewrite (Hnone eq_refl). reflexivity.
  - auto.
Qed.

Lemma endpoint_update_partial_witness :
  let u := {| upd_enabled := Some false; upd_copy_sol := None;
              upd_copy_spl := None; upd_copy_swaps := None;
              upd_max_amount := None |} in
  let r := start_monitoring 5 (Registry_init sample_wallet_settings) in
  let r' := endpoint_update_wallet "Wallet2222" u r in
  (exists c, wallet_policy r' "Wallet2222" = Some c
             /\ enabled c = false /\ max_amount c = Some f_1_0)
  /\ monitoring_tasks r' = monitoring_tasks r.
Proof.
  cbv zeta.
  destruct (endpoint_update_partial sample_wallet_settings
              (start_monitoring 5 (Registry_init sample_wallet_settings))
              "Wallet2222"
              {| upd_enabled := Some false; upd_copy_sol := None;
                 upd_copy_spl := None; upd_copy_swaps := None;
                 upd_max_amount := None |})
    as (_ & Hp & _ & _ & _ & Hmt & _).
  - apply (registry_reachable_call sample_wallet_settings (CallStart 5)).
    apply registry_reachable_init.
  - split; [| exact Hmt].
    destruct (Hp _ eq_refl) as [Hnew _].
    eexists. split; [exact Hnew | split; reflexivity].
Defined.

(** ** Which policy object a running monitor evaluates *)




(** X20: adding, on a running manager, an enabled wallet whose address
    already has a registered task replaces the entry of the dict without
    cancelling that task.  The task is then registered nowhere, and a
    later [stop_monitoring] does not cancel it either. *)
Theorem readded_wallet_task_survives_stop (ws : WalletSettings)
    (r : Registry) (c : WalletConfig) (tref : nat) :
  registry_reachable ws r -> status r = RUNNING ->
  pd_get (monitoring_tasks r) (address c) = Some tref ->
  enabled c = true ->
  let r1 := add_wallet c r in
  let r2 := stop_monitoring r1 in
  pd_get (monitoring_tasks r1) (address c) = Some (List.length (tasks r))
  /\ tref <> List.length (tasks r)
  /\ exists t, nth_error (tasks r2) tref = Some t
               /\ task_wallet t = address c
               /\ task_cancelled t = false.
Proof.
  intros Hr Hrun Hg Hen. cbv zeta.
  destruct (registry_reachable_ok ws r Hr)
    as ((_ & Ht & _ & Htask) & _ & _).
  destruct (Htask (address c) tref Hg) as (t & Hn & Ha & Hc & _).
  destruct (add_wallet_fields c r) as (_ & _ & Hs & Hcase).
  rewrite Hrun, Hen in Hcase. simpl in Hcase. destruct Hcase as [Hts Hmt].
  assert (Hlt : (tref < List.length (tasks r))%nat)
    by (apply nth_error_Some; congruence).
  split; [rewrite Hmt; apply pd_get_set_same |].
  split; [lia |].
  exists t. split; [| split; assumption].
  unfold stop_monitoring. rewrite Hs, Hrun. simpl.
  rewrite cancel_fold_miss.
  - rewrite Hts. apply nth_error_snoc_old. exact Hn.
  - intros k i Hin ->. rewrite Hmt in Hin.
    assert (Hnd : NoDup (pd_keys (pd_set (monitoring_tasks r) (address c)
                                         (List.length (tasks r)))))
      by (apply pd_set_nodup; exact Ht).
    pose proof (pd_in_get _ k tref Hnd Hin) as Hk.
    destruct (string_dec k (address c)) as [-> | Hne].
    + rewrite pd_get_set_same in Hk. inversion Hk. lia.
    + rewrite (pd_get_set_other _ (address c) k _ Hne) in Hk.
      destruct (Htask k tref Hk) as (t' & Hn' & Ha' & _). congruence.
Qed.

Lemma readded_wallet_task_survives_stop_witness :
  let r := start_monitoring 5 (Registry_init sample_wallet_settings) in
  let r2 := stop_monitoring
              (add_wallet (sample_policy true true true None) r) in
  exists t, nth_error (tasks r2) 0 = Some t
            /\ task_wallet t = "Wallet1111" /\ task_cancelled t = false.
Proof.
  cbv zeta.
  destruct (readded_wallet_task_survives_stop sample_wallet_settings
              (start_monitoring 5 (Registry_init sample_wallet_settings))
              (sample_policy true true true None) 0)
    as (_ & _ & H).
  - apply (registry_reachable_call sample_wallet_settings (CallStart 5)).
    apply registry_reachable_init.
  - reflexivity.
  - reflexivity.
  - reflexivity.
  - exact H.
Defined.

(** X21: adding a disabled wallet whose address has a registered task
    stores the new policy but leaves the task registered and running on
    the policy object it was created with: the monitor keeps applying
    the replaced policy, and updates through the endpoint no longer
    reach it. *)
Theorem readded_disabled_wallet_keeps_old_policy (ws : WalletSettings)
    (r : Registry) (c old : WalletConfig) (t : Task)
    (u : UpdateWalletRequest) :
  registry_reachable ws r ->
  wallet_task r (address c) = Some t ->
  task_policy r t = Some old ->
  enabled c = false ->
  let r1 := add_wallet c r in
  wallet_policy r1 (address c) = Some c
  /\ wallet_task r1 (address c) = Some t
  /\ task_policy r1 t = Some old
  /\ task_policy (endpoint_update_wallet (address c) u r1) t = Some old
  /\ wallet_policy (endpoint_update_wallet (address c) u r1) (address c)
     = Some (patched u c).
Proof.
  intros Hr Ht Hold Hen. cbv zeta.
  assert (Hr1 : registry_reachable ws (add_wallet c r))
    by (apply (registry_reachable_call ws (CallAdd c)); exact Hr).
  destruct (registry_reachable_ok ws _ Hr1) as (Hok1 & _ & _).
  destruct (add_wallet_fields c r) as (Hobjs & Hmw & Hs & Hcase).
  rewrite Hen, andb_false_r in Hcase. destruct Hcase as [Hts Hmt].
  assert (Hp1 : wallet_policy (add_wallet c r) (address c) = Some c).
  { unfold wallet_policy. rewrite Hmw, Hobjs, pd_get_set_same.
    apply nth_error_snoc_new. }
  assert (Ht1 : wallet_task (add_wallet c r) (address c) = Some t).
  { unfold wallet_task. rewrite Hmt, Hts. exact Ht. }
  assert (Hold1 : task_policy (add_wallet c r) t = Some old).
  { unfold task_policy. rewrite Hobjs. apply nth_error_snoc_old. exact Hold. }
  split; [exact Hp1 |]. split; [exact Ht1 |]. split; [exact Hold1 |].
  unfold endpoint_update_wallet.
  destruct (update_wallet_policy (address c) (update_dict u) _ c Hok1 Hp1)
    as [Hnew _].
  split; [| rewrite Hnew, fold_setattr_update_dict; reflexivity].
  unfold task_policy, update_wallet.
  rewrite Hmw, pd_get_set_same, Hobjs, nth_error_snoc_new. simpl.
  rewrite <- Hobjs.
  rewrite nth_error_list_set_other; [exact Hold1 |].
  intros Heq. unfold task_policy in Hold.
  assert (Hlt : (task_config t < List.length (config_objects r))%nat)
    by (apply nth_error_Some; congruence).
  lia.
Qed.

Lemma readded_disabled_wallet_keeps_old_policy_witness :
  let r := start_monitoring 5 (Registry_init sample_wallet_settings) in
  let c := set_enabled_sample false in
  let t := {| task_wallet := "Wallet1111"; task_config := 2;
              task_cancelled := false |} in
  wallet_policy (add_wallet c r) "Wallet1111" = Some c
  /\ task_policy (add_wallet c r) t
     = Some (configured_wallet sample_wallet_settings "Wallet1111").
Proof.
  cbv zeta.
  destruct (readded_disabled_wallet_keeps_old_policy sample_wallet_settings
              (start_monitoring 5 (Registry_init sample_wallet_settings))
              (set_enabled_sample false)
              (configured_wallet sample_wallet_settings "Wallet1111")
              {| task_wallet := "Wallet1111"; task_config := 2;
                 task_cancelled := false |}
              {| upd_enabled := None; upd_copy_sol := None;
                 upd_copy_spl := None; upd_copy_swaps := None;
                 upd_max_amount := None |})
    as (Hp & _ & Hold & _).
  - apply (registry_reachable_call sample_wallet_settings (CallStart 5)).
    apply registry_reachable_init.
  - reflexivity.
  - reflexivity.
  - reflexivity.
  - split; [exact Hp | exact Hold].
Defined.

(** ** The wallets loaded from the settings *)

Lemma lstrip_chars (s : string) (x : ascii) :
  In x (list_ascii_of_string (lstrip s)) -> In x (list_ascii_of_string s).
Proof.
  induction s as [| c rest IH]; simpl; [tauto |].
  destruct (is_space c); simpl; [intros H; right; exact (IH H) | tauto].
Qed.

Lemma rstrip_chars (s : string) (x : ascii) :
  In x (list_ascii_of_string (rstrip s)) -> In x (list_ascii_of_string s).
Proof.
  induction s as [| c rest IH]; simpl; [tauto |].
  destruct (rstrip rest) as [| k kept] eqn:E.
  - destruct (is_space c); simpl; tauto.
  - simpl in *. tauto.
Qed.

Lemma lstrip_head (s : string) :
  match lstrip s with
  | EmptyString => True
  | String c _ => is_space c = false
  end.
Proof.
  induction s as [| c rest IH]; simpl; [exact I |].
  destruct (is_space c) eqn:E; [exact IH | exact E].
Qed.

Lemma rstrip_idem (s : string) : rstrip (rstrip s) = rstrip s.
Proof.
  induction s as [| c rest IH]; simpl; [reflexivity |].
  destruct (rstrip rest) as [| k kept] eqn:E.
  - destruct (is_space c) eqn:Hc; simpl; [reflexivity |].
    rewrite Hc. reflexivity.
  - simpl. simpl in IH. rewrite IH. reflexivity.
Qed.

Lemma rstrip_keeps_head (c : ascii) (rest : string) :
  is_space c = false -> exists k, rstrip (String c rest) = String c k.
Proof.
  intros Hc. simpl. destruct (rstrip rest) as [| k kept].
  - rewrite Hc. eauto.
  - eauto.
Qed.

Lemma strip_idem (s : string) : strip (strip s) = strip s.
Proof.
  unfold strip. pose proof (lstrip_head s) as Hh.
  destruct (lstrip s) as [| c rest]; [reflexivity |].
  destruct (rstrip_keeps_head c rest Hh) as [k Hk].
  rewrite Hk. simpl lstrip. rewrite Hh, <- Hk. apply rstrip_idem.
Qed.

Lemma split_comma_no_comma (s piece : string) :
  In piece (split_comma s) ->
  ~ In ","%char (list_ascii_of_string piece).
Proof.
  revert piece. induction s as [| c rest IH]; intros piece; simpl.
  - intros [<- | []]. simpl. tauto.
  - destruct (Ascii.eqb_spec c ","%char) as [-> | Hc].
    + intros [<- | H]; [simpl; tauto | exact (IH piece H)].
    + destruct (split_comma rest) as [| p ps] eqn:E.
      * intros [<- | []]. simpl. intros [H | []]. congruence.
      * intros [<- | H].
        -- simpl. intros [H | H]; [congruence |].
           exact (IH p (or_introl eq_refl) H).
        -- exact (IH piece (or_intror H)).
Qed.

Lemma wallet_addresses_clean (target a : string) :
  In a (wallet_addresses target) ->
  a <> "" /\ strip a = a /\ ~ In ","%char (list_ascii_of_string a).
Proof.
  unfold wallet_addresses. intros H. apply in_map_iff in H.
  destruct H as (piece & <- & Hin). apply filter_In in Hin.
  destruct Hin as [Hpiece Hne]. split; [| split].
  - intros E. rewrite E in Hne. discriminate.
  - apply strip_idem.
  - intros Hc. apply (split_comma_no_comma target piece Hpiece).
    apply lstrip_chars. apply rstrip_chars. exact Hc.
Qed.

(** One step of the loop of [_load_configuration]. *)
Lemma load_step_policy (ws : WalletSettings) (r : Registry)
    (wallet a : string) :
  stores_ok r ->
  let r' := {| status := status r;
               config_objects :=
                 config_objects r ++ [configured_wallet ws wallet];
               tasks := tasks r;
               monitored_wallets :=
                 pd_set (monitored_wallets r) wallet
                        (List.length (config_objects r));
               monitoring_tasks := monitoring_tasks r;
               start_time := start_time r;
               last_error := last_error r |} in
  stores_ok r'
  /\ wallet_policy r' wallet = Some (configured_wallet ws wallet)
  /\ (a <> wallet -> wallet_policy r' a = wallet_policy r a)
  /\ (pd_mem (monitored_wallets r') a = true <->
      pd_mem (monitored_wallets r) a = true \/ a = wallet).
Proof.
  intros Hok. cbv zeta. split; [| split; [| split]].
  - exact (stores_ok_wallet_stored r (configured_wallet ws wallet) Hok).
  - unfold wallet_policy. simpl. rewrite pd_get_set_same.
    apply nth_error_snoc_new.
  - intros Hne. unfold wallet_policy at 1. simpl.
    exact (wallet_policy_stored r (configured_wallet ws wallet) a Hok Hne).
  - simpl. split.
    + intros H. destruct (string_dec a wallet) as [-> | Hne]; [auto |].
      left. unfold pd_mem in *.
      rewrite (pd_get_set_other _ wallet a _ Hne) in H. exact H.
    + apply pd_mem_set.
Qed.

Lemma load_fold (ws : WalletSettings) (l : list string) :
  forall r : Registry,
    stores_ok r ->
    let r' :=
      fold_left
        (fun acc wallet =>
           {| status := status acc;
              config_objects :=
                config_objects acc ++ [configured_wallet ws wallet];
              tasks := tasks acc;
              monitored_wallets :=
                pd_set (monitored_wallets acc) wallet
                       (List.length (config_objects acc));
              monitoring_tasks := monitoring_tasks acc;
              start_time := start_time acc;
              last_error := last_error acc |}) l r in
    stores_ok r'
    /\ status r' = status r /\ tasks r' = tasks r
    /\ monitoring_tasks r' = monitoring_tasks r
    /\ (forall a, pd_mem (monitored_wallets r') a = true <->
                  pd_mem (monitored_wallets r) a = true \/ In a l)
    /\ (forall a, wallet_policy r a = Some (configured_wallet ws a)
                  \/ In a l ->
                  wallet_policy r' a = Some (configured_wallet ws a)).
Proof.
  induction l as [| wallet l IH]; intros r Hok; cbv zeta; simpl.
  - split; [exact Hok |]. do 3 (split; [reflexivity |]).
    split; [intros a; tauto | intros a [H | []]; exact H].
  - set (r1 := {| status := status r;
                  config_objects :=
                    config_objects r ++ [configured_wallet ws wallet];
                  tasks := tasks r;
                  monitored_wallets :=
                    pd_set (monitored_wallets r) wallet
                           (List.length (config_objects r));
                  monitoring_tasks := monitoring_tasks r;
                  start_time := start_time r;
                  last_error := last_error r |}).
    assert (Hstep : forall a,
               stores_ok r1
               /\ wallet_policy r1 wallet = Some (configured_wallet ws wallet)
               /\ (a <> wallet -> wallet_policy r1 a = wallet_policy r a)
               /\ (pd_mem (monitored_wallets r1) a = true <->
                   pd_mem (monitored_wallets r) a = true \/ a = wallet))
      by (intros a; exact (load_step_policy ws r wallet a Hok)).
    destruct (IH r1 (proj1 (Hstep wallet)))
      as (Hok' & Hs & Ht & Hmt & Hmem & Hpol).
    split; [exact Hok' |]. split; [exact Hs |]. split; [exact Ht |].
    split; [exact Hmt |]. split.
    + intros a. rewrite (Hmem a).
      destruct (Hstep a) as (_ & _ & _ & Hm1). rewrite Hm1.
      split; [intros [[H | H] | H] | intros [H | [H | H]]]; auto.
    + intros a Ha. apply Hpol.
      destruct (string_dec a wallet) as [-> | Hne].
      * left. exact (proj1 (proj2 (Hstep wallet))).
      * destruct Ha as [Ha | [Ha | Ha]]; [| congruence | right; exact Ha].
        left. destruct (Hstep a) as (_ & _ & Hother & _).
        rewrite (Hother Hne). exact Ha.
Qed.

(** X22: the manager starts stopped and without tasks, with exactly the
    wallets named in [settings.target_wallets]: the pieces between
    commas, stripped, the empty ones left out, each address once.  Every
    such address is non-empty, has no whitespace at either end and no
    comma, and its policy is enabled, with the toggles of the settings
    and the ceiling [max_transaction_amount] (never [None]). *)
Theorem load_configuration_wallets (ws : WalletSettings) :
  let r := Registry_init ws in
  status r = STOPPED
  /\ tasks r = [] /\ monitoring_tasks r = []
  /\ NoDup (pd_keys (monitored_wallets r))
  /\ (forall a, pd_mem (monitored_wallets r) a = true <->
                In a (wallet_addresses (target_wallets ws)))
  /\ (forall a, In a (wallet_addresses (target_wallets ws)) ->
        wallet_policy r a = Some (configured_wallet ws a)
        /\ a <> "" /\ strip a = a
        /\ ~ In ","%char (list_ascii_of_string a)).
Proof.
  cbv zeta. unfold Registry_init, _load_configuration.
  set (r0 := {| status := STOPPED; config_objects := []; tasks := [];
                monitored_wallets := []; monitoring_tasks := [];
                start_time := None; last_error := None |}).
  assert (Hok0 : stores_ok r0).
  { unfold stores_ok. simpl.
    split; [constructor |]. split; [constructor |].
    split; intros a ref H; discriminate. }
  destruct (String.eqb_spec (target_wallets ws) "") as [E | E]; simpl.
  - rewrite E. split; [reflexivity |]. do 2 (split; [reflexivity |]).
    split; [constructor |]. split.
    + intros a. simpl. split; [discriminate | tauto].
    + intros a [].
  - destruct (load_fold ws (wallet_addresses (target_wallets ws)) r0 Hok0)
      as ((Hw & _) & Hs & Ht & Hmt & Hmem & Hpol).
    split; [exact Hs |]. split; [exact Ht |]. split; [exact Hmt |].
    split; [exact Hw |]. split.
    + intros a. rewrite (Hmem a). simpl.
      split; [intros [H | H]; [discriminate | exact H] | auto].
    + intros a Ha. split; [apply Hpol; right; exact Ha |].
      exact (wallet_addresses_clean (target_wallets ws) a Ha).
Qed.

Lemma load_configuration_wallets_witness :
  let r := Registry_init sample_wallet_settings in
  pd_keys (monitored_wallets r) = ["Wallet1111"; "Wallet2222"]
  /\ wallet_policy r "Wallet1111"
     = Some (configured_wallet sample_wallet_settings "Wallet1111").
Proof.
  cbv zeta. split; [reflexivity |].
  destruct (load_configuration_wallets sample_wallet_settings)
    as (_ & _ & _ & _ & _ & Hpol).
  apply Hpol. simpl. left. reflexivity.
Defined.

(** ** The receive loop of a monitor *)

Lemma notification_of_shape (id data log : json) :
  notification_of id data = Ok (Some log) <->
  exists kv pkv,
    data = JDict kv
    /\ dict_get kv "params" = Some (JDict pkv)
    /\ py_eq match dict_get pkv "subscription" with
             | Some v => v
             | None => JNull
             end id = true
    /\ dict_get pkv "result" = Some log.
Proof.
  unfold notification_of. split.
  - destruct data as [| b | z | f | str | l | kv];
      cbn [py_contains_str py_getitem_str py_get bind]; try discriminate.
    + destruct (str_contains "params" str); discriminate.
    + destruct (existsb _ l); discriminate.
    + destruct (dict_get kv "params") as [params |] eqn:Hp;
        cbn [py_contains_str py_getitem_str py_get bind]; [| discriminate].
      destruct params as [| b | z | f | str | l | pkv];
        cbn [py_contains_str py_getitem_str py_get bind]; try discriminate.
      destruct (dict_get pkv "subscription") as [sub |] eqn:Hs;
        cbn [py_contains_str py_getitem_str py_get bind];
        (match goal with
         | |- context [py_eq ?x id] => destruct (py_eq x id) eqn:He
         end; [| discriminate]);
        cbn [py_contains_str py_getitem_str py_get bind];
        (destruct (dict_get pkv "result") as [v |] eqn:Hr;
         cbn [bind]; [| discriminate]);
        intros H; inversion H; subst v; exists kv, pkv; rewrite Hs; auto.
  - intros (kv & pkv & -> & Hp & He & Hr).
    cbn [py_contains_str py_getitem_str py_get bind]. rewrite Hp.
    cbn [py_contains_str py_getitem_str py_get bind].
    destruct (dict_get pkv "subscription");
      cbn [py_contains_str py_getitem_str py_get bind];
      rewrite He; cbn [py_getitem_str bind]; rewrite Hr; reflexivity.
Qed.

(** X23: the loop hands a message to [_process_log_notification]
    exactly when it is an object whose ["params"] is an object with a
    ["result"] and with a ["subscription"] equal to the identifier
    received at subscription (a missing ["subscription"] counts as
    [None]).  Any other message, including one that makes the test
    raise, leaves the world as it is. *)
Theorem monitor_message_filter (ft : json -> result datetime) (s : Settings)
    (wallet : string) (config : WalletConfig) (id data : json)
    (session : bool) (http : HttpOutcome) (now : datetime) (w : World) :
  (forall log,
      (exists kv pkv,
          data = JDict kv
          /\ dict_get kv "params" = Some (JDict pkv)
          /\ py_eq match dict_get pkv "subscription" with
                   | Some v => v
                   | None => JNull
                   end id = true
          /\ dict_get pkv "result" = Some log) ->
      on_message ft s wallet config id data session http now w
      = _process_log_notification ft s
          (delivery_of wallet config log session http now) w)
  /\ ((forall log, ~ exists kv pkv,
          data = JDict kv
          /\ dict_get kv "params" = Some (JDict pkv)
          /\ py_eq match dict_get pkv "subscription" with
                   | Some v => v
                   | None => JNull
                   end id = true
          /\ dict_get pkv "result" = Some log) ->
      on_message ft s wallet config id data session http now w = w).
Proof.
  unfold on_message. split.
  - intros log H. apply notification_of_shape in H. rewrite H. reflexivity.
  - intros Hno.
    destruct (notification_of id data) as [[log |] | e] eqn:E;
      try reflexivity.
    exfalso. apply (Hno log). apply notification_of_shape. exact E.
Qed.

Lemma monitor_message_filter_witness :
  on_message sample_fromtimestamp default_settings "Wallet1111"
    (sample_policy true true true None) (JInt 42)
    (sample_notification 42 "sigS") true HttpFailed 3 World_init
  = _process_log_notification sample_fromtimestamp default_settings
      (delivery_of "Wallet1111" (sample_policy true true true None)
         (JDict [("signature", JStr "sigS")]) true HttpFailed 3)
      World_init.
Proof.
  apply (proj1 (monitor_message_filter sample_fromtimestamp default_settings
                  "Wallet1111" (sample_policy true true true None) (JInt 42)
                  (sample_notification 42 "sigS") true HttpFailed 3
                  World_init)).
  eexists. eexists. split; [reflexivity |]. split; [reflexivity |].
  split; reflexivity.
Defined.

(** X24: the loop ends at the first closed or failed connection, so
    nothing that arrives afterwards is handled; and events that are
    passed over (messages that do not decode or belong to another
    subscription) leave the world unchanged and do not end the loop. *)
Theorem monitor_loop_close_and_skip (ft : json -> result datetime)
    (s : Settings) (wallet : string) (config : WalletConfig) (id : json)
    (before after : list WsEvent) (w : World) :
  monitor_loop ft s wallet config id (before ++ WsClosed :: after) w
  = monitor_loop ft s wallet config id before w
  /\ monitor_loop ft s wallet config id (before ++ WsFault :: after) w
     = monitor_loop ft s wallet config id before w
  /\ (forallb (passed_over id) before = true ->
      monitor_loop ft s wallet config id (before ++ after) w
      = monitor_loop ft s wallet config id after w).
Proof.
  revert w. induction before as [| e before IH]; intros w; simpl.
  - repeat split.
  - destruct e as [data session http now | | |]; simpl.
    + destruct (IH (on_message ft s wallet config id data session http now w))
        as (H1 & H2 & H3).
      split; [exact H1 |]. split; [exact H2 |].
      intros Hp. apply andb_true_iff in Hp. destruct Hp as [Hd Hrest].
      assert (Hw : on_message ft s wallet config id data session http now w
                   = w).
      { unfold on_message.
        destruct (notification_of id data) as [[log |] | e];
          [discriminate | reflexivity | reflexivity]. }
      rewrite Hw. destruct (IH w) as (_ & _ & H3'). exact (H3' Hrest).
    + destruct (IH w) as (H1 & H2 & H3). auto.
    + split; [reflexivity |]. split; [reflexivity | discriminate].
    + split; [reflexivity |]. split; [reflexivity | discriminate].
Qed.

Lemma monitor_loop_close_and_skip_witness :
  monitor_loop sample_fromtimestamp default_settings "Wallet1111"
    (sample_policy true true true None) (JInt 42)
    ([WsGarbage; WsMessage (sample_notification 7 "sigO") true HttpFailed 1]
     ++ [WsClosed]) World_init
  = World_init.
Proof.
  destruct (monitor_loop_close_and_skip sample_fromtimestamp default_settings
              "Wallet1111" (sample_policy true true true None) (JInt 42)
              [WsGarbage;
               WsMessage (sample_notification 7 "sigO") true HttpFailed 1]
              [WsClosed] World_init) as (_ & _ & Hskip).
  rewrite (Hskip eq_refl). reflexivity.
Defined.

Lemma pd_del_set_absent {V : Type} (d : pydict V) (k : string) (v : V) :
  pd_get d k = None -> pd_del (pd_set d k v) k = d.
Proof.
  induction d as [| [k0 v0] d IH]; simpl.
  - rewrite String.eqb_refl. reflexivity.
  - destruct (String.eqb k0 k) eqn:E; [discriminate |].
    intros H. simpl. rewrite E, (IH H). reflexivity.
Qed.

(** X25: [monitor_wallet] for a wallet that already has a connection
    changes nothing.  Otherwise, however the handshake and the loop
    end, the wallet has no connection and no subscription identifier
    when it returns, the connections are exactly those from before and
    the entries of the other wallets are kept; and when the handshake
    fails (no connection, no send, no answer, or an answer without
    ["result"]) the world is unchanged. *)
Theorem monitor_wallet_cleans_up (ft : json -> result datetime)
    (s : Settings) (wallet : string) (config : WalletConfig)
    (h : Handshake) (events : list WsEvent) (c : SolanaClient) (w : World) :
  NoDup (pd_keys (subscription_ids c)) ->
  let out := monitor_wallet ft s wallet config h events c w in
  (pd_mem (ws_connections c) wallet = true -> out = (c, w))
  /\ (pd_mem (ws_connections c) wallet = false ->
      ws_connections (fst out) = ws_connections c
      /\ pd_mem (subscription_ids (fst out)) wallet = false
      /\ (forall a, a <> wallet ->
            pd_get (subscription_ids (fst out)) a
            = pd_get (subscription_ids c) a)
      /\ running (fst out) = running c
      /\ ((connected h = None \/ sent h = false \/ answer h = None
           \/ exists response,
                answer h = Some response
                /\ py_contains_str "result" response <> Ok true) ->
          snd out = w)).
Proof.
  intros Hnd. cbv zeta. unfold monitor_wallet. split.
  - intros ->. reflexivity.
  - intros Hm. rewrite Hm.
    assert (Hget : pd_get (ws_connections c) wallet = None).
    { unfold pd_mem in Hm.
      destruct (pd_get (ws_connections c) wallet); [discriminate | auto]. }
    assert (Hsub : forall d : pydict json,
               NoDup (pd_keys d) ->
               pd_mem (pd_del d wallet) wallet = false
               /\ forall a, a <> wallet ->
                    pd_get (pd_del d wallet) a = pd_get d a).
    { intros d Hd. unfold pd_mem. rewrite (pd_get_del_same d wallet Hd).
      split; [reflexivity |]. intros a Ha. apply pd_get_del_other. exact Ha. }
    assert (Hsub2 : forall id,
               pd_mem (pd_del (pd_set (subscription_ids c) wallet id) wallet)
                      wallet = false
               /\ forall a, a <> wallet ->
                    pd_get (pd_del (pd_set (subscription_ids c) wallet id)
                                   wallet) a
                    = pd_get (subscription_ids c) a).
    { intros id.
      destruct (Hsub (pd_set (subscription_ids c) wallet id)
                  (pd_set_nodup _ wallet id Hnd)) as [H1 H2].
      split; [exact H1 |]. intros a Ha. rewrite (H2 a Ha).
      apply pd_get_set_other. exact Ha. }
    destruct (Hsub (subscription_ids c) Hnd) as [Hs1 Hs2].
    destruct (connected h) as [ws |]; simpl.
    + destruct (sent h); simpl;
        [| rewrite (pd_del_set_absent _ wallet ws Hget);
           repeat split; auto].
      destruct (answer h) as [response |]; simpl;
        [| rewrite (pd_del_set_absent _ wallet ws Hget);
           repeat split; auto].
      destruct (py_contains_str "result" response) as [[|] | e] eqn:Hc; simpl;
        try (rewrite (pd_del_set_absent _ wallet ws Hget);
             repeat split; auto).
      destruct (py_getitem_str response "result") as [id | e]; simpl;
        rewrite (pd_del_set_absent _ wallet ws Hget).
      * destruct (Hsub2 id) as [H1 H2].
        split; [reflexivity |]. split; [exact H1 |]. split; [exact H2 |].
        split; [reflexivity |].
        intros [H | [H | [H | (r0 & Hr & Hne)]]]; try discriminate.
        inversion Hr; subst r0. congruence.
      * repeat split; auto.
    + rewrite (pd_del_absent _ wallet Hget). repeat split; auto.
Qed.

Lemma monitor_wallet_cleans_up_witness :
  let c := {| ws_connections := [("Wallet2222", 1%nat)];
              subscription_ids := [("Wallet2222", JInt 9)];
              running := true |} in
  let h := {| connected := Some 2%nat; sent := true;
              answer := Some (JDict [("error", JStr "denied")]) |} in
  let out := monitor_wallet sample_fromtimestamp default_settings
               "Wallet1111" (sample_policy true true true None) h
               [WsMessage (sample_notification 42 "sigS") true HttpFailed 3]
               c World_init in
  ws_connections (fst out) = ws_connections c /\ snd out = World_init.
Proof.
  cbv zeta.
  destruct (monitor_wallet_cleans_up sample_fromtimestamp default_settings
              "Wallet1111" (sample_policy true true true None)
              {| connected := Some 2%nat; sent := true;
                 answer := Some (JDict [("error", JStr "denied")]) |}
              [WsMessage (sample_notification 42 "sigS") true HttpFailed 3]
              {| ws_connections := [("Wallet2222", 1%nat)];
                 subscription_ids := [("Wallet2222", JInt 9)];
                 running := true |}
              World_init) as [_ H].
  - simpl. constructor; [simpl; tauto | constructor].
  - destruct (H eq_refl) as (Hws & _ & _ & _ & Hw).
    split; [exact Hws |]. apply Hw. right; right; right.
    eexists. split; [reflexivity | discriminate].
Defined.
